(** * Open Interpreter: the terminal entry point

    A shallow embedding of
    [interpreter/terminal_interface/start_terminal_interface.py]:
    the option schema, the attribute binder [set_attributes], the mode
    expander, the OS-control provisioner, the model default inferencer and
    the dispatch of [start_terminal_interface], followed by the properties
    of the configuration resolver.

    Python objects are attribute dictionaries ([gmap string value]); the
    parsed [argparse.Namespace] is an ordered association list, because
    [set_attributes] iterates over [vars(args).items()]. Output, prompts
    and calls into collaborators are recorded in a trace of events. *)

From Stdlib Require Import String Ascii List ZArith Bool Lia PrimFloat.
From stdpp Require Import base option gmap strings list.
Import ListNotations.

Local Open Scope string_scope.
Local Open Scope Z_scope.

(** ** Python values and strings *)

Module Py.

(** Values that reach the namespace and the attributes: [None], [bool],
    [int], [float] and [str]. *)
Inductive value : Type :=
| VNone
| VBool (b : bool)
| VInt (z : Z)
| VFloat (f : float)
| VStr (s : string).

Definition is_None (v : value) : bool :=
  match v with VNone => true | _ => false end.

(** Truth value of [if v:] / [not v]. *)
Definition truthy (v : value) : bool :=
  match v with
  | VNone => false
  | VBool b => b
  | VInt z => negb (z =? 0)
  | VFloat f => negb (PrimFloat.eqb f PrimFloat.zero)
  | VStr s => negb (String.eqb s EmptyString)
  end.

(** [v == "lit"] for a string literal. *)
Definition eq_str (v : value) (lit : string) : bool :=
  match v with VStr s => String.eqb s lit | _ => false end.

(** The double quote character, as a one-character string. *)
Definition dq : string := String (ascii_of_nat 34) EmptyString.

(** [s.startswith(p)] *)
Definition startswith (s p : string) : bool := String.prefix p s.

(** [s.lower()] on the ASCII letters. Strings are byte strings (UTF-8);
    the code only compares the lowered text against ASCII prefixes, and no
    character outside ASCII lowers to one of their letters followed by
    the next letter of the prefix. *)
Definition lower_ascii (c : ascii) : ascii :=
  let n := nat_of_ascii c in
  if (Nat.leb 65 n && Nat.leb n 90)%bool then ascii_of_nat (n + 32) else c.

Fixpoint lower (s : string) : string :=
  match s with
  | EmptyString => EmptyString
  | String c t => String (lower_ascii c) (lower t)
  end.

(** [sub in s] *)
Fixpoint contains (sub s : string) : bool :=
  String.prefix sub s ||
  match s with
  | EmptyString => false
  | String _ t => contains sub t
  end.

(** [s[n:]] *)
Fixpoint drop (n : nat) (s : string) : string :=
  match n, s with
  | O, _ => s
  | S k, EmptyString => EmptyString
  | S k, String _ t => drop k t
  end.

(** [s.replace(old, new)]: every occurrence of [old], found from left to
    right without overlap, becomes [new]. [skip] counts the characters of
    a match still to be passed over. *)
Fixpoint replace_from (old new : string) (skip : nat) (s : string) : string :=
  match s with
  | EmptyString => EmptyString
  | String c t =>
      match skip with
      | S k => replace_from old new k t
      | O =>
          if String.prefix old s
          then new +:+ replace_from old new (String.length old - 1) t
          else String c (replace_from old new O t)
      end
  end.

Fixpoint intersperse (new s : string) : string :=
  match s with
  | EmptyString => new
  | String c t => new +:+ String c (intersperse new t)
  end.

Definition replace (old new s : string) : string :=
  match old with
  | EmptyString => intersperse new s
  | _ => replace_from old new O s
  end.

(** [s.strip()]: the literal it is applied to begins and ends with spaces
    and newlines only. *)
Definition is_space (c : ascii) : bool :=
  let n := nat_of_ascii c in
  (Nat.leb 9 n && Nat.leb n 13 || Nat.eqb n 32)%bool.

Fixpoint lstrip (s : string) : string :=
  match s with
  | EmptyString => EmptyString
  | String c t => if is_space c then lstrip t else s
  end.

Fixpoint rstrip (s : string) : string :=
  match s with
  | EmptyString => EmptyString
  | String c t =>
      match rstrip t with
      | EmptyString => if is_space c then EmptyString else String c EmptyString
      | t' => String c t'
      end
  end.

Definition strip (s : string) : string := rstrip (lstrip s).

(** [sep.join(l)] is [String.concat sep l]. *)

End Py.
Export Py.

(** ** The option schema *)

(** The two objects a descriptor can bind to: [interpreter] and
    [interpreter.llm]. *)
Inductive target : Type := Interpreter | Llm.

#[global] Instance target_eq_dec : EqDecision target.
Proof. solve_decision. Defined.

Inductive arg_type : Type := TStr | TBool | TInt | TFloat.

Inductive arg_action : Type := BooleanOptionalAction.

(** One dictionary of the [arguments] list. A key the dictionary does not
    have is [None] here. *)
Record Argument : Type := {
  name : string;
  nickname : option string;
  help_text : string;
  type : arg_type;
  default : option value;
  action : option arg_action;
  choices : option (list string);
  nargs : option string;
  attribute : option (target * string)
}.

Definition mk (n : string) (nick : option string) (help : string)
    (t : arg_type) (attr : option (target * string)) : Argument :=
  {| name := n; nickname := nick; help_text := help; type := t;
     default := None; action := None; choices := None; nargs := None;
     attribute := attr |}.

Definition with_default (v : value) (a : Argument) : Argument :=
  {| name := name a; nickname := nickname a; help_text := help_text a;
     type := type a; default := Some v; action := action a;
     choices := choices a; nargs := nargs a; attribute := attribute a |}.

Definition with_action (x : arg_action) (a : Argument) : Argument :=
  {| name := name a; nickname := nickname a; help_text := help_text a;
     type := type a; default := default a; action := Some x;
     choices := choices a; nargs := nargs a; attribute := attribute a |}.

Definition with_choices (l : list string) (a : Argument) : Argument :=
  {| name := name a; nickname := nickname a; help_text := help_text a;
     type := type a; default := default a; action := action a;
     choices := Some l; nargs := nargs a; attribute := attribute a |}.

Definition with_nargs (n : string) (a : Argument) : Argument :=
  {| name := name a; nickname := nickname a; help_text := help_text a;
     type := type a; default := default a; action := action a;
     choices := choices a; nargs := Some n; attribute := attribute a |}.

Definition arguments : list Argument := [
  with_default (VStr "default.yaml")
    (mk "profile" (Some "p")
       "name of profile. run `--profiles` to open profile directory"
       TStr None);
  mk "custom_instructions" (Some "ci")
    "custom instructions for the language model. will be appended to the system_message"
    TStr (Some (Interpreter, "custom_instructions"));
  mk "system_message" (Some "s")
    "(we don't recommend changing this) base prompt for the language model"
    TStr (Some (Interpreter, "system_message"));
  mk "auto_run" (Some "y")
    "automatically run generated code"
    TBool (Some (Interpreter, "auto_run"));
  mk "verbose" (Some "v")
    "print detailed logs"
    TBool (Some (Interpreter, "verbose"));
  mk "model" (Some "m")
    "language model to use"
    TStr (Some (Llm, "model"));
  mk "temperature" (Some "t")
    "optional temperature setting for the language model"
    TFloat (Some (Llm, "temperature"));
  with_action BooleanOptionalAction
    (mk "llm_supports_vision" (Some "lsv")
       "inform OI that your model supports vision, and can recieve vision inputs"
       TBool (Some (Llm, "supports_vision")));
  with_action BooleanOptionalAction
    (mk "llm_supports_functions" (Some "lsf")
       "inform OI that your model supports OpenAI-style functions, and can make function calls"
       TBool (Some (Llm, "supports_functions")));
  mk "context_window" (Some "cw")
    "optional context window size for the language model"
    TInt (Some (Llm, "context_window"));
  mk "max_tokens" (Some "x")
    "optional maximum number of tokens for the language model"
    TInt (Some (Llm, "max_tokens"));
  mk "max_budget" (Some "b")
    "optionally set the max budget (in USD) for your llm calls"
    TFloat (Some (Llm, "max_budget"));
  mk "api_base" (Some "ab")
    "optionally set the API base URL for your llm calls (this will override environment variables)"
    TStr (Some (Llm, "api_base"));
  mk "api_key" (Some "ak")
    "optionally set the API key for your llm calls (this will override environment variables)"
    TStr (Some (Llm, "api_key"));
  mk "api_version" (Some "av")
    "optionally set the API version for your llm calls (this will override environment variables)"
    TStr (Some (Llm, "api_version"));
  mk "max_output" (Some "xo")
    "optional maximum number of characters for code outputs"
    TInt (Some (Interpreter, "max_output"));
  mk "force_task_completion" (Some "fc")
    "runs OI in a loop, requiring it to admit to completing/failing task"
    TBool (Some (Interpreter, "force_task_completion"));
  with_default (VBool false)
    (mk "disable_telemetry" (Some "dt")
       "disables sending of basic anonymous usage stats"
       TBool (Some (Interpreter, "disable_telemetry")));
  mk "offline" (Some "o")
    "turns off all online features (except the language model, if it's hosted)"
    TBool (Some (Interpreter, "offline"));
  mk "speak_messages" (Some "sm")
    "(Mac only, experimental) use the applescript `say` command to read messages aloud"
    TBool (Some (Interpreter, "speak_messages"));
  with_default (VStr "off")
    (with_choices ["off"; "ask"; "auto"]
       (mk "safe_mode" (Some "safe")
          "optionally enable safety mechanisms like code scanning; valid options are off, ask, and auto"
          TStr (Some (Interpreter, "safe_mode"))));
  mk "debug" (Some "debug")
    "debug mode for open interpreter developers"
    TBool (Some (Interpreter, "debug"));
  mk "fast" (Some "f")
    "runs `interpreter --model gpt-3.5-turbo` and asks OI to be extremely concise"
    TBool None;
  mk "multi_line" (Some "ml")
    "enable multi-line inputs starting and ending with ```"
    TBool (Some (Interpreter, "multi_line"));
  mk "local" (Some "l")
    "experimentally run the LLM locally via Llamafile (this changes many more settings than `--offline`)"
    TBool None;
  mk "vision" (Some "vi")
    "experimentally use vision for supported languages"
    TBool None;
  mk "os" (Some "os")
    "experimentally let Open Interpreter control your mouse and keyboard"
    TBool None;
  (* Special commands *)
  with_default (VStr "NOT_PROVIDED")
    (with_nargs "?"
       (mk "reset_profile" None
          "reset a profile file. run `--reset_profile` without an argument to reset all default profiles"
          TStr None));
  mk "profiles" None "opens profiles directory" TBool None;
  mk "local_models" None "opens local models directory" TBool None;
  mk "conversations" None "list conversations to resume" TBool None;
  mk "server" None "start open interpreter as a server" TBool None;
  mk "version" None "get Open Interpreter's version number" TBool None
].

(** [get_argument_dictionary(arguments, key)]: the first dictionary named
    [key]; the empty dictionary of the source, which is false in a
    condition, is [None]. *)
Definition get_argument_dictionary (arguments : list Argument) (key : string)
    : option Argument :=
  match List.filter (fun x => String.eqb (name x) key) arguments with
  | d :: _ => Some d
  | [] => None
  end.

(** ** The parsed namespace *)

(** [vars(args)]: option name to value, in the order of the schema.
    [argparse] enters every destination with its default ([None] where the
    schema gives none) before it reads the command line. *)
Definition namespace : Type := list (string * value).

(** [getattr(args, key)] *)
Fixpoint ns_get (args : namespace) (key : string) : option value :=
  match args with
  | [] => None
  | (k, v) :: rest => if String.eqb k key then Some v else ns_get rest key
  end.

(** [setattr(args, key, v)]: an existing key keeps its place. *)
Fixpoint ns_set (key : string) (v : value) (args : namespace) : namespace :=
  match args with
  | [] => [(key, v)]
  | (k, v0) :: rest =>
      if String.eqb k key then (k, v) :: rest else (k, v0) :: ns_set key v rest
  end.

(** The namespace of a command line that supplies no option: every
    destination holds [arg.get("default")]. *)
Definition default_value (a : Argument) : value :=
  match default a with Some v => v | None => VNone end.

Definition default_namespace : namespace :=
  List.map (fun a => (name a, default_value a)) arguments.

(** The namespace has exactly the destinations of the schema. *)
Definition ns_wf (args : namespace) : Prop :=
  List.map fst args = List.map name arguments.

(** ** The world: the two target objects, the process and the trace *)

(** What the program prints, asks and calls, one constructor for each
    place of the source that does so; the data is what the message is
    formatted from. *)
Inductive event : Type :=
| PrintRenamed (old_flag new_flag : string)
    (* print(f"\n`{old_flag}` has been renamed to `{new_flag}`.\n") *)
| Sleep (tenths_of_second : Z)                        (* time.sleep *)
| PrintUnrecognized (unknown_args : list string)
    (* print(f"\nUnrecognized argument(s): {unknown_args}") *)
| PrintUsage                                          (* parser.print_usage() *)
| PrintDocumentationLink
    (* print("For detailed documentation of supported arguments, ...") *)
| OpenStorageDir (directory : string)                 (* open_storage_dir *)
| ResetProfile (specific_default_profile : value)     (* reset_profile *)
| PrintVersion (version : string)
    (* print(f"Open Interpreter {version} {update_name}") *)
| DisplayMissingPackages (missing_packages : list string)
    (* "> **Missing Package(s): ...** ... Install them?" *)
| Input (prompt : string)                             (* input(prompt) *)
| PrintInstallManually
    (* print("\nPlease try to install them manually.\n\n") *)
| PrintStartAnyway
    (* print("Attempting to start OS control anyway...\n\n") *)
| ComputerRun (language code : string) (display : value)
    (* interpreter.computer.run(language, code, display=...) *)
| PrintNotInstalled (missing_packages : list string)
    (* "\n\nWarning: The following packages could not be installed:" *)
| DisplayOsControlEnabled                             (* "> `OS Control` enabled" *)
| DisplayApiMessage                                   (* api_message *)
| DisplayScreenRecording                              (* screen_recording_message *)
| DisplayApprovalWarning
    (* "**Warning:** In this mode, Open Interpreter will not require approval ..." *)
| PrintBlank                                          (* print("") *)
| PrintSetting (attr_name : string) (object : target) (argument_value : value)
    (* print(f"Setting attribute {attr_name} on {class} to '{value}'...") *)
| CallProfile (filename : value)                      (* profile(interpreter, ...) *)
| CheckForUpdate                                      (* check_for_update() *)
| DisplayNewVersion
    (* "> **A new version of Open Interpreter is available.** ..." *)
| ConversationNavigator                               (* conversation_navigator *)
| Server                                              (* interpreter.server() *)
| ValidateLlmSettings                                 (* validate_llm_settings *)
| Chat.                                               (* interpreter.chat() *)

Record World : Type := {
  interpreter : gmap string value;   (* attributes of [interpreter] *)
  llm : gmap string value;           (* attributes of [interpreter.llm] *)
  argv : list string;                (* sys.argv *)
  stdin : list string;               (* the lines [input] will read *)
  importable : gset string;          (* modules [__import__] finds *)
  trace : list event
}.

Inductive exn : Type :=
| AttributeError (attr : string)
| KeyError (key : string)
| EOFError.

(** How a piece of [start_terminal_interface] ends: it falls through with
    a value, executes [return], calls [sys.exit] or raises. *)
Inductive outcome (A : Type) : Type :=
| Val (a : A)
| Returned
| Exited (status : Z)
| Raised (e : exn).
Arguments Val {A} a.
Arguments Returned {A}.
Arguments Exited {A} status.
Arguments Raised {A} e.

Definition M (A : Type) : Type := World -> outcome A * World.

#[global] Instance M_ret : MRet M := fun A a w => (Val a, w).

#[global] Instance M_bind : MBind M := fun A B f m w =>
  match m w with
  | (Val a, w') => f a w'
  | (Returned, w') => (Returned, w')
  | (Exited s, w') => (Exited s, w')
  | (Raised e, w') => (Raised e, w')
  end.

Definition skip : M unit := mret tt.
Definition return_ {A} : M A := fun w => (Returned, w).
Definition sys_exit {A} (status : Z) : M A := fun w => (Exited status, w).
Definition raise {A} (e : exn) : M A := fun w => (Raised e, w).

Definition when (b : bool) (m : M unit) : M unit := if b then m else skip.

Definition object (o : target) (w : World) : gmap string value :=
  match o with Interpreter => interpreter w | Llm => llm w end.

Definition set_object (o : target) (d : gmap string value) (w : World) : World :=
  match o with
  | Interpreter =>
      {| interpreter := d; llm := llm w; argv := argv w; stdin := stdin w;
         importable := importable w; trace := trace w |}
  | Llm =>
      {| interpreter := interpreter w; llm := d; argv := argv w;
         stdin := stdin w; importable := importable w; trace := trace w |}
  end.

(** [getattr(o, attr)] *)
Definition getattr (o : target) (attr : string) : M value := fun w =>
  match object o w !! attr with
  | Some v => (Val v, w)
  | None => (Raised (AttributeError attr), w)
  end.

(** [setattr(o, attr, v)] *)
Definition setattr (o : target) (attr : string) (v : value) : M unit := fun w =>
  (Val tt, set_object o (<[attr := v]> (object o w)) w).

(** [args.key] *)
Definition arg (args : namespace) (key : string) : M value :=
  match ns_get args key with
  | Some v => mret v
  | None => raise (AttributeError key)
  end.

Definition emit (e : event) : M unit := fun w =>
  (Val tt,
   {| interpreter := interpreter w; llm := llm w; argv := argv w;
      stdin := stdin w; importable := importable w;
      trace := trace w ++ [e] |}).

(** [input(prompt)] *)
Definition input (prompt : string) : M string := fun w =>
  let w' := {| interpreter := interpreter w; llm := llm w; argv := argv w;
               stdin := List.tl (stdin w); importable := importable w;
               trace := trace w ++ [Input prompt] |} in
  match stdin w with
  | line :: _ => (Val line, w')
  | [] => (Raised EOFError, w')
  end.

(** A method of [str] called on a value: anything else has no such
    attribute. *)
Definition as_str (method : string) (v : value) : M string :=
  match v with
  | VStr s => mret s
  | _ => raise (AttributeError method)
  end.

Fixpoint for_each {A} (l : list A) (body : A -> M unit) : M unit :=
  match l with
  | [] => skip
  | x :: rest => body x ;; for_each rest body
  end.

(** ** The attribute binder *)

Definition set_attribute (args : namespace) (item : string * value) : M unit :=
  let '(argument_name, argument_value) := item in
  if is_None argument_value then skip else
  match get_argument_dictionary arguments argument_name with
  | None => skip
  | Some argument_dictionary =>
      match attribute argument_dictionary with
      | None => skip
      | Some (obj, attr_name) =>
          setattr obj attr_name argument_value ;;
          verbose ← arg args "verbose" ;
          when (truthy verbose) (emit (PrintSetting attr_name obj argument_value))
      end
  end.

Definition set_attributes (args : namespace) : M unit :=
  for_each args (set_attribute args).

(** ** OS control mode: the fixed texts *)

(** The triple-quoted literal assigned to [interpreter.system_message],
    before [.strip()]. *)
Definition os_system_message_literal : string :=
  String.concat dq [
"
        
You are Open Interpreter, a world-class programmer that can complete any goal by executing code.

When you write code, it will be executed **on the user's machine**. The user has given you **full and complete permission** to execute any code necessary to complete the task.

When a user refers to a filename, they're likely referring to an existing file in the directory you're currently executing code in.

In general, try to make plans with as few steps as possible. As for actually executing code to carry out that plan, **don't try to do everything in one code block.** You should try something, print information about it, then continue from there in tiny, informed steps. You will never get it on the first try, and attempting it in one go will often lead to errors you cant see.

Manually summarize text.

Do not try to write code that attempts the entire task at once, and verify at each step whether or not you're on track.

# Computer

You may use the `interpreter` Python module to complete tasks:

```python
interpreter.interpreter.computer.display.view() # Shows you what's on the screen, returns a `pil_image` `in case you need it (rarely). **You almost always want to do this first!**

interpreter.interpreter.computer.keyboard.write(";
"hello";
")

interpreter.interpreter.computer.mouse.click(";
"text onscreen";
") # This clicks on the UI element with that text. Use this **frequently** and get creative! To click a video, you could pass the *timestamp* (which is usually written on the thumbnail) into this.
interpreter.interpreter.computer.mouse.move(";
"open recent >";
") # This moves the mouse over the UI element with that text. Many dropdowns will disappear if you click them. You have to hover over items to reveal more.
interpreter.interpreter.computer.mouse.click(x=500, y=500) # Use this very, very rarely. It's highly inaccurate
interpreter.interpreter.computer.mouse.click(icon=";
"gear icon";
") # Moves mouse to the icon with that description. Use this very often

interpreter.interpreter.computer.mouse.scroll(-10) # Scrolls down. If you don't find some text on screen that you expected to be there, you probably want to do this
x, y = interpreter.interpreter.computer.display.center() # Get your bearings

interpreter.interpreter.computer.clipboard.view() # Returns contents of clipboard
interpreter.interpreter.computer.os.get_selected_text() # Use frequently. If editing text, the user often wants this
```

For rare and complex mouse actions, consider using computer vision libraries on the `interpreter.interpreter.computer.display.view()` `pil_image` to produce a list of coordinates for the mouse to move/drag to.

If the user highlighted text in an editor, then asked you to modify it, they probably want you to `interpreter.interpreter.computer.keyboard.write` over their version of the text.

Tasks are 100% computer-based. DO NOT simply write long messages to the user to complete tasks. You MUST put your text back into the program they're using to deliver your text!

Clicking text is the most reliable way to use the mouseâ€” for example, clicking a URL's text you see in the URL bar, or some textarea's placeholder text (like ";
"Search";
" to get into a search bar).

Applescript might be best for some tasks.

If you use `plt.show()`, the resulting image will be sent to you. However, if you use `PIL.Image.show()`, the resulting image will NOT be sent to you.

It is very important to make sure you are focused on the right application and window. Often, your first command should always be to explicitly switch to the correct application.

When searching the web, use query parameters. For example, https://www.amazon.com/s?k=monitor

Try multiple methods before saying the task is impossible. **You can do it!**

# Critical Routine Procedure for Multi-Step Tasks

Include `interpreter.interpreter.computer.display.view()` after a 2 second delay at the end of _every_ code block to verify your progress, then answer these questions in extreme detail:

1. Generally, what is happening on-screen?
2. What is the active app?
3. What hotkeys does this app support that might get be closer to my goal?
4. What text areas are active, if any?
5. What text is selected?
6. What options could you take next to get closer to your goal?
        
        "].

Definition os_system_message : string := strip os_system_message_literal.

(** The line removed from the system message when offline. *)
Definition icon_line : string :=
  String.concat dq [
    "interpreter.interpreter.computer.mouse.click(icon=";
    "gear icon";
    ") # Moves mouse to the icon with that description. Use this very often
"].

Definition packages : list string :=
  ["cv2"; "plyer"; "pyautogui"; "pyperclip"; "pywinctl"].

Definition pip_command (pip_name : string) : string :=
  pip_name +:+ " install 'open-interpreter[os]'".

Definition computer_setup_code : string :=
  "import time
from interpreter import interpreter
computer = interpreter.interpreter.computer".

Definition deprecated_flags : list (string * string) :=
  [("--debug_mode", "--verbose")].

(** What [parser.parse_known_args()] gives: the namespace and the tokens
    it did not recognise, unless [argparse] itself ends the process (help,
    or a value it rejects). *)
Inductive parse_result : Type :=
| ParseExit (status : Z)
| Parsed (args : namespace) (unknown_args : list string).

(** ** The entry point *)

Section StartTerminalInterface.

(** The collaborators of the entry point. [argparse] is a library and the
    other modules are imported from the rest of the package. *)

(** [parser.parse_known_args()] on [sys.argv[1:]], for the parser built
    from [arguments]. *)
Variable parse_known_args : list string -> parse_result.

(** Modelled from the spec: the profile loader [profile(interpreter,
    filename)] of [profiles/profiles.py] is not part of this file. It may
    set any attribute of the agent and of its model configuration; both
    objects are mutated in place and the agent it returns is the one it was
    given. *)
Variable profile :
  value -> gmap string value -> gmap string value ->
  gmap string value * gmap string value.

(** The effect of [interpreter.computer.run(language, code)] on what can be
    imported afterwards. *)
Variable computer_run : string -> string -> gset string -> gset string.

(** [check_for_update()]: its answer, or [None] when it raises. *)
Variable check_for_update : option bool.

(** [pkg_resources.get_distribution("open-interpreter").version] *)
Variable version : string.

Definition remove_first (x : string) : list string -> list string :=
  fix go l :=
    match l with
    | [] => []
    | y :: rest => if String.eqb y x then rest else y :: go rest
    end.

Definition set_argv (l : list string) : M unit := fun w =>
  (Val tt,
   {| interpreter := interpreter w; llm := llm w; argv := l; stdin := stdin w;
      importable := importable w; trace := trace w |}).

(** Check for deprecated flags before parsing arguments. *)
Definition rewrite_deprecated_flag (flags : string * string) : M unit :=
  let '(old_flag, new_flag) := flags in
  fun w =>
    if existsb (String.eqb old_flag) (argv w) then
      (emit (PrintRenamed old_flag new_flag) ;;
       emit (Sleep 15) ;;
       set_argv (remove_first old_flag (argv w) ++ [new_flag])) w
    else skip w.

Definition parse_args : M (namespace * list string) := fun w =>
  match parse_known_args (List.tl (argv w)) with
  | ParseExit status => (Exited status, w)
  | Parsed args unknown_args => (Val (args, unknown_args), w)
  end.

(** handle unknown arguments *)
Definition handle_unknown_arguments (unknown_args : list string) : M unit :=
  match unknown_args with
  | [] => skip
  | _ :: _ =>
      emit (PrintUnrecognized unknown_args) ;;
      emit PrintUsage ;;
      emit PrintDocumentationLink ;;
      sys_exit 1
  end.

(** The special commands that return before anything is resolved. *)
Definition dispatch_special_commands (args : namespace) : M unit :=
  profiles ← arg args "profiles" ;
  when (truthy profiles) (emit (OpenStorageDir "profiles") ;; return_) ;;
  local_models ← arg args "local_models" ;
  when (truthy local_models) (emit (OpenStorageDir "models") ;; return_) ;;
  reset_profile ← arg args "reset_profile" ;
  when (negb (is_None reset_profile) && negb (eq_str reset_profile "NOT_PROVIDED"))
    (emit (ResetProfile reset_profile) ;; return_) ;;
  version_flag ← arg args "version" ;
  when (truthy version_flag) (emit (PrintVersion version) ;; return_).

(** if safe_mode and auto_run are enabled, safe_mode disables auto_run *)
Definition safe_mode_disables_auto_run : M unit :=
  auto_run ← getattr Interpreter "auto_run" ;
  if truthy auto_run then
    safe_mode ← getattr Interpreter "safe_mode" ;
    when (eq_str safe_mode "ask" || eq_str safe_mode "auto")
      (setattr Interpreter "auto_run" (VBool false))
  else skip.

(** The packages of [l] that [__import__] does not find. *)
Definition not_importable (w : World) (l : list string) : list string :=
  List.filter (fun package => negb (bool_decide (package ∈ importable w))) l.

Definition missing_among (l : list string) : M (list string) := fun w =>
  (Val (not_importable w l), w).

Definition run_on_computer (language code : string) (display : value) : M unit :=
  fun w =>
    (Val tt,
     {| interpreter := interpreter w; llm := llm w; argv := argv w;
        stdin := stdin w;
        importable := computer_run language code (importable w);
        trace := trace w ++ [ComputerRun language code display] |}).

(** [for pip_name in ["pip", "pip3"]: ...], left at the first attempt after
    which every missing package imports. *)
Fixpoint install_with (pip_names : list string) (missing_packages : list string)
    : M unit :=
  match pip_names with
  | [] => skip
  | pip_name :: rest =>
      run_on_computer "shell" (pip_command pip_name) (VBool true) ;;
      still_missing ← missing_among missing_packages ;
      match still_missing with
      | [] => skip                                  (* got_em: break *)
      | _ :: _ => install_with rest missing_packages
      end
  end.

(** Check if required packages are installed. *)
Definition provision_packages : M unit :=
  missing_packages ← missing_among packages ;
  match missing_packages with
  | [] => skip
  | _ :: _ =>
      emit (DisplayMissingPackages missing_packages) ;;
      user_input ← input "(y/n) > " ;
      when (negb (String.eqb (lower user_input) "y"))
        (emit PrintInstallManually ;; emit (Sleep 20) ;; emit PrintStartAnyway) ;;
      install_with ["pip"; "pip3"] missing_packages ;;
      missing_packages ← missing_among packages ;
      match missing_packages with
      | [] => skip
      | _ :: _ =>
          emit (PrintNotInstalled missing_packages) ;;
          emit PrintInstallManually ;;
          emit (Sleep 20) ;;
          emit PrintStartAnyway
      end
  end.

(** The fields [--os] sets directly, and the system message. *)
Definition os_settings (args : namespace) : M namespace :=
  setattr Interpreter "os" (VBool true) ;;
  setattr Llm "supports_vision" (VBool true) ;;
  model ← arg args "model" ;
  let args :=
    if negb (truthy model) then ns_set "model" (VStr "gpt-4-vision-preview") args
    else args in
  setattr Llm "supports_functions" (VBool false) ;;
  setattr Llm "context_window" (VInt 110000) ;;
  setattr Llm "max_tokens" (VInt 4096) ;;
  setattr Interpreter "auto_run" (VBool true) ;;
  setattr Interpreter "force_task_completion" (VBool true) ;;
  setattr Interpreter "system_message" (VStr os_system_message) ;;
  offline ← arg args "offline" ;
  when (truthy offline)
    ((* Icon finding does not work offline *)
     system_message ← getattr Interpreter "system_message" ;
     text ← as_str "replace" system_message ;
     setattr Interpreter "system_message"
       (VStr (replace icon_line EmptyString text))) ;;
  mret args.

(** The banners after the packages are checked, and the access to the
    computer via Python. *)
Definition os_announcements (args : namespace) : M namespace :=
  emit DisplayOsControlEnabled ;;
  offline ← arg args "offline" ;
  (if truthy offline then skip
   else
     auto_run ← arg args "auto_run" ;
     when (negb (truthy auto_run)) (emit DisplayApiMessage ;; emit PrintBlank)) ;;
  auto_run ← arg args "auto_run" ;
  when (negb (truthy auto_run))
    (emit DisplayScreenRecording ;; emit PrintBlank) ;;
  (* Give it access to the computer via Python *)
  verbose ← arg args "verbose" ;
  run_on_computer "python" computer_setup_code verbose ;;
  auto_run ← arg args "auto_run" ;
  when (negb (truthy auto_run))
    (emit DisplayApprovalWarning ;; emit PrintBlank) ;;
  mret (ns_set "profile" (VStr "os.py") args).

Definition os_mode (args : namespace) : M namespace :=
  args ← os_settings args ;
  provision_packages ;;
  os_announcements args.

(** The mode flags: [fast], [vision], [os] and [local], in this order. *)
Definition mode_expander (args : namespace) : M namespace :=
  fast ← arg args "fast" ;
  let args := if truthy fast then ns_set "profile" (VStr "fast.yaml") args else args in
  vision ← arg args "vision" ;
  let args := if truthy vision then ns_set "profile" (VStr "vision.yaml") args else args in
  os ← arg args "os" ;
  args ← (if truthy os then os_mode args else mret args) ;
  local ← arg args "local" ;
  mret (if truthy local then ns_set "profile" (VStr "local.py") args else args).

(** [interpreter = profile(interpreter, filename)] *)
Definition apply_profile (filename : value) : M unit := fun w =>
  let '(i, l) := profile filename (interpreter w) (llm w) in
  (Val tt,
   {| interpreter := i; llm := l; argv := argv w; stdin := stdin w;
      importable := importable w;
      trace := trace w ++ [CallProfile filename] |}).

(** [args.profile or get_argument_dictionary(arguments, "profile")["default"]] *)
Definition effective_profile (args : namespace) : M value :=
  chosen ← arg args "profile" ;
  if truthy chosen then mret chosen
  else
    match get_argument_dictionary arguments "profile" with
    | Some argument_dictionary =>
        match default argument_dictionary with
        | Some v => mret v
        | None => raise (KeyError "default")
        end
    | None => raise (KeyError "default")
    end.

(** Set attributes, apply the profile, set attributes again. *)
Definition precedence_resolver (args : namespace) : M unit :=
  set_attributes args ;;
  filename ← effective_profile args ;
  apply_profile filename ;;
  set_attributes args.

(** Set some helpful settings we know are likely to be true. *)
Definition fill_if_unset (attr : string) (v : value) : M unit :=
  current ← getattr Llm attr ;
  when (is_None current) (setattr Llm attr v).

Definition fill_gpt4 (context_window : Z) : M unit :=
  fill_if_unset "context_window" (VInt context_window) ;;
  fill_if_unset "max_tokens" (VInt 4096) ;;
  current ← getattr Llm "supports_functions" ;
  when (is_None current)
    (model ← getattr Llm "model" ;
     name ← as_str "__contains__" model ;
     setattr Llm "supports_functions" (VBool (negb (contains "vision" name)))).

Definition model_startswith (prefix1 prefix2 : string) : M bool :=
  model ← getattr Llm "model" ;
  name ← as_str "startswith" model ;
  mret (startswith name prefix1 || startswith name prefix2).

Definition model_default_inferencer : M unit :=
  model ← getattr Llm "model" ;
  (if eq_str model "gpt-4" || eq_str model "openai/gpt-4" then fill_gpt4 6500
   else
     gpt4 ← model_startswith "gpt-4" "openai/gpt-4" ;
     when gpt4 (fill_gpt4 123000)) ;;
  gpt35 ← model_startswith "gpt-3.5-turbo" "openai/gpt-3.5-turbo" ;
  when gpt35
    (fill_if_unset "context_window" (VInt 16000) ;;
     fill_if_unset "max_tokens" (VInt 4096) ;;
     fill_if_unset "supports_functions" (VBool true)).

(** Check for update; whatever is raised inside is dropped. *)
Definition update_check : M unit := fun w =>
  match interpreter w !! "offline" with
  | Some offline =>
      if truthy offline then skip w
      else
        (emit CheckForUpdate ;;
         match check_for_update with
         | Some true => emit DisplayNewVersion
         | _ => skip
         end) w
  | None => skip w
  end.

Definition no_known_provider (name : string) : bool :=
  negb (startswith (lower name) "openai/")
  && negb (startswith (lower name) "azure/")
  && negb (startswith (lower name) "ollama")
  && negb (startswith (lower name) "jan")
  && negb (startswith (lower name) "local").

Definition api_base_rewrite : M unit :=
  api_base ← getattr Llm "api_base" ;
  when (truthy api_base)
    (model ← getattr Llm "model" ;
     name ← as_str "lower" model ;
     if no_known_provider name
     then setattr Llm "model" (VStr ("openai/" +:+ name))
     else
       when (startswith (lower name) "jan/")
         ((* Strip jan/ from the model name *)
          setattr Llm "model" (VStr (drop 4 name)))).

Definition final_dispatch (args : namespace) : M unit :=
  (* If --conversations is used, run conversation_navigator *)
  conversations ← arg args "conversations" ;
  when (truthy conversations) (emit ConversationNavigator ;; return_) ;;
  server ← arg args "server" ;
  when (truthy server) (emit Server ;; return_) ;;
  emit ValidateLlmSettings ;;
  setattr Interpreter "in_terminal_interface" (VBool true) ;;
  emit Chat.

(** The state in which the model default inferencer starts: everything up
    to the second [set_attributes]. *)
Definition resolve (args : namespace) : M namespace :=
  safe_mode_disables_auto_run ;;
  args ← mode_expander args ;
  precedence_resolver args ;;
  mret args.

Definition start_terminal_interface : M unit :=
  for_each deprecated_flags rewrite_deprecated_flag ;;
  parsed ← parse_args ;
  let '(args, unknown_args) := parsed in
  handle_unknown_arguments unknown_args ;;
  dispatch_special_commands args ;;
  args ← resolve args ;
  model_default_inferencer ;;
  update_check ;;
  api_base_rewrite ;;
  final_dispatch args.

End StartTerminalInterface.

(** * Vocabulary of the properties *)

(** [s] starts with [p] when case is ignored ([p] is in lower case). *)
Definition starts_ci (s p : string) : Prop :=
  exists rest, lower s = p +:+ rest.

(** The known provider prefixes of the API base step. *)
Definition provider_prefixes : list string :=
  ["openai/"; "azure/"; "ollama"; "jan"; "local"].

(** [post m w Q]: from [w], the step [m] falls through (no [return], exit
    or exception) with a value and a world that satisfy [Q]. *)
Definition post {A} (m : M A) (w : World) (Q : A -> World -> Prop) : Prop :=
  exists a w', m w = (Val a, w') /\ Q a w'.

(** The destinations of the schema. *)
Definition names : list string := List.map name arguments.

(** The field an option is bound to, if any. *)
Definition binding_of (argument_name : string) : option (target * string) :=
  match get_argument_dictionary arguments argument_name with
  | Some argument_dictionary => attribute argument_dictionary
  | None => None
  end.

(** The write one namespace entry causes. *)
Definition write_of (item : string * value) : option (target * string * value) :=
  if is_None item.2 then None
  else match binding_of item.1 with
       | Some (obj, attr_name) => Some (obj, attr_name, item.2)
       | None => None
       end.

(** The world after [emit e]. *)
Definition add_event (e : event) (w : World) : World :=
  {| interpreter := interpreter w; llm := llm w; argv := argv w;
     stdin := stdin w; importable := importable w; trace := trace w ++ [e] |}.

(** The world after [set_attribute] on one entry. *)
Definition perform (verbose : bool) (item : string * value) (w : World) : World :=
  match write_of item with
  | Some (obj, attr_name, v) =>
      let w' := set_object obj (<[attr_name := v]> (object obj w)) w in
      if verbose then add_event (PrintSetting attr_name obj v) w' else w'
  | None => w
  end.

(** The writes of a whole namespace, entry by entry. *)
Definition bind_all (verbose : bool) (l : namespace) (w : World) : World :=
  List.fold_left (fun w item => perform verbose item w) l w.

(** Every bound option, with the field it is bound to. *)
Definition bindings : list (string * (target * string)) :=
  List.flat_map
    (fun d => match attribute d with Some b => [(name d, b)] | None => [] end)
    arguments.

(** The calls of the profile loader a trace records. *)
Fixpoint profile_calls (t : list event) : list value :=
  match t with
  | [] => []
  | CallProfile filename :: rest => filename :: profile_calls rest
  | _ :: rest => profile_calls rest
  end.

(** Between two worlds: the attributes of both objects are the same and
    the trace has grown, by no call of the profile loader. *)
Definition same_config (w w' : World) : Prop :=
  interpreter w' = interpreter w /\ llm w' = llm w
  /\ exists l, trace w' = (trace w ++ l)%list /\ profile_calls l = [].

(** A step that always falls through and changes no attribute. *)
Definition steady {A} (m : M A) : Prop :=
  forall w, post m w (fun _ w' => same_config w w').

(** The attributes [--os] leaves on the two objects. *)
Definition os_interpreter (offline : bool) (d : gmap string value)
    : gmap string value :=
  let d' :=
    <["system_message" := VStr os_system_message]>
      (<["force_task_completion" := VBool true]>
         (<["auto_run" := VBool true]> (<["os" := VBool true]> d))) in
  if offline
  then <["system_message" := VStr (replace icon_line EmptyString os_system_message)]> d'
  else d'.

(** The same for the model configuration. *)
Definition os_llm (d : gmap string value) : gmap string value :=
  <["max_tokens" := VInt 4096]>
    (<["context_window" := VInt 110000]>
       (<["supports_functions" := VBool false]>
          (<["supports_vision" := VBool true]> d))).

(** The namespace after [if not args.model: ...]. *)
Definition os_model (model : value) (args : namespace) : namespace :=
  if negb (truthy model) then ns_set "model" (VStr "gpt-4-vision-preview") args
  else args.

(** A flag of the namespace, as a condition reads it. *)
Definition flag (args : namespace) (key : string) : bool :=
  match ns_get args key with Some v => truthy v | None => false end.

(** The package check can go through: nothing is missing, or there is a
    line to read at the prompt. *)
Definition can_provision (w : World) : Prop :=
  not_importable w packages = [] \/ stdin w <> [].

(** The namespace the mode expander hands to the binder. *)
Definition expanded (args : namespace) : namespace :=
  let args1 :=
    if flag args "fast" then ns_set "profile" (VStr "fast.yaml") args else args in
  let args2 :=
    if flag args "vision" then ns_set "profile" (VStr "vision.yaml") args1
    else args1 in
  let args3 :=
    if flag args "os"
    then ns_set "profile" (VStr "os.py")
           (if negb (flag args "model")
            then ns_set "model" (VStr "gpt-4-vision-preview") args2
            else args2)
    else args2 in
  if flag args "local" then ns_set "profile" (VStr "local.py") args3 else args3.

(** The file name the profile loader is called with. *)
Definition chosen_profile (args : namespace) : value :=
  match ns_get args "profile" with
  | Some p => if truthy p then p else VStr "default.yaml"
  | None => VNone
  end.

(** The objects the profile loader hands back. *)
Definition profiled
    (profile : value -> gmap string value -> gmap string value ->
               gmap string value * gmap string value)
    (filename : value) (w : World) (o : target) : gmap string value :=
  match o with
  | Interpreter => (profile filename (interpreter w) (llm w)).1
  | Llm => (profile filename (interpreter w) (llm w)).2
  end.

(** Everything up to the second pass of the binder. The run reaches the
    binder when [interpreter.auto_run] (and [safe_mode], if it is read)
    exists and the package check of [--os] can go through. *)
Definition can_resolve (args : namespace) (w : World) : Prop :=
  ns_wf args
  /\ (exists auto_run,
        interpreter w !! "auto_run" = Some auto_run
        /\ (truthy auto_run = true -> is_Some (interpreter w !! "safe_mode")))
  /\ (flag args "os" = true -> can_provision w).

(** What [--os] sets directly, on the two objects. Offline, the system
    message is the fixed one with its one line on icons taken out. *)
Definition os_fields_set (offline : bool) (w' : World) : Prop :=
  llm w' !! "supports_vision" = Some (VBool true)
  /\ llm w' !! "supports_functions" = Some (VBool false)
  /\ llm w' !! "context_window" = Some (VInt 110000)
  /\ llm w' !! "max_tokens" = Some (VInt 4096)
  /\ interpreter w' !! "auto_run" = Some (VBool true)
  /\ interpreter w' !! "force_task_completion" = Some (VBool true)
  /\ exists message,
       interpreter w' !! "system_message" = Some (VStr message)
       /\ message <> EmptyString
       /\ (offline = false -> message = os_system_message)
       /\ (offline = true ->
           exists before after,
             os_system_message = before +:+ icon_line +:+ after
             /\ message = before +:+ after
             /\ contains icon_line message = false).

(** The text before and after the first occurrence of [pat] in [s]. *)
Fixpoint split_first (pat s : string) : option (string * string) :=
  if String.prefix pat s then Some (EmptyString, drop (String.length pat) s)
  else
    match s with
    | EmptyString => None
    | String c t =>
        match split_first pat t with
        | Some (before, after) => Some (String c before, after)
        | None => None
        end
    end.

(** [attr] gets [v] where it holds [None]. *)
Definition filled (attr : string) (v : value) (d : gmap string value)
    : gmap string value :=
  match d !! attr with
  | Some VNone => <[attr := v]> d
  | _ => d
  end.

(** The three settings of a known model, each where it is unset. *)
Definition fill_three (context_window : Z) (supports_functions : bool)
    (d : gmap string value) : gmap string value :=
  filled "supports_functions" (VBool supports_functions)
    (filled "max_tokens" (VInt 4096)
       (filled "context_window" (VInt context_window) d)).

(** The attributes the inferencer reads are there. *)
Definition has_model_settings (d : gmap string value) (name : string) : Prop :=
  d !! "model" = Some (VStr name)
  /\ is_Some (d !! "context_window") /\ is_Some (d !! "max_tokens")
  /\ is_Some (d !! "supports_functions").

(** The model configuration the inferencer leaves. *)
Definition inferred (name : string) (d : gmap string value) : gmap string value :=
  let d1 :=
    if String.eqb name "gpt-4" || String.eqb name "openai/gpt-4"
    then fill_three 6500 (negb (contains "vision" name)) d
    else if startswith name "gpt-4" || startswith name "openai/gpt-4"
         then fill_three 123000 (negb (contains "vision" name)) d
         else d in
  if startswith name "gpt-3.5-turbo" || startswith name "openai/gpt-3.5-turbo"
  then fill_three 16000 true d1
  else d1.

(** [sys.argv] after the deprecated flag is replaced, and what is printed
    on the way. *)
Definition rewritten_argv (l : list string) : list string :=
  if existsb (String.eqb "--debug_mode") l
  then (remove_first "--debug_mode" l ++ ["--verbose"])%list
  else l.

(** The notice printed for the deprecated flag. *)
Definition rename_notice (l : list string) : list event :=
  if existsb (String.eqb "--debug_mode") l
  then [PrintRenamed "--debug_mode" "--verbose"; Sleep 15]
  else [].

(** What the binder prints in verbose mode: one line for each write, in the
    order of the namespace. *)
Definition settings_printed (l : namespace) : list event :=
  List.flat_map
    (fun item =>
       match write_of item with
       | Some (obj, attr_name, v) => [PrintSetting attr_name obj v]
       | None => []
       end)
    l.

(** The first entry of [l] that writes to the field [attr] of [o]. *)
Definition writer_of (o : target) (attr : string) (l : namespace)
    : option (string * value) :=
  List.find
    (fun item =>
       match write_of item with
       | Some (o', attr', _) => bool_decide ((o', attr') = (o, attr))
       | None => false
       end)
    l.

(** The packages of [l] that are not among the importable modules [s]. *)
Definition lacking (s : gset string) (l : list string) : list string :=
  List.filter (fun package => negb (bool_decide (package ∈ s))) l.

(** What is printed when the answer at the prompt is not [y], and again
    when packages are still missing at the end. *)
Definition manual_notice : list event :=
  [PrintInstallManually; Sleep 20; PrintStartAnyway].

(** ** Concrete inputs *)

Module Examples.

(** A model configuration with an API base, as in the examples of the
    API base step. *)
Definition world_with_api_base (model : string) : World :=
  {| interpreter := ∅;
     llm := <["api_base" := VStr "http://localhost:1234/v1"]>
              (<["model" := VStr model]> ∅);
     argv := []; stdin := []; importable := ∅; trace := [] |}.

(** An interpreter as the package creates it, as far as the entry point
    reads it. *)
Definition interpreter0 : gmap string value :=
  list_to_map
    [("auto_run", VBool false); ("safe_mode", VStr "off");
     ("offline", VBool true); ("system_message", VStr "You are Open Interpreter.")].

(** Its model configuration, with nothing inferred yet. *)
Definition llm0 : gmap string value :=
  list_to_map
    [("model", VStr "gpt-4"); ("context_window", VNone); ("max_tokens", VNone);
     ("supports_functions", VNone); ("api_base", VNone)].

(** The process at start: the lines the user will type and the modules
    that can be imported. *)
Definition world0 (lines : list string) (modules : list string) : World :=
  {| interpreter := interpreter0; llm := llm0; argv := ["interpreter"];
     stdin := lines; importable := list_to_set modules; trace := [] |}.

(** A profile that sets nothing. *)
Definition no_profile (filename : value) (i l : gmap string value)
    : gmap string value * gmap string value := (i, l).

(** A profile with settings of its own. *)
Definition strict_profile (filename : value) (i l : gmap string value)
    : gmap string value * gmap string value :=
  (<["safe_mode" := VStr "ask"]> (<["disable_telemetry" := VBool true]> i),
   <["model" := VStr "gpt-4o"]> (<["temperature" := VInt 0]> l)).

(** A computer on which installing changes nothing. *)
Definition no_install (language code : string) (modules : gset string)
    : gset string := modules.

(** The namespace of a command line, option by option. *)
Definition supplied (options : list (string * value)) : namespace :=
  List.fold_left (fun args o => ns_set o.1 o.2 args) options default_namespace.

(** An installation that brings every package of OS control mode. *)
Definition installs_all (language code : string) (modules : gset string)
    : gset string := modules ∪ list_to_set packages.

End Examples.
Import Examples.

(** * Properties *)

(** ** Strings *)

Lemma prefix_app (p s : string) :
  String.prefix p s = true <-> exists rest, s = p +:+ rest.
Proof.
  revert p. induction s as [|d s IH]; intros [|c p]; simpl.
  - split; [intros _; exists EmptyString; reflexivity | reflexivity].
  - split; [discriminate | intros [rest H]; discriminate].
  - split; [intros _; eexists; reflexivity | reflexivity].
  - destruct (Ascii.ascii_dec c d) as [->|Hne].
    + rewrite IH. split; intros [rest H]; exists rest.
      * now rewrite H.
      * now injection H.
    + split; [discriminate | intros [rest H]; injection H; congruence].
Qed.

Lemma lower_app (a b : string) : lower (a +:+ b) = lower a +:+ lower b.
Proof. induction a as [|c a IH]; simpl; [reflexivity | now rewrite IH]. Qed.

Lemma lower_length (s : string) : String.length (lower s) = String.length s.
Proof. induction s as [|c s IH]; simpl; [reflexivity | now rewrite IH]. Qed.

Lemma drop_app (a b : string) : drop (String.length a) (a +:+ b) = b.
Proof. induction a as [|c a IH]; simpl; [now destruct b | exact IH]. Qed.

Lemma startswith_lower (s p : string) :
  startswith (lower s) p = true <-> starts_ci s p.
Proof. apply prefix_app. Qed.

Lemma startswith_lower_false (s p : string) :
  startswith (lower s) p = false <-> ~ starts_ci s p.
Proof.
  rewrite <- startswith_lower. destruct (startswith (lower s) p); split; congruence.
Qed.

(** ** The monad *)

Lemma run_bind {A B} (m : M A) (f : A -> M B) (w : World) :
  (m ≫= f) w =
  match m w with
  | (Val a, w') => f a w'
  | (Returned, w') => (Returned, w')
  | (Exited s, w') => (Exited s, w')
  | (Raised e, w') => (Raised e, w')
  end.
Proof. reflexivity. Qed.

Lemma run_bind_val {A B} (m : M A) (f : A -> M B) (w w' : World) (a : A) :
  m w = (Val a, w') -> (m ≫= f) w = f a w'.
Proof. intros H. rewrite run_bind, H. reflexivity. Qed.

Lemma getattr_some (o : target) (attr : string) (v : value) (w : World) :
  object o w !! attr = Some v -> getattr o attr w = (Val v, w).
Proof. intros H. unfold getattr. now rewrite H. Qed.

Lemma object_set_same (o : target) (d : gmap string value) (w : World) :
  object o (set_object o d w) = d.
Proof. now destruct o. Qed.

Lemma object_set_other (o o' : target) (d : gmap string value) (w : World) :
  o <> o' -> object o' (set_object o d w) = object o' w.
Proof. destruct o, o'; simpl; congruence. Qed.

Lemma no_known_provider_spec (name : string) :
  no_known_provider name = true <->
  forall p, In p provider_prefixes -> ~ starts_ci name p.
Proof.
  unfold no_known_provider, provider_prefixes.
  rewrite !andb_true_iff, !negb_true_iff, !startswith_lower_false. simpl. split.
  - intros [[[[H1 H2] H3] H4] H5] p [<-|[<-|[<-|[<-|[<-|[]]]]]]; assumption.
  - intros H. repeat split; apply H; tauto.
Qed.

(** C8. When [interpreter.llm.api_base] is set, the API base step ends
    normally and leaves a model name that is: the old name behind
    ["openai/"] when the old name starts, case ignored, with none of
    [openai/], [azure/], [ollama], [jan], [local]; the old name without its
    first four characters when these are [jan/] in any case; the old name
    otherwise. Nothing but the model name changes. *)
Theorem api_base_rewrites_model (w : World) (api_base : value) (name : string) :
  llm w !! "api_base" = Some api_base ->
  truthy api_base = true ->
  llm w !! "model" = Some (VStr name) ->
  exists new_name,
    api_base_rewrite w =
      (Val tt, set_object Llm (<["model" := VStr new_name]> (llm w)) w)
    /\ ((forall p, In p provider_prefixes -> ~ starts_ci name p) ->
        new_name = "openai/" +:+ name)
    /\ (forall pre rest, name = pre +:+ rest -> lower pre = "jan/" ->
        new_name = rest)
    /\ ((exists p, In p provider_prefixes /\ starts_ci name p) ->
        ~ starts_ci name "jan/" -> new_name = name).
Proof.
  intros Hbase Htruthy Hmodel.
  assert (Hrun : api_base_rewrite w =
    (Val tt, set_object Llm (<["model" := VStr
       (if no_known_provider name then "openai/" +:+ name
        else if startswith (lower name) "jan/" then drop 4 name else name)]>
       (llm w)) w)).
  { unfold api_base_rewrite.
    rewrite (run_bind_val _ _ w w api_base) by now apply getattr_some.
    rewrite Htruthy. simpl when.
    rewrite (run_bind_val _ _ w w (VStr name)) by now apply getattr_some.
    simpl as_str. rewrite (run_bind_val _ _ w w name) by reflexivity.
    destruct (no_known_provider name); [reflexivity |].
    destruct (startswith (lower name) "jan/"); [reflexivity |].
    unfold when, skip, mret, M_ret. f_equal.
    destruct w; simpl in *. f_equal. symmetry. now apply insert_id. }
  eexists. split; [exact Hrun |]. split; [| split].
  - intros Hnone. now rewrite (proj2 (no_known_provider_spec _) Hnone).
  - intros pre rest -> Hpre.
    assert (Hjan : starts_ci (pre +:+ rest) "jan/").
    { exists (lower rest). now rewrite lower_app, Hpre. }
    assert (Hknown : no_known_provider (pre +:+ rest) = false).
    { destruct (no_known_provider (pre +:+ rest)) eqn:E; [| reflexivity].
      pose proof (proj1 (no_known_provider_spec _) E) as E'. exfalso.
      apply (E' "jan"); [simpl; tauto |].
      destruct Hjan as [r Hr]. exists ("/" +:+ r). rewrite Hr. reflexivity. }
    rewrite Hknown. rewrite (proj2 (startswith_lower _ _) Hjan).
    replace 4%nat with (String.length pre).
    + apply drop_app.
    + rewrite <- lower_length, Hpre. reflexivity.
  - intros [p [Hin Hp]] Hnojan.
    assert (Hknown : no_known_provider name = false).
    { destruct (no_known_provider name) eqn:E; [| reflexivity].
      pose proof (proj1 (no_known_provider_spec _) E) as E'.
      now apply E' in Hin. }
    rewrite Hknown. now rewrite (proj2 (startswith_lower_false _ _) Hnojan).
Qed.

Lemma api_base_rewrites_model_witness :
  (exists w', api_base_rewrite (world_with_api_base "llama2") = (Val tt, w')
              /\ llm w' !! "model" = Some (VStr "openai/llama2"))
  /\ (exists w', api_base_rewrite (world_with_api_base "jan/llama2") = (Val tt, w')
                 /\ llm w' !! "model" = Some (VStr "llama2")).
Proof.
  split.
  - destruct (api_base_rewrites_model (world_with_api_base "llama2")
                (VStr "http://localhost:1234/v1") "llama2"
                eq_refl eq_refl eq_refl) as [n [Hrun [Hnone _]]].
    eexists. split; [exact Hrun |].
    rewrite Hnone; [reflexivity |].
    apply no_known_provider_spec. reflexivity.
  - destruct (api_base_rewrites_model (world_with_api_base "jan/llama2")
                (VStr "http://localhost:1234/v1") "jan/llama2"
                eq_refl eq_refl eq_refl) as [n [Hrun [_ [Hjan _]]]].
    eexists. split; [exact Hrun |].
    rewrite (Hjan "jan/" "llama2" eq_refl eq_refl). reflexivity.
Defined.

(** ** Total correctness of a step *)

Lemma post_ret {A} (a : A) (w : World) (Q : A -> World -> Prop) :
  Q a w -> post (mret a) w Q.
Proof. intros H. exists a, w. split; [reflexivity | exact H]. Qed.

Lemma post_bind {A B} (m : M A) (f : A -> M B) (w : World)
    (Q : B -> World -> Prop) :
  post m w (fun a w' => post (f a) w' Q) -> post (m ≫= f) w Q.
Proof.
  intros (a & w' & Hm & b & w'' & Hf & HQ).
  exists b, w''. split; [| exact HQ].
  rewrite (run_bind_val m f w w' a Hm). exact Hf.
Qed.

Lemma post_conseq {A} (m : M A) (w : World) (P Q : A -> World -> Prop) :
  post m w P -> (forall a w', P a w' -> Q a w') -> post m w Q.
Proof. intros (a & w' & Hm & HP) HPQ. exists a, w'. auto. Qed.

Lemma post_run {A} (m : M A) (w w' : World) (a : A) (Q : A -> World -> Prop) :
  m w = (Val a, w') -> Q a w' -> post m w Q.
Proof. intros Hm HQ. exists a, w'. auto. Qed.

Lemma post_arg (args : namespace) (key : string) (v : value) (w : World)
    (Q : value -> World -> Prop) :
  ns_get args key = Some v -> Q v w -> post (arg args key) w Q.
Proof. intros Hget HQ. unfold arg. rewrite Hget. now apply post_ret. Qed.

Lemma post_getattr (o : target) (attr : string) (v : value) (w : World)
    (Q : value -> World -> Prop) :
  object o w !! attr = Some v -> Q v w -> post (getattr o attr) w Q.
Proof. intros Hget HQ. exact (post_run _ w w v Q (getattr_some o attr v w Hget) HQ). Qed.

Lemma post_when (b : bool) (m : M unit) (w : World) (Q : unit -> World -> Prop) :
  (b = true -> post m w Q) -> (b = false -> Q tt w) -> post (when b m) w Q.
Proof.
  destruct b; simpl; intros Ht Hf; [now apply Ht |].
  apply post_ret. now apply Hf.
Qed.

(** Unfolding of the monad and of the primitive steps, and nothing else. *)
Ltac run :=
  cbv beta iota zeta delta
    [mbind M_bind mret M_ret skip when setattr emit set_object object
     interpreter llm argv stdin importable trace fst snd].

Ltac step :=
  cbv beta iota zeta delta [mbind M_bind mret M_ret skip when object].

(** ** The namespace *)

Lemma ns_get_In (args : namespace) (key : string) (v : value) :
  ns_get args key = Some v -> In (key, v) args.
Proof.
  induction args as [|[k v0] rest IH]; simpl; [discriminate |].
  destruct (String.eqb_spec k key) as [->|Hne].
  - intros [= ->]. now left.
  - intros H. right. now apply IH.
Qed.

Lemma In_ns_get (args : namespace) (key : string) (v : value) :
  List.NoDup (List.map fst args) -> In (key, v) args -> ns_get args key = Some v.
Proof.
  induction args as [|[k v0] rest IH]; simpl; [tauto |].
  intros Hnd [Heq | Hin].
  - injection Heq as -> ->. now rewrite String.eqb_refl.
  - apply List.NoDup_cons_iff in Hnd as [Hnotin Hnd].
    destruct (String.eqb_spec k key) as [->|Hne]; [| now apply IH].
    exfalso. apply Hnotin. apply (List.in_map fst) in Hin. exact Hin.
Qed.

Lemma ns_get_key (args : namespace) (key : string) :
  In key (List.map fst args) -> exists v, ns_get args key = Some v.
Proof.
  induction args as [|[k v0] rest IH]; simpl; [tauto |].
  intros [-> | Hin].
  - rewrite String.eqb_refl. eauto.
  - destruct (String.eqb k key); [eauto | now apply IH].
Qed.

Lemma ns_get_set (args : namespace) (key key' : string) (v : value) :
  ns_get (ns_set key v args) key' =
  if String.eqb key key' then Some v else ns_get args key'.
Proof.
  induction args as [|[k v0] rest IH]; simpl.
  - destruct (String.eqb key key'); reflexivity.
  - destruct (String.eqb_spec k key) as [->|Hne]; simpl.
    + destruct (String.eqb key key'); reflexivity.
    + rewrite IH. destruct (String.eqb_spec k key') as [->|Hne'];
        [| reflexivity].
      destruct (String.eqb_spec key key') as [->|_]; [congruence | reflexivity].
Qed.

Lemma ns_set_keys (args : namespace) (key : string) (v : value) :
  In key (List.map fst args) ->
  List.map fst (ns_set key v args) = List.map fst args.
Proof.
  induction args as [|[k v0] rest IH]; simpl; [tauto |].
  intros Hin. destruct (String.eqb_spec k key) as [->|Hne]; simpl;
    [reflexivity |].
  f_equal. apply IH. destruct Hin; congruence.
Qed.

Lemma names_NoDup : List.NoDup names.
Proof. apply NoDup_ListNoDup. apply (bool_decide_unpack _). vm_compute. reflexivity. Qed.

Lemma ns_wf_get (args : namespace) (key : string) :
  ns_wf args -> existsb (String.eqb key) names = true ->
  exists v, ns_get args key = Some v.
Proof.
  intros Hwf Hkey. apply ns_get_key. rewrite Hwf.
  apply List.existsb_exists in Hkey as [k [Hin Heq]].
  apply String.eqb_eq in Heq. now subst.
Qed.

Lemma ns_wf_set (args : namespace) (key : string) (v : value) :
  ns_wf args -> existsb (String.eqb key) names = true ->
  ns_wf (ns_set key v args).
Proof.
  intros Hwf Hkey. unfold ns_wf. rewrite ns_set_keys; [exact Hwf |].
  rewrite Hwf. apply List.existsb_exists in Hkey as [k [Hin Heq]].
  apply String.eqb_eq in Heq. now subst.
Qed.

Lemma ns_wf_NoDup (args : namespace) :
  ns_wf args -> List.NoDup (List.map fst args).
Proof. intros Hwf. rewrite Hwf. apply names_NoDup. Qed.

(** ** The attribute binder *)

Lemma set_attribute_run (args : namespace) (verbose : value)
    (item : string * value) (w : World) :
  ns_get args "verbose" = Some verbose ->
  set_attribute args item w = (Val tt, perform (truthy verbose) item w).
Proof.
  intros Hverbose. destruct item as [n v].
  unfold set_attribute, perform, write_of, binding_of. simpl fst. simpl snd.
  destruct (is_None v); [reflexivity |].
  destruct (get_argument_dictionary arguments n) as [d|]; [| reflexivity].
  destruct (attribute d) as [[obj attr_name]|]; [| reflexivity].
  rewrite run_bind. unfold setattr at 1. cbv beta iota.
  unfold arg. rewrite Hverbose. rewrite run_bind. cbv beta iota.
  unfold mret at 1, M_ret at 1. cbv beta iota.
  destruct (truthy verbose); reflexivity.
Qed.

Lemma set_attributes_run (args : namespace) (verbose : value) (w : World) :
  ns_get args "verbose" = Some verbose ->
  set_attributes args w = (Val tt, bind_all (truthy verbose) args w).
Proof.
  intros Hverbose. unfold set_attributes, bind_all.
  generalize args at 1 3 as l. intros l. revert w.
  induction l as [|item rest IH]; intros w; simpl; [reflexivity |].
  rewrite run_bind, (set_attribute_run args verbose item w Hverbose).
  apply IH.
Qed.

(** What one write changes. *)
Lemma perform_lookup (verbose : bool) (item : string * value) (w : World)
    (o : target) (attr : string) :
  object o (perform verbose item w) !! attr =
  match write_of item with
  | Some (o', attr', v) =>
      if decide ((o', attr') = (o, attr)) then Some v else object o w !! attr
  | None => object o w !! attr
  end.
Proof.
  unfold perform. destruct (write_of item) as [[[o' attr'] v]|]; [| reflexivity].
  assert (Hobj : forall w', object o (if verbose then add_event (PrintSetting attr' o' v) w' else w')
                        = object o w').
  { intros w'. destruct verbose, o; reflexivity. }
  rewrite Hobj. destruct (decide ((o', attr') = (o, attr))) as [[= -> ->]|Hne].
  - rewrite object_set_same. apply lookup_insert_eq.
  - destruct (decide (o' = o)) as [->|Ho].
    + rewrite object_set_same. apply lookup_insert_ne. congruence.
    + now rewrite object_set_other.
Qed.

Lemma perform_rest (verbose : bool) (item : string * value) (w : World) :
  argv (perform verbose item w) = argv w
  /\ stdin (perform verbose item w) = stdin w
  /\ importable (perform verbose item w) = importable w.
Proof.
  unfold perform. destruct (write_of item) as [[[o attr] v]|]; [| auto].
  destruct verbose, o; auto.
Qed.

Section Binder.

Variable verbose : bool.

(** A field no entry writes to keeps its value. *)
Lemma bind_all_frame (l : namespace) (w : World) (o : target) (attr : string) :
  (forall item v, In item l -> write_of item <> Some (o, attr, v)) ->
  object o (bind_all verbose l w) !! attr = object o w !! attr.
Proof.
  revert w. induction l as [|item rest IH]; intros w Hnone; [reflexivity |].
  unfold bind_all in *. simpl. rewrite IH.
  - rewrite perform_lookup.
    destruct (write_of item) as [[[o' attr'] v]|] eqn:Hw; [| reflexivity].
    destruct (decide ((o', attr') = (o, attr))) as [[= -> ->]|]; [| reflexivity].
    exfalso. apply (Hnone item v); [now left | exact Hw].
  - intros item' v Hin. apply Hnone. now right.
Qed.

(** A field holds [v] at the end when it does at the start or some entry
    writes [v] to it, and no entry writes anything else to it. *)
Lemma bind_all_wins (l : namespace) (w : World) (o : target) (attr : string)
    (v : value) :
  (object o w !! attr = Some v
   \/ exists item, In item l /\ write_of item = Some (o, attr, v)) ->
  (forall item v', In item l -> write_of item = Some (o, attr, v') -> v' = v) ->
  object o (bind_all verbose l w) !! attr = Some v.
Proof.
  revert w. induction l as [|item rest IH]; intros w Hsome Hsame.
  - destruct Hsome as [H | [item [[] _]]]. exact H.
  - unfold bind_all in *. simpl. apply IH.
    + destruct Hsome as [H | [item' [[<- | Hin] Hw]]].
      * left. rewrite perform_lookup.
        destruct (write_of item) as [[[o' attr'] v']|] eqn:Hw; [| exact H].
        destruct (decide ((o', attr') = (o, attr))) as [[= -> ->]|]; [| exact H].
        f_equal. apply (Hsame item v'); [now left | exact Hw].
      * left. rewrite perform_lookup, Hw.
        now destruct (decide ((o, attr) = (o, attr))).
      * right. eauto.
    + intros item' v' Hin. apply Hsame. now right.
Qed.

End Binder.

Lemma get_argument_dictionary_In (l : list Argument) (key : string) (d : Argument) :
  get_argument_dictionary l key = Some d -> In d l /\ name d = key.
Proof.
  unfold get_argument_dictionary.
  destruct (List.filter _ l) as [|d0 rest] eqn:Hf; [discriminate |].
  intros [= <-].
  assert (Hin : In d0 (List.filter (fun x => String.eqb (name x) key) l))
    by (rewrite Hf; now left).
  apply List.filter_In in Hin as [Hin Heq].
  split; [exact Hin | now apply String.eqb_eq].
Qed.

Lemma binding_of_In (n : string) (b : target * string) :
  binding_of n = Some b -> In (n, b) bindings.
Proof.
  unfold binding_of.
  destruct (get_argument_dictionary arguments n) as [d|] eqn:Hd; [| discriminate].
  intros Hattr. apply get_argument_dictionary_In in Hd as [Hin <-].
  unfold bindings. apply List.in_flat_map. exists d. split; [exact Hin |].
  rewrite Hattr. now left.
Qed.

Lemma NoDup_snd_inj {A B} (l : list (A * B)) (a a' : A) (b : B) :
  List.NoDup (List.map snd l) -> In (a, b) l -> In (a', b) l -> a = a'.
Proof.
  induction l as [|[a0 b0] rest IH]; simpl; [tauto |].
  intros Hnd. apply List.NoDup_cons_iff in Hnd as [Hnotin Hnd].
  intros [H1 | H1] [H2 | H2].
  - congruence.
  - injection H1 as -> ->. exfalso. apply Hnotin.
    apply (List.in_map snd) in H2. exact H2.
  - injection H2 as -> ->. exfalso. apply Hnotin.
    apply (List.in_map snd) in H1. exact H1.
  - now apply IH.
Qed.

(** No two options are bound to the same field. *)
Lemma bindings_NoDup : List.NoDup (List.map snd bindings).
Proof. apply NoDup_ListNoDup. apply (bool_decide_unpack _). vm_compute. reflexivity. Qed.

Lemma binding_of_inj (n n' : string) (b : target * string) :
  binding_of n = Some b -> binding_of n' = Some b -> n = n'.
Proof.
  intros H H'. apply (NoDup_snd_inj bindings n n' b bindings_NoDup);
    now apply binding_of_In.
Qed.

Lemma is_None_false (v : value) : is_None v = false <-> v <> VNone.
Proof. destruct v; simpl; split; congruence. Qed.

Lemma write_of_Some (item : string * value) (o : target) (attr : string)
    (v : value) :
  write_of item = Some (o, attr, v) <->
  item.2 = v /\ v <> VNone /\ binding_of item.1 = Some (o, attr).
Proof.
  unfold write_of. destruct item as [n v0]. simpl.
  destruct (is_None v0) eqn:Hnone.
  - split; [discriminate |]. intros (-> & Hv & _).
    apply is_None_false in Hv. congruence.
  - apply is_None_false in Hnone.
    destruct (binding_of n) as [[o' attr']|].
    + split.
      * intros [= -> -> ->]. auto.
      * intros (-> & _ & [= -> ->]). reflexivity.
    + split; [discriminate | intros (_ & _ & H); discriminate].
Qed.

Lemma profile_calls_app (t t' : list event) :
  profile_calls (t ++ t')%list = (profile_calls t ++ profile_calls t')%list.
Proof.
  induction t as [|e t IH]; simpl; [reflexivity |].
  destruct e; simpl; now rewrite ?IH.
Qed.

Lemma perform_profile_calls (verbose : bool) (item : string * value) (w : World) :
  profile_calls (trace (perform verbose item w)) = profile_calls (trace w).
Proof.
  unfold perform. destruct (write_of item) as [[[o attr] v]|]; [| reflexivity].
  destruct verbose, o; simpl; rewrite ?profile_calls_app; simpl;
    now rewrite ?app_nil_r.
Qed.

Lemma bind_all_rest (verbose : bool) (l : namespace) (w : World) :
  let w' := bind_all verbose l w in
  argv w' = argv w /\ stdin w' = stdin w /\ importable w' = importable w
  /\ profile_calls (trace w') = profile_calls (trace w).
Proof.
  unfold bind_all. revert w.
  induction l as [|item rest IH]; intros w; simpl; [auto |].
  destruct (IH (perform verbose item w)) as (Ha & Hs & Hi & Hp).
  destruct (perform_rest verbose item w) as (Ha' & Hs' & Hi').
  pose proof (perform_profile_calls verbose item w) as Hp'.
  repeat split; congruence.
Qed.

(** One pass of the binder over a namespace of the schema: it ends
    normally; a bound option whose value is not [None] is on its field; a
    field that no such option is bound to is as before; only attributes
    and the trace change, and the trace gains no call of the profile
    loader. *)
Lemma set_attributes_spec (args : namespace) (w : World) :
  ns_wf args ->
  exists w',
    set_attributes args w = (Val tt, w')
    /\ (forall n v o attr,
          ns_get args n = Some v -> v <> VNone ->
          binding_of n = Some (o, attr) -> object o w' !! attr = Some v)
    /\ (forall o attr,
          (forall n v, ns_get args n = Some v ->
                       binding_of n = Some (o, attr) -> v = VNone) ->
          object o w' !! attr = object o w !! attr)
    /\ argv w' = argv w /\ stdin w' = stdin w /\ importable w' = importable w
    /\ profile_calls (trace w') = profile_calls (trace w).
Proof.
  intros Hwf.
  destruct (ns_wf_get args "verbose" Hwf eq_refl) as [verbose Hverbose].
  pose proof (ns_wf_NoDup args Hwf) as Hnd.
  eexists. split; [apply (set_attributes_run args verbose w Hverbose) |].
  split; [| split; [| split; [| split; [| split]]]].
  - intros n v o attr Hget Hv Hb. apply bind_all_wins.
    + right. exists (n, v). split; [now apply ns_get_In |].
      apply write_of_Some. auto.
    + intros [n' v0] v' Hin Hw. apply write_of_Some in Hw as (<- & _ & Hb').
      simpl in *. assert (n' = n) as -> by exact (binding_of_inj _ _ _ Hb' Hb).
      apply (In_ns_get _ _ _ Hnd) in Hin. congruence.
  - intros o attr Hnone. apply bind_all_frame.
    intros [n v0] v Hin Hw. apply write_of_Some in Hw as (<- & Hv & Hb).
    simpl in *. apply Hv. apply (Hnone n); [| exact Hb].
    now apply In_ns_get.
  - apply bind_all_rest.
  - apply bind_all_rest.
  - apply bind_all_rest.
  - apply bind_all_rest.
Qed.

(** ** Steps that change no attribute *)

Lemma same_config_refl (w : World) : same_config w w.
Proof.
  unfold same_config. repeat split. exists []. now rewrite app_nil_r.
Qed.

Lemma same_config_trans (w1 w2 w3 : World) :
  same_config w1 w2 -> same_config w2 w3 -> same_config w1 w3.
Proof.
  unfold same_config. intros (? & ? & l & Hl & Hc) (? & ? & l' & Hl' & Hc').
  repeat split; [congruence | congruence |].
  exists (l ++ l')%list. split.
  - rewrite Hl', Hl. now rewrite app_assoc.
  - now rewrite profile_calls_app, Hc, Hc'.
Qed.

Lemma same_config_calls (w w' : World) :
  same_config w w' -> profile_calls (trace w') = profile_calls (trace w).
Proof.
  intros (_ & _ & l & -> & Hc). rewrite profile_calls_app, Hc. apply app_nil_r.
Qed.

Lemma same_config_event (e : event) (w : World) :
  profile_calls [e] = [] -> same_config w (add_event e w).
Proof. intros He. repeat split. now exists [e]. Qed.

Lemma steady_ret {A} (a : A) : steady (mret a : M A).
Proof. intros w. apply post_ret, same_config_refl. Qed.

Lemma steady_bind {A B} (m : M A) (f : A -> M B) :
  steady m -> (forall a, steady (f a)) -> steady (m ≫= f).
Proof.
  intros Hm Hf w. apply post_bind.
  eapply post_conseq; [apply Hm |]. intros a w1 H1. cbv beta.
  eapply post_conseq; [apply Hf |]. intros b w2 H2. cbv beta.
  now apply (same_config_trans w w1 w2).
Qed.

Lemma steady_when (b : bool) (m : M unit) : steady m -> steady (when b m).
Proof. intros Hm. destruct b; [exact Hm | apply steady_ret]. Qed.

Lemma steady_emit (e : event) : profile_calls [e] = [] -> steady (emit e).
Proof.
  intros He w. eapply post_run; [reflexivity |].
  now apply same_config_event.
Qed.

Lemma steady_missing_among (l : list string) : steady (missing_among l).
Proof. intros w. eapply post_run; [reflexivity | apply same_config_refl]. Qed.

Lemma post_input (prompt line : string) (rest : list string) (w : World)
    (Q : string -> World -> Prop) :
  stdin w = line :: rest ->
  (forall w', same_config w w' -> importable w' = importable w -> Q line w') ->
  post (input prompt) w Q.
Proof.
  intros Hstdin HQ. eapply post_run.
  - unfold input. rewrite Hstdin. reflexivity.
  - apply HQ; [| reflexivity].
    repeat split. now exists [Input prompt].
Qed.

Create HintDb steady.
#[local] Hint Resolve steady_ret steady_when steady_missing_among : steady.
#[local] Hint Extern 1 (steady (emit _)) => apply steady_emit; reflexivity : steady.
#[local] Hint Extern 2 (steady (_ ≫= _)) => apply steady_bind; [| intros ?] : steady.

Section Resolution.

Variable profile :
  value -> gmap string value -> gmap string value ->
  gmap string value * gmap string value.
Variable computer_run : string -> string -> gset string -> gset string.

Lemma steady_run_on_computer (language code : string) (display : value) :
  steady (run_on_computer computer_run language code display).
Proof.
  intros w. eapply post_run; [reflexivity |].
  repeat split. now exists [ComputerRun language code display].
Qed.

Lemma steady_install_with (pip_names missing_packages : list string) :
  steady (install_with computer_run pip_names missing_packages).
Proof.
  induction pip_names as [|pip_name rest IH]; simpl; [apply steady_ret |].
  apply steady_bind; [apply steady_run_on_computer | intros _].
  apply steady_bind; [apply steady_missing_among | intros still_missing].
  destruct still_missing; [apply steady_ret | exact IH].
Qed.

(** The package check falls through, with the attributes as they were,
    when nothing is missing or a line can be read. *)
Lemma provision_packages_steady (w : World) :
  not_importable w packages = [] \/ stdin w <> [] ->
  post (provision_packages computer_run) w (fun _ w' => same_config w w').
Proof.
  intros Hready. unfold provision_packages. apply post_bind.
  eapply post_run; [reflexivity |]. cbv beta.
  destruct (not_importable w packages) as [|p missing] eqn:Hmissing.
  - apply post_ret, same_config_refl.
  - destruct Hready as [? | Hstdin]; [discriminate |].
    destruct (stdin w) as [|line rest] eqn:Hin; [congruence |].
    apply post_bind. eapply post_run; [reflexivity |]. cbv beta.
    apply post_bind.
    apply (post_input _ line rest); [exact Hin |].
    intros w2 H2 _.
    eapply post_conseq.
    + assert (Hs : steady
        (when (negb (String.eqb (lower line) "y"))
           (emit PrintInstallManually ;; emit (Sleep 20) ;; emit PrintStartAnyway) ;;
         install_with computer_run ["pip"; "pip3"] (p :: missing) ;;
         missing_packages ← missing_among packages ;
         match missing_packages with
         | [] => skip
         | _ :: _ =>
             emit (PrintNotInstalled missing_packages) ;;
             emit PrintInstallManually ;; emit (Sleep 20) ;; emit PrintStartAnyway
         end)).
      { apply steady_bind; [auto 10 with steady | intros _].
        apply steady_bind; [apply steady_install_with | intros _].
        apply steady_bind; [apply steady_missing_among | intros l].
        destruct l; [apply steady_ret | auto 10 with steady]. }
      apply Hs.
    + intros u w3 H3. cbv beta.
      refine (same_config_trans _ _ _ _ (same_config_trans _ _ _ H2 H3)).
      now apply (same_config_event (DisplayMissingPackages (p :: missing))).
Qed.

Lemma os_settings_run (args : namespace) (model offline : value) (w : World) :
  ns_get args "model" = Some model ->
  ns_get args "offline" = Some offline ->
  os_settings args w =
  (Val (os_model model args),
   {| interpreter := os_interpreter (truthy offline) (interpreter w);
      llm := os_llm (llm w); argv := argv w; stdin := stdin w;
      importable := importable w; trace := trace w |}).
Proof.
  intros Hmodel Hoffline.
  unfold os_settings, arg, os_model. rewrite Hmodel. run.
  assert (Hoffline' :
    ns_get (ns_set "model" (VStr "gpt-4-vision-preview") args) "offline"
    = Some offline) by (rewrite ns_get_set; exact Hoffline).
  destruct (truthy model); cbv beta iota delta [negb];
    rewrite ?Hoffline', ?Hoffline; unfold os_interpreter, os_llm, getattr, as_str;
    run; (destruct (truthy offline); [| reflexivity]);
    rewrite lookup_insert_eq; reflexivity.
Qed.

Lemma os_announcements_run (args : namespace) (offline auto_run verbose : value)
    (w : World) :
  ns_get args "offline" = Some offline ->
  ns_get args "auto_run" = Some auto_run ->
  ns_get args "verbose" = Some verbose ->
  post (os_announcements computer_run args) w
    (fun args' w' => args' = ns_set "profile" (VStr "os.py") args
                     /\ same_config w w').
Proof.
  intros Hoffline Hauto Hverbose.
  unfold os_announcements, arg. rewrite Hoffline, Hauto, Hverbose.
  unfold run_on_computer. run.
  destruct (truthy offline), (truthy auto_run); cbv beta iota delta [negb];
    (eapply post_run; [reflexivity |]); (split; [reflexivity |]);
    (split; [reflexivity |]); (split; [reflexivity |]);
    cbv beta iota delta [trace]; rewrite <- ?app_assoc;
    (eexists; split; [reflexivity |]); reflexivity.
Qed.

Lemma flag_get (args : namespace) (key : string) (v : value) :
  ns_get args key = Some v -> truthy v = flag args key.
Proof. intros H. unfold flag. now rewrite H. Qed.

Lemma os_mode_run (args : namespace) (w : World) :
  ns_wf args -> can_provision w ->
  post (os_mode computer_run args) w
    (fun args' w' =>
       args' = ns_set "profile" (VStr "os.py")
                 (if negb (flag args "model")
                  then ns_set "model" (VStr "gpt-4-vision-preview") args
                  else args)
       /\ interpreter w' = os_interpreter (flag args "offline") (interpreter w)
       /\ llm w' = os_llm (llm w)
       /\ profile_calls (trace w') = profile_calls (trace w)).
Proof.
  intros Hwf Hready.
  destruct (ns_wf_get args "model" Hwf eq_refl) as [model Hmodel].
  destruct (ns_wf_get args "offline" Hwf eq_refl) as [offline Hoffline].
  destruct (ns_wf_get args "auto_run" Hwf eq_refl) as [auto_run Hauto].
  destruct (ns_wf_get args "verbose" Hwf eq_refl) as [verbose Hverbose].
  rewrite <- (flag_get _ _ _ Hmodel), <- (flag_get _ _ _ Hoffline).
  fold (os_model model args).
  assert (Hkeep : forall key, String.eqb "model" key = false ->
            ns_get (os_model model args) key = ns_get args key).
  { intros key Hkey. unfold os_model.
    destruct (negb (truthy model)); [| reflexivity].
    now rewrite ns_get_set, Hkey. }
  unfold os_mode. apply post_bind.
  eapply post_run; [apply (os_settings_run args model offline w Hmodel Hoffline) |].
  cbv beta. apply post_bind.
  eapply post_conseq; [apply provision_packages_steady; exact Hready |].
  intros u w2 H2. cbv beta.
  eapply post_conseq.
  - apply (os_announcements_run (os_model model args) offline auto_run verbose);
      rewrite Hkeep; auto.
  - intros args' w3 (-> & H3). cbv beta.
    split; [reflexivity |].
    pose proof (same_config_calls _ _ (same_config_trans _ _ _ H2 H3)) as Hp.
    destruct H2 as (Hi2 & Hl2 & _), H3 as (Hi3 & Hl3 & _).
    simpl in *. repeat split; congruence.
Qed.

Lemma ns_get_cond_set (b : bool) (key key' : string) (v : value)
    (args : namespace) :
  String.eqb key key' = false ->
  ns_get (if b then ns_set key v args else args) key' = ns_get args key'.
Proof. intros H. destruct b; [| reflexivity]. now rewrite ns_get_set, H. Qed.

Lemma ns_wf_cond_set (b : bool) (key : string) (v : value) (args : namespace) :
  ns_wf args -> existsb (String.eqb key) names = true ->
  ns_wf (if b then ns_set key v args else args).
Proof. intros Hwf Hkey. destruct b; [now apply ns_wf_set | exact Hwf]. Qed.

Lemma mode_expander_run (args : namespace) (w : World) :
  ns_wf args ->
  (flag args "os" = true -> can_provision w) ->
  post (mode_expander computer_run args) w
    (fun args' w' =>
       args' = expanded args
       /\ interpreter w' =
          (if flag args "os"
           then os_interpreter (flag args "offline") (interpreter w)
           else interpreter w)
       /\ llm w' = (if flag args "os" then os_llm (llm w) else llm w)
       /\ profile_calls (trace w') = profile_calls (trace w)).
Proof.
  intros Hwf Hready.
  destruct (ns_wf_get args "fast" Hwf eq_refl) as [fast Hfast].
  destruct (ns_wf_get args "vision" Hwf eq_refl) as [vision Hvision].
  destruct (ns_wf_get args "os" Hwf eq_refl) as [os Hos].
  destruct (ns_wf_get args "local" Hwf eq_refl) as [local Hlocal].
  unfold expanded.
  rewrite <- (flag_get _ _ _ Hfast), <- (flag_get _ _ _ Hvision),
    <- (flag_get _ _ _ Hlocal).
  unfold mode_expander.
  apply post_bind, (post_arg _ _ fast); [exact Hfast |]. cbv zeta.
  set (args1 := if truthy fast then _ else args).
  assert (Hwf1 : ns_wf args1) by now apply ns_wf_cond_set.
  assert (H1 : forall key, String.eqb "profile" key = false ->
                 ns_get args1 key = ns_get args key)
    by (intros key Hkey; now apply ns_get_cond_set).
  apply post_bind, (post_arg _ _ vision); [now rewrite H1 |].
  set (args2 := if truthy vision then _ else args1).
  assert (Hwf2 : ns_wf args2) by now apply ns_wf_cond_set.
  assert (H2 : forall key, String.eqb "profile" key = false ->
                 ns_get args2 key = ns_get args key).
  { intros key Hkey. unfold args2. rewrite ns_get_cond_set by exact Hkey.
    now apply H1. }
  apply post_bind, (post_arg _ _ os); [now rewrite H2 |].
  assert (Hflag : forall key, String.eqb "profile" key = false ->
                    flag args2 key = flag args key)
    by (intros key Hkey; unfold flag; now rewrite H2).
  apply post_bind. rewrite <- (flag_get _ _ _ Hos) in *.
  destruct (truthy os).
  - eapply post_conseq; [apply (os_mode_run args2 w Hwf2); now apply Hready |].
    intros args3 w3 (-> & Hi & Hl & Hp). cbv beta.
    rewrite !Hflag in * by reflexivity.
    apply post_bind, (post_arg _ _ local).
    + rewrite ns_get_set. simpl. rewrite ns_get_cond_set by reflexivity.
      now rewrite H2.
    + apply post_ret. auto.
  - apply post_ret. apply post_bind, (post_arg _ _ local); [now rewrite H2 |].
    apply post_ret. auto.
Qed.

Lemma expanded_wf (args : namespace) : ns_wf args -> ns_wf (expanded args).
Proof.
  intros Hwf. unfold expanded. cbv zeta.
  apply ns_wf_cond_set; [| reflexivity].
  destruct (flag args "os").
  - apply ns_wf_set; [| reflexivity]. apply ns_wf_cond_set; [| reflexivity].
    now repeat (apply ns_wf_cond_set; [| reflexivity]).
  - now repeat (apply ns_wf_cond_set; [| reflexivity]).
Qed.

(** Apart from [profile], the mode expander changes one entry: under [--os]
    a [model] that is [None] or empty becomes the vision model. *)
Lemma expanded_get (args : namespace) (key : string) :
  String.eqb "profile" key = false ->
  ns_get (expanded args) key =
  if (String.eqb "model" key && flag args "os" && negb (flag args "model"))%bool
  then Some (VStr "gpt-4-vision-preview")
  else ns_get args key.
Proof.
  intros Hkey. unfold expanded. cbv zeta.
  rewrite ns_get_cond_set by exact Hkey.
  destruct (flag args "os").
  - rewrite ns_get_set, Hkey.
    destruct (negb (flag args "model")).
    + rewrite ns_get_set. rewrite andb_true_r.
      destruct (String.eqb "model" key); [reflexivity |].
      now rewrite !ns_get_cond_set by exact Hkey.
    + rewrite andb_false_r. now rewrite !ns_get_cond_set by exact Hkey.
  - rewrite andb_false_r. simpl. now rewrite !ns_get_cond_set by exact Hkey.
Qed.

Lemma effective_profile_run (args : namespace) (w : World) :
  ns_wf args -> effective_profile args w = (Val (chosen_profile args), w).
Proof.
  intros Hwf. destruct (ns_wf_get args "profile" Hwf eq_refl) as [p Hp].
  unfold effective_profile, chosen_profile, arg. rewrite Hp. run.
  destruct (truthy p); reflexivity.
Qed.

(** The precedence resolver: binder, profile, binder. At the end a bound
    option with a value is on its field whatever the profile did, and a
    field to which no option with a value is bound is as the profile left
    it. *)
Lemma precedence_resolver_run (args : namespace) (w : World) :
  ns_wf args ->
  exists w1 w3,
    set_attributes args w = (Val tt, w1)
    /\ precedence_resolver profile args w = (Val tt, w3)
    /\ (forall n v o attr,
          ns_get args n = Some v -> v <> VNone ->
          binding_of n = Some (o, attr) -> object o w3 !! attr = Some v)
    /\ (forall o attr,
          (forall n v, ns_get args n = Some v ->
                       binding_of n = Some (o, attr) -> v = VNone) ->
          object o w3 !! attr = profiled profile (chosen_profile args) w1 o !! attr)
    /\ argv w3 = argv w /\ stdin w3 = stdin w /\ importable w3 = importable w
    /\ profile_calls (trace w3) =
       (profile_calls (trace w) ++ [chosen_profile args])%list.
Proof.
  intros Hwf.
  destruct (set_attributes_spec args w Hwf)
    as (w1 & Hrun1 & _ & _ & Ha1 & Hs1 & Hi1 & Hp1).
  set (filename := chosen_profile args).
  set (w2 := {| interpreter := profiled profile filename w1 Interpreter;
                llm := profiled profile filename w1 Llm;
                argv := argv w1; stdin := stdin w1; importable := importable w1;
                trace := trace w1 ++ [CallProfile filename] |}).
  assert (Hrun2 : apply_profile profile filename w1 = (Val tt, w2)).
  { unfold apply_profile, w2, profiled.
    now destruct (profile filename (interpreter w1) (llm w1)). }
  destruct (set_attributes_spec args w2 Hwf)
    as (w3 & Hrun3 & Hwins & Hframe & Ha3 & Hs3 & Hi3 & Hp3).
  exists w1, w3. split; [exact Hrun1 |]. split.
  - unfold precedence_resolver.
    rewrite (run_bind_val _ _ w w1 tt Hrun1).
    rewrite (run_bind_val _ _ w1 w1 filename (effective_profile_run args w1 Hwf)).
    rewrite (run_bind_val _ _ w1 w2 tt Hrun2). exact Hrun3.
  - split; [exact Hwins |]. split.
    + intros o attr Hnone. rewrite (Hframe o attr Hnone). now destruct o.
    + rewrite Ha3, Hs3, Hi3, Hp3. simpl. rewrite profile_calls_app, Hp1.
      auto.
Qed.

Lemma eq_str_true (v : value) (lit : string) :
  eq_str v lit = true <-> v = VStr lit.
Proof.
  destruct v; simpl; try (split; congruence).
  rewrite String.eqb_eq. split; congruence.
Qed.

(** The check of [auto_run] against [safe_mode], on the object alone. *)
Lemma safe_mode_check_run (w : World) (auto_run : value) :
  interpreter w !! "auto_run" = Some auto_run ->
  (truthy auto_run = true -> is_Some (interpreter w !! "safe_mode")) ->
  exists w',
    safe_mode_disables_auto_run w = (Val tt, w')
    /\ llm w' = llm w /\ stdin w' = stdin w /\ importable w' = importable w
    /\ trace w' = trace w.
Proof.
  intros Hauto Hsafe. unfold safe_mode_disables_auto_run, getattr. step.
  rewrite Hauto. step. destruct (truthy auto_run); [| eauto 10].
  destruct (Hsafe eq_refl) as [safe_mode ->]. step.
  destruct (eq_str safe_mode "ask" || eq_str safe_mode "auto");
    eexists; (split; [reflexivity |]); auto.
Qed.

Lemma resolve_run (args : namespace) (w : World) :
  can_resolve args w ->
  post (resolve profile computer_run args) w
    (fun args' w' =>
       args' = expanded args
       /\ (forall n v o attr,
             ns_get (expanded args) n = Some v -> v <> VNone ->
             binding_of n = Some (o, attr) -> object o w' !! attr = Some v)
       /\ profile_calls (trace w') =
          (profile_calls (trace w) ++ [chosen_profile (expanded args)])%list).
Proof.
  intros (Hwf & (auto_run & Hauto & Hsafe) & Hready).
  destruct (safe_mode_check_run w auto_run Hauto Hsafe)
    as (w1 & Hrun1 & _ & Hs1 & Hi1 & Ht1).
  unfold resolve. apply post_bind.
  eapply post_run; [exact Hrun1 |]. cbv beta. apply post_bind.
  eapply post_conseq.
  - apply (mode_expander_run args w1 Hwf). intros Hos.
    unfold can_provision, not_importable. rewrite Hs1, Hi1.
    now apply Hready.
  - intros args' w2 (-> & _ & _ & Hp2). cbv beta.
    destruct (precedence_resolver_run (expanded args) w2 (expanded_wf args Hwf))
      as (w3 & w4 & _ & Hrun4 & Hwins & _ & _ & _ & _ & Hp4).
    apply post_bind. eapply post_run; [exact Hrun4 |]. cbv beta.
    apply post_ret. split; [reflexivity |]. split; [exact Hwins |].
    rewrite Hp4, Hp2, Ht1. reflexivity.
Qed.

(** C1. Whatever the profile loader does, when the run reaches the binder
    every bound option that has a value in the parsed namespace has that
    value on its field after the second pass of the binder. The one value
    that does not get there is an empty [--model] under [--os], which the
    mode expander replaces before the binder runs. *)
Theorem cli_values_win (args : namespace) (w : World) :
  can_resolve args w ->
  post (resolve profile computer_run args) w
    (fun _ w' =>
       forall n v o attr,
         ns_get args n = Some v -> v <> VNone ->
         binding_of n = Some (o, attr) ->
         ~ (n = "model" /\ flag args "os" = true /\ truthy v = false) ->
         object o w' !! attr = Some v).
Proof.
  intros Hcan. eapply post_conseq; [apply (resolve_run args w Hcan) |].
  intros args' w' (_ & Hwins & _) n v o attr Hget Hv Hb Hnot. cbv beta.
  apply (Hwins n v o attr); [| exact Hv | exact Hb].
  assert (Hkey : String.eqb "profile" n = false).
  { destruct (String.eqb_spec "profile" n) as [<-|]; [| reflexivity].
    vm_compute in Hb. discriminate. }
  rewrite (expanded_get args n Hkey).
  destruct (String.eqb_spec "model" n) as [<-|]; [| exact Hget].
  destruct (flag args "os") eqn:Hos; [| exact Hget].
  unfold flag at 1. rewrite Hget. simpl.
  destruct (truthy v) eqn:Hv'; [reflexivity |].
  exfalso. apply Hnot. auto.
Qed.

(** C2. The second pass of the binder writes no field through a [None]:
    whatever the profile loader does, a field to which no option with a
    value other than [None] is bound holds after the pass what the profile
    loader left on it. *)
Theorem binder_leaves_unset_options (args : namespace) (w : World) :
  ns_wf args ->
  exists w1 w3,
    set_attributes args w = (Val tt, w1)
    /\ precedence_resolver profile args w = (Val tt, w3)
    /\ forall o attr,
         (forall n v, ns_get args n = Some v ->
                      binding_of n = Some (o, attr) -> v = VNone) ->
         object o w3 !! attr = profiled profile (chosen_profile args) w1 o !! attr.
Proof.
  intros Hwf.
  destruct (precedence_resolver_run args w Hwf)
    as (w1 & w3 & Hrun1 & Hrun3 & _ & Hframe & _).
  exists w1, w3. auto.
Qed.

(** What the mode flags make of the profile selection. *)
Lemma expanded_profile (args : namespace) :
  ns_get (expanded args) "profile" =
  if flag args "local" then Some (VStr "local.py")
  else if flag args "os" then Some (VStr "os.py")
  else if flag args "vision" then Some (VStr "vision.yaml")
  else if flag args "fast" then Some (VStr "fast.yaml")
  else ns_get args "profile".
Proof.
  unfold expanded. cbv zeta.
  destruct (flag args "local"); [now rewrite ns_get_set |].
  destruct (flag args "os"); [now rewrite ns_get_set |].
  destruct (flag args "vision"); [now rewrite ns_get_set |].
  destruct (flag args "fast"); [now rewrite ns_get_set | reflexivity].
Qed.

(** C9. The profile loader is called once, with the file name the mode
    flags select: [fast.yaml] for [--fast] (no [--vision], [--os] or
    [--local] given), [vision.yaml] for [--vision] (no [--os] or
    [--local]), [local.py] for [--local], and [os.py] for [--os] without
    [--local]; the value of [--profile] plays no part in these cases, and
    is the choice only when no mode flag is given. *)
Theorem mode_flag_selects_profile (args : namespace) (w : World) :
  can_resolve args w ->
  post (resolve profile computer_run args) w
    (fun _ w' =>
       exists filename,
         profile_calls (trace w') = (profile_calls (trace w) ++ [filename])%list
         /\ (flag args "fast" = true -> flag args "vision" = false ->
             flag args "os" = false -> flag args "local" = false ->
             filename = VStr "fast.yaml")
         /\ (flag args "vision" = true ->
             flag args "os" = false -> flag args "local" = false ->
             filename = VStr "vision.yaml")
         /\ (flag args "local" = true -> filename = VStr "local.py")
         /\ (flag args "os" = true -> flag args "local" = false ->
             filename = VStr "os.py")
         /\ (flag args "fast" = false -> flag args "vision" = false ->
             flag args "os" = false -> flag args "local" = false ->
             filename = chosen_profile args)).
Proof.
  intros Hcan. eapply post_conseq; [apply (resolve_run args w Hcan) |].
  intros args' w' (_ & _ & Hcalls). cbv beta.
  exists (chosen_profile (expanded args)). split; [exact Hcalls |].
  unfold chosen_profile. rewrite expanded_profile.
  repeat split.
  - intros -> -> -> ->. reflexivity.
  - intros -> -> ->. reflexivity.
  - intros ->. reflexivity.
  - intros -> ->. reflexivity.
  - intros -> -> -> ->. reflexivity.
Qed.

(** C10. The check that lets [safe_mode] disable [auto_run] looks at the
    object it is given: with [auto_run] true and [safe_mode] "ask" or
    "auto" there, it sets [auto_run] to [False]; otherwise it changes
    nothing, whatever the namespace holds. It comes before the binder, so
    with [--auto_run --safe_mode ask] on the command line both are on the
    object once the binder has run. *)
Theorem safe_mode_check_precedes_binding (args : namespace) (w : World)
    (auto_run safe_mode : value) :
  interpreter w !! "auto_run" = Some auto_run ->
  interpreter w !! "safe_mode" = Some safe_mode ->
  (truthy auto_run = true ->
   safe_mode = VStr "ask" \/ safe_mode = VStr "auto" ->
   safe_mode_disables_auto_run w =
     (Val tt, set_object Interpreter
                (<["auto_run" := VBool false]> (interpreter w)) w))
  /\ (truthy auto_run = false
      \/ (safe_mode <> VStr "ask" /\ safe_mode <> VStr "auto") ->
      safe_mode_disables_auto_run w = (Val tt, w))
  /\ (ns_wf args -> (flag args "os" = true -> can_provision w) ->
      ns_get args "auto_run" = Some (VBool true) ->
      ns_get args "safe_mode" = Some (VStr "ask") ->
      post (resolve profile computer_run args) w
        (fun _ w' =>
           interpreter w' !! "auto_run" = Some (VBool true)
           /\ interpreter w' !! "safe_mode" = Some (VStr "ask"))).
Proof.
  intros Hauto Hsafe. split; [| split].
  - intros Htruthy Hmode.
    unfold safe_mode_disables_auto_run, getattr. step.
    rewrite Hauto. step. rewrite Htruthy, Hsafe.
    destruct Hmode as [-> | ->]; reflexivity.
  - intros Hno. unfold safe_mode_disables_auto_run, getattr. step.
    rewrite Hauto. step. destruct (truthy auto_run); [| reflexivity].
    destruct Hno as [? | [Hask Hautom]]; [discriminate |].
    rewrite Hsafe. step.
    destruct (eq_str safe_mode "ask") eqn:E1;
      [apply eq_str_true in E1; contradiction |].
    destruct (eq_str safe_mode "auto") eqn:E2;
      [apply eq_str_true in E2; contradiction |].
    reflexivity.
  - intros Hwf Hready Hargs_auto Hargs_safe.
    assert (Hcan : can_resolve args w).
    { split; [exact Hwf |]. split; [| exact Hready].
      exists auto_run. split; [exact Hauto | intros _; now exists safe_mode]. }
    eapply post_conseq; [apply (resolve_run args w Hcan) |].
    intros args' w' (_ & Hwins & _). cbv beta. split.
    + apply (Hwins "auto_run" (VBool true) Interpreter "auto_run");
        [| discriminate | reflexivity].
      now rewrite expanded_get by reflexivity.
    + apply (Hwins "safe_mode" (VStr "ask") Interpreter "safe_mode");
        [| discriminate | reflexivity].
      now rewrite expanded_get by reflexivity.
Qed.

(** ** OS control mode *)

(** The system message holds the line on icons once; replacing it by the
    empty string takes that line out and nothing else. *)
Lemma icon_line_removed :
  exists before after,
    os_system_message = before +:+ icon_line +:+ after
    /\ replace icon_line EmptyString os_system_message = before +:+ after
    /\ contains icon_line (before +:+ after) = false.
Proof.
  exists (match split_first icon_line os_system_message with
          | Some (before, _) => before
          | None => EmptyString
          end),
         (match split_first icon_line os_system_message with
          | Some (_, after) => after
          | None => EmptyString
          end).
  repeat split; vm_compute; reflexivity.
Qed.

Lemma os_system_message_nonempty :
  os_system_message <> EmptyString
  /\ replace icon_line EmptyString os_system_message <> EmptyString.
Proof. split; vm_compute; discriminate. Qed.

Lemma os_fields_from_maps (offline : bool) (i l : gmap string value) (w' : World) :
  interpreter w' = os_interpreter offline i -> llm w' = os_llm l ->
  os_fields_set offline w'.
Proof.
  intros Hi Hl. unfold os_fields_set. rewrite Hi, Hl.
  unfold os_llm, os_interpreter.
  destruct os_system_message_nonempty as [Hfull Hcut].
  destruct offline;
    repeat (split; [now rewrite ?lookup_insert_ne by discriminate;
                      rewrite lookup_insert_eq |]).
  - eexists. split; [apply lookup_insert_eq |]. split; [exact Hcut |].
    split; [discriminate |]. intros _.
    destruct icon_line_removed as (before & after & H1 & H2 & H3).
    exists before, after. rewrite H2. auto.
  - eexists. split; [apply lookup_insert_eq |]. split; [exact Hfull |].
    split; [reflexivity | discriminate].
Qed.

(** C6. With [--os], the settings step of the mode expander always ends
    normally and leaves: vision support true, function support false, a
    context window of 110000, at most 4096 tokens, [auto_run] and
    [force_task_completion] true, and a system message that is not empty;
    with [--offline] as well, the message is the fixed one without the line
    on icons, and without it the fixed one. When the package check can go
    through, the whole mode expander ends normally with these fields as
    they are, for the first pass of the binder to start from. *)
Theorem os_mode_sets_fields (args : namespace) (w : World) :
  ns_wf args -> flag args "os" = true ->
  post (os_settings args) w
    (fun _ w' => os_fields_set (flag args "offline") w')
  /\ (can_provision w ->
      post (mode_expander computer_run args) w
        (fun _ w' => os_fields_set (flag args "offline") w')).
Proof.
  intros Hwf Hos. split.
  - destruct (ns_wf_get args "model" Hwf eq_refl) as [model Hmodel].
    destruct (ns_wf_get args "offline" Hwf eq_refl) as [offline Hoffline].
    eapply post_run; [apply (os_settings_run args model offline w Hmodel Hoffline) |].
    rewrite <- (flag_get _ _ _ Hoffline).
    now apply (os_fields_from_maps _ (interpreter w) (llm w)).
  - intros Hready. eapply post_conseq.
    { apply (mode_expander_run args w Hwf). intros _. exact Hready. }
    intros args' w' (_ & Hi & Hl & _). cbv beta.
    rewrite Hos in Hi, Hl.
    now apply (os_fields_from_maps _ (interpreter w) (llm w)).
Qed.

(** C4. When packages are missing and the answer at the prompt is not
    [y], the package check prints the guidance and then still runs
    [pip install 'open-interpreter[os]'] on the computer, before it falls
    through to the rest of OS control mode. *)
Theorem declined_install_is_attempted (w : World) (p : string)
    (missing : list string) (line : string) (rest : list string) :
  not_importable w packages = p :: missing ->
  stdin w = line :: rest ->
  String.eqb (lower line) "y" = false ->
  post (provision_packages computer_run) w
    (fun _ w' =>
       exists later,
         trace w' =
         (trace w
          ++ [DisplayMissingPackages (p :: missing); Input "(y/n) > ";
              PrintInstallManually; Sleep 20; PrintStartAnyway;
              ComputerRun "shell" "pip install 'open-interpreter[os]'" (VBool true)]
          ++ later)%list).
Proof.
  intros Hmissing Hstdin Hline.
  unfold provision_packages.
  apply post_bind. eapply post_run; [reflexivity |]. cbv beta.
  rewrite Hmissing.
  apply post_bind. eapply post_run; [reflexivity |]. cbv beta.
  apply post_bind. eapply post_run.
  { unfold input. cbn [stdin]. rewrite Hstdin. reflexivity. }
  cbv beta. rewrite Hline. cbn [negb when].
  apply post_bind. eapply post_run; [reflexivity |]. cbv beta.
  apply post_bind. cbn [install_with].
  apply post_bind. eapply post_run; [reflexivity |]. cbv beta.
  eapply post_conseq.
  { apply (steady_bind (missing_among (p :: missing)));
      [apply steady_missing_among | intros l].
    destruct l;
      [apply steady_ret | exact (steady_install_with ["pip3"] (p :: missing))]. }
  intros u1 w1 (_ & _ & later1 & Hlater1 & _). cbv beta.
  eapply post_conseq.
  { apply (steady_bind (missing_among packages));
      [apply steady_missing_among | intros l].
    destruct l; [apply steady_ret | auto 10 with steady]. }
  intros u2 w2 (_ & _ & later2 & Hlater2 & _). cbv beta.
  exists (later1 ++ later2)%list. rewrite Hlater2, Hlater1. cbn [trace].
  rewrite <- !app_assoc. reflexivity.
Qed.

End Resolution.

(** ** The model default inferencer *)

Lemma filled_lookup (attr : string) (v : value) (d : gmap string value) :
  filled attr v d !! attr =
  match d !! attr with Some VNone => Some v | other => other end.
Proof.
  unfold filled. destruct (d !! attr) as [[]|] eqn:E; rewrite ?E; try reflexivity.
  apply lookup_insert_eq.
Qed.

Lemma filled_lookup_ne (attr key : string) (v : value) (d : gmap string value) :
  attr <> key -> filled attr v d !! key = d !! key.
Proof.
  intros Hne. unfold filled. destruct (d !! attr) as [[]|]; try reflexivity.
  now apply lookup_insert_ne.
Qed.

Lemma set_object_twice (o : target) (d d' : gmap string value) (w : World) :
  set_object o d (set_object o d' w) = set_object o d w.
Proof. now destruct o. Qed.

Lemma set_object_same (o : target) (w : World) : set_object o (object o w) w = w.
Proof. now destruct o, w. Qed.

Lemma fill_if_unset_run (attr : string) (v : value) (w : World) :
  is_Some (llm w !! attr) ->
  fill_if_unset attr v w = (Val tt, set_object Llm (filled attr v (llm w)) w).
Proof.
  intros [current Hcur]. unfold fill_if_unset, getattr, filled. step.
  rewrite Hcur. step.
  destruct current; simpl; try reflexivity;
    f_equal; symmetry; exact (set_object_same Llm w).
Qed.

Lemma fill_three_lookup_ne (cw : Z) (sf : bool) (d : gmap string value)
    (key : string) :
  key <> "context_window" -> key <> "max_tokens" ->
  key <> "supports_functions" ->
  fill_three cw sf d !! key = d !! key.
Proof.
  intros H1 H2 H3. unfold fill_three.
  now rewrite !filled_lookup_ne by congruence.
Qed.

Lemma fill_three_context_window (cw : Z) (sf : bool) (d : gmap string value) :
  fill_three cw sf d !! "context_window" =
  match d !! "context_window" with Some VNone => Some (VInt cw) | other => other end.
Proof.
  unfold fill_three. rewrite !filled_lookup_ne by discriminate.
  apply filled_lookup.
Qed.

Lemma fill_three_max_tokens (cw : Z) (sf : bool) (d : gmap string value) :
  fill_three cw sf d !! "max_tokens" =
  match d !! "max_tokens" with Some VNone => Some (VInt 4096) | other => other end.
Proof.
  unfold fill_three. rewrite filled_lookup_ne by discriminate.
  rewrite filled_lookup. now rewrite filled_lookup_ne by discriminate.
Qed.

Lemma fill_three_supports_functions (cw : Z) (sf : bool) (d : gmap string value) :
  fill_three cw sf d !! "supports_functions" =
  match d !! "supports_functions" with
  | Some VNone => Some (VBool sf)
  | other => other
  end.
Proof.
  unfold fill_three. rewrite filled_lookup.
  now rewrite !filled_lookup_ne by discriminate.
Qed.

Lemma fill_three_has (cw : Z) (sf : bool) (d : gmap string value) (name : string) :
  has_model_settings d name -> has_model_settings (fill_three cw sf d) name.
Proof.
  intros (Hm & [c Hc] & [m Hmt] & [s Hs]). unfold has_model_settings.
  rewrite (fill_three_lookup_ne cw sf d "model") by discriminate.
  rewrite fill_three_context_window, fill_three_max_tokens,
    fill_three_supports_functions, Hc, Hmt, Hs.
  split; [exact Hm |]. destruct c, m, s; eauto.
Qed.

Lemma fill_gpt4_run (cw : Z) (w : World) (name : string) :
  has_model_settings (llm w) name ->
  fill_gpt4 cw w =
  (Val tt, set_object Llm
             (fill_three cw (negb (contains "vision" name)) (llm w)) w).
Proof.
  intros (Hm & Hc & Hmt & [s Hs]). unfold fill_gpt4, fill_three.
  rewrite (run_bind_val _ _ _ _ tt (fill_if_unset_run _ _ w Hc)).
  set (d1 := filled "context_window" (VInt cw) (llm w)).
  assert (Hmt1 : is_Some (llm (set_object Llm d1 w) !! "max_tokens"))
    by (simpl; unfold d1; now rewrite filled_lookup_ne by discriminate).
  rewrite (run_bind_val _ _ _ _ tt
             (fill_if_unset_run "max_tokens" (VInt 4096) _ Hmt1)).
  simpl llm. rewrite set_object_twice.
  set (d2 := filled "max_tokens" (VInt 4096) d1).
  assert (Hs2 : d2 !! "supports_functions" = Some s)
    by (unfold d2, d1; now rewrite !filled_lookup_ne by discriminate).
  assert (Hm2 : d2 !! "model" = Some (VStr name))
    by (unfold d2, d1; now rewrite !filled_lookup_ne by discriminate).
  unfold getattr, as_str, filled. step. simpl llm. rewrite Hs2. step.
  destruct s; simpl; rewrite ?Hm2; simpl; rewrite ?set_object_twice;
    try reflexivity; now rewrite <- (set_object_twice Llm d2 d2 w) at 1.
Qed.

Lemma fill_gpt35_run (w : World) (name : string) :
  has_model_settings (llm w) name ->
  (fill_if_unset "context_window" (VInt 16000) ;;
   fill_if_unset "max_tokens" (VInt 4096) ;;
   fill_if_unset "supports_functions" (VBool true)) w =
  (Val tt, set_object Llm (fill_three 16000 true (llm w)) w).
Proof.
  intros (Hm & Hc & Hmt & Hs). unfold fill_three.
  rewrite (run_bind_val _ _ _ _ tt (fill_if_unset_run _ _ w Hc)).
  set (d1 := filled "context_window" (VInt 16000) (llm w)).
  assert (Hmt1 : is_Some (llm (set_object Llm d1 w) !! "max_tokens"))
    by (simpl; unfold d1; now rewrite filled_lookup_ne by discriminate).
  rewrite (run_bind_val _ _ _ _ tt
             (fill_if_unset_run "max_tokens" (VInt 4096) _ Hmt1)).
  simpl llm. rewrite set_object_twice.
  set (d2 := filled "max_tokens" (VInt 4096) d1).
  assert (Hs2 : is_Some (llm (set_object Llm d2 w) !! "supports_functions"))
    by (simpl; unfold d2, d1; now rewrite !filled_lookup_ne by discriminate).
  rewrite (fill_if_unset_run "supports_functions" (VBool true) _ Hs2).
  simpl llm. now rewrite set_object_twice.
Qed.

Lemma model_startswith_run (prefix1 prefix2 : string) (w : World) (name : string) :
  llm w !! "model" = Some (VStr name) ->
  model_startswith prefix1 prefix2 w =
  (Val (startswith name prefix1 || startswith name prefix2), w).
Proof.
  intros Hm. unfold model_startswith, getattr, as_str. step. now rewrite Hm.
Qed.

Lemma model_default_inferencer_run (w : World) (name : string) :
  has_model_settings (llm w) name ->
  model_default_inferencer w = (Val tt, set_object Llm (inferred name (llm w)) w).
Proof.
  intros Hhas. pose proof Hhas as (Hm & _).
  unfold model_default_inferencer, inferred. cbv zeta.
  rewrite (run_bind_val _ _ w w (VStr name)) by now apply getattr_some.
  simpl eq_str.
  set (d1 := if String.eqb name "gpt-4" || String.eqb name "openai/gpt-4"
             then fill_three 6500 (negb (contains "vision" name)) (llm w)
             else if startswith name "gpt-4" || startswith name "openai/gpt-4"
                  then fill_three 123000 (negb (contains "vision" name)) (llm w)
                  else llm w).
  assert (Hfirst :
    (if String.eqb name "gpt-4" || String.eqb name "openai/gpt-4"
     then fill_gpt4 6500
     else gpt4 ← model_startswith "gpt-4" "openai/gpt-4" ;
          when gpt4 (fill_gpt4 123000)) w
    = (Val tt, set_object Llm d1 w)).
  { unfold d1.
    destruct (String.eqb name "gpt-4" || String.eqb name "openai/gpt-4").
    - now apply fill_gpt4_run.
    - rewrite (run_bind_val _ _ w w _ (model_startswith_run _ _ w name Hm)).
      destruct (startswith name "gpt-4" || startswith name "openai/gpt-4");
        simpl when.
      + now apply fill_gpt4_run.
      + unfold skip, mret, M_ret. f_equal. symmetry.
        exact (set_object_same Llm w). }
  rewrite (run_bind_val _ _ w _ tt Hfirst).
  assert (Hhas1 : has_model_settings (llm (set_object Llm d1 w)) name).
  { simpl. unfold d1.
    destruct (String.eqb name "gpt-4" || String.eqb name "openai/gpt-4");
      [now apply fill_three_has |].
    destruct (startswith name "gpt-4" || startswith name "openai/gpt-4");
      [now apply fill_three_has | exact Hhas]. }
  pose proof Hhas1 as (Hm1 & _).
  rewrite (run_bind_val _ _ _ _ _ (model_startswith_run _ _ _ name Hm1)).
  destruct (startswith name "gpt-3.5-turbo"
            || startswith name "openai/gpt-3.5-turbo"); simpl when.
  - exact (fill_gpt35_run _ name Hhas1).
  - reflexivity.
Qed.

Lemma inferred_gpt4 (d : gmap string value) :
  inferred "gpt-4" d = fill_three 6500 true d.
Proof. reflexivity. Qed.

Lemma inferred_vision (d : gmap string value) :
  inferred "gpt-4-vision-preview" d = fill_three 123000 false d.
Proof. reflexivity. Qed.

Lemma inferred_gpt35 (name : string) (d : gmap string value) :
  startswith name "gpt-3.5-turbo" = true ->
  inferred name d = fill_three 16000 true d.
Proof.
  intros Hprefix. pose proof (proj1 (prefix_app _ _) Hprefix) as [rest Hname].
  unfold inferred. cbv zeta. rewrite Hprefix.
  assert (H1 : String.eqb name "gpt-4" = false) by (subst; reflexivity).
  assert (H2 : String.eqb name "openai/gpt-4" = false) by (subst; reflexivity).
  assert (H3 : startswith name "gpt-4" = false) by (subst; reflexivity).
  assert (H4 : startswith name "openai/gpt-4" = false) by (subst; reflexivity).
  now rewrite H1, H2, H3, H4.
Qed.

(** C7. The model default inferencer ends normally and changes nothing
    but the context window, the maximum of tokens and the support of
    functions of the model configuration, and of these only what is [None]:
    a value that is set stays. For the model ["gpt-4"] an unset context
    window becomes 6500 and an unset maximum of tokens 4096; for a model
    whose name starts with ["gpt-3.5-turbo"] an unset context window
    becomes 16000; for ["gpt-4-vision-preview"] an unset support of
    functions becomes [False]. *)
Theorem inferencer_fills_unset_only (w : World) (name : string)
    (context_window max_tokens supports_functions : value) :
  llm w !! "model" = Some (VStr name) ->
  llm w !! "context_window" = Some context_window ->
  llm w !! "max_tokens" = Some max_tokens ->
  llm w !! "supports_functions" = Some supports_functions ->
  exists d,
    model_default_inferencer w = (Val tt, set_object Llm d w)
    /\ (forall attr, attr <> "context_window" -> attr <> "max_tokens" ->
                     attr <> "supports_functions" -> d !! attr = llm w !! attr)
    /\ (context_window <> VNone -> d !! "context_window" = Some context_window)
    /\ (max_tokens <> VNone -> d !! "max_tokens" = Some max_tokens)
    /\ (supports_functions <> VNone ->
        d !! "supports_functions" = Some supports_functions)
    /\ (name = "gpt-4" -> context_window = VNone ->
        d !! "context_window" = Some (VInt 6500))
    /\ (name = "gpt-4" -> max_tokens = VNone ->
        d !! "max_tokens" = Some (VInt 4096))
    /\ (startswith name "gpt-3.5-turbo" = true -> context_window = VNone ->
        d !! "context_window" = Some (VInt 16000))
    /\ (name = "gpt-4-vision-preview" -> supports_functions = VNone ->
        d !! "supports_functions" = Some (VBool false)).
Proof.
  intros Hm Hc Hmt Hs.
  assert (Hhas : has_model_settings (llm w) name) by (repeat split; eauto).
  exists (inferred name (llm w)).
  split; [now apply model_default_inferencer_run |].
  split; [| split; [| split; [| split]]].
  - intros attr H1 H2 H3. unfold inferred. cbv zeta.
    repeat match goal with
           | |- context [if ?b then _ else _] => destruct b
           end; now rewrite ?fill_three_lookup_ne by assumption.
  - intros Hset. unfold inferred. cbv zeta.
    repeat match goal with
           | |- context [if ?b then _ else _] => destruct b
           end; rewrite ?fill_three_context_window, ?Hc;
      now destruct context_window.
  - intros Hset. unfold inferred. cbv zeta.
    repeat match goal with
           | |- context [if ?b then _ else _] => destruct b
           end; rewrite ?fill_three_max_tokens, ?Hmt;
      now destruct max_tokens.
  - intros Hset. unfold inferred. cbv zeta.
    repeat match goal with
           | |- context [if ?b then _ else _] => destruct b
           end; rewrite ?fill_three_supports_functions, ?Hs;
      now destruct supports_functions.
  - split; [| split; [| split]].
    + intros -> ->. rewrite inferred_gpt4, fill_three_context_window.
      now rewrite Hc.
    + intros -> ->. rewrite inferred_gpt4, fill_three_max_tokens.
      now rewrite Hmt.
    + intros Hprefix ->. rewrite (inferred_gpt35 _ _ Hprefix).
      rewrite fill_three_context_window. now rewrite Hc.
    + intros -> ->. rewrite inferred_vision, fill_three_supports_functions.
      now rewrite Hs.
Qed.

(** ** Parsing and the special commands *)

Section Dispatch.

Variable parse_known_args : list string -> parse_result.
Variable profile :
  value -> gmap string value -> gmap string value ->
  gmap string value * gmap string value.
Variable computer_run : string -> string -> gset string -> gset string.
Variable check_for_update : option bool.
Variable version : string.

Lemma deprecated_flags_run (w : World) :
  exists w0,
    for_each deprecated_flags rewrite_deprecated_flag w = (Val tt, w0)
    /\ interpreter w0 = interpreter w /\ llm w0 = llm w
    /\ argv w0 = rewritten_argv (argv w)
    /\ trace w0 = (trace w ++ rename_notice (argv w))%list.
Proof.
  unfold for_each, deprecated_flags, rewrite_deprecated_flag,
    rewritten_argv, rename_notice.
  rewrite run_bind.
  destruct (existsb (String.eqb "--debug_mode") (argv w)).
  - eexists. split; [reflexivity |]. cbn [interpreter llm argv trace].
    now rewrite <- app_assoc.
  - exists w. now rewrite app_nil_r.
Qed.

(** C5. When the parser reports tokens it does not recognise, the entry
    point prints exactly these tokens, the usage and the link to the
    documentation, and exits with status 1; no attribute of the
    interpreter or of its model configuration is touched, and the profile
    loader is not called. *)
Theorem unknown_arguments_exit (w : World) (args : namespace)
    (unknown_args : list string) :
  parse_known_args (List.tl (rewritten_argv (argv w))) = Parsed args unknown_args ->
  unknown_args <> [] ->
  exists w',
    start_terminal_interface parse_known_args profile computer_run
      check_for_update version w = (Exited 1, w')
    /\ interpreter w' = interpreter w /\ llm w' = llm w
    /\ trace w' =
       (trace w ++ rename_notice (argv w)
        ++ [PrintUnrecognized unknown_args; PrintUsage; PrintDocumentationLink])%list.
Proof.
  intros Hparse Hunknown.
  destruct (deprecated_flags_run w) as (w0 & Hrun0 & Hi & Hl & Ha & Ht).
  assert (Hrun1 : parse_args parse_known_args w0 = (Val (args, unknown_args), w0))
    by (unfold parse_args; now rewrite Ha, Hparse).
  unfold start_terminal_interface.
  rewrite (run_bind_val _ _ w w0 tt Hrun0).
  rewrite (run_bind_val _ _ w0 w0 _ Hrun1).
  destruct unknown_args as [|token tokens]; [contradiction |].
  eexists. split; [reflexivity |]. cbn [interpreter llm trace].
  rewrite Ht, <- !app_assoc. auto.
Qed.

(** C3. [--reset_profile] without a value leaves [None] in the namespace,
    and the special commands treat [None] as they treat the default
    ["NOT_PROVIDED"] of the absent flag: with [None], [reset_profile] is
    not called and the run is not ended, while a name given after the flag
    is passed to [reset_profile] and ends the run. *)
Theorem reset_profile_none_same_as_absent (args : namespace) (w : World) :
  dispatch_special_commands version (ns_set "reset_profile" VNone args) w =
  dispatch_special_commands version
    (ns_set "reset_profile" (VStr "NOT_PROVIDED") args) w
  /\ dispatch_special_commands version
       (ns_set "reset_profile" VNone default_namespace) w = (Val tt, w)
  /\ dispatch_special_commands version
       (ns_set "reset_profile" (VStr "myprofile") default_namespace) w =
     (Returned, add_event (ResetProfile (VStr "myprofile")) w).
Proof.
  split; [| split; reflexivity].
  unfold dispatch_special_commands, arg. rewrite !ns_get_set.
  cbn [String.eqb Ascii.eqb Bool.eqb]. reflexivity.
Qed.

End Dispatch.

(** ** Concrete runs *)

Lemma cli_values_win_witness :
  post (resolve strict_profile no_install
          (supplied [("model", VStr "gpt-4"); ("safe_mode", VStr "auto")]))
    (world0 [] [])
    (fun _ w' => llm w' !! "model" = Some (VStr "gpt-4")
                 /\ interpreter w' !! "safe_mode" = Some (VStr "auto")).
Proof.
  eapply post_conseq.
  - apply (cli_values_win strict_profile no_install
             (supplied [("model", VStr "gpt-4"); ("safe_mode", VStr "auto")])
             (world0 [] [])).
    split; [reflexivity |]. split.
    + exists (VBool false). split; [reflexivity | discriminate].
    + intros H. vm_compute in H. discriminate.
  - intros a w' Hwins. cbv beta. split.
    + apply (Hwins "model" (VStr "gpt-4") Llm "model");
        [reflexivity | discriminate | reflexivity |].
      intros (_ & H & _). vm_compute in H. discriminate.
    + apply (Hwins "safe_mode" (VStr "auto") Interpreter "safe_mode");
        [reflexivity | discriminate | reflexivity |].
      intros (H & _). discriminate.
Defined.

(** C1, as stated, fails: under [--os] the empty model of [--model ""]
    does not reach [llm.model], which holds the vision model after the
    second pass of the binder; and at the end of the run the model given
    with [--model llama2 --api_base ...] is not the one on [llm.model]. *)
Lemma cli_value_not_on_target :
  ns_get (supplied [("os", VBool true); ("model", VStr EmptyString)]) "model"
    = Some (VStr EmptyString)
  /\ binding_of "model" = Some (Llm, "model")
  /\ post (resolve no_profile no_install
             (supplied [("os", VBool true); ("model", VStr EmptyString)]))
       (world0 [] packages)
       (fun _ w' => llm w' !! "model" = Some (VStr "gpt-4-vision-preview"))
  /\ post (start_terminal_interface
             (fun _ => Parsed (supplied [("model", VStr "llama2");
                                         ("api_base", VStr "http://localhost:1234/v1")]) [])
             no_profile no_install None "0.2.0")
       (world0 [] [])
       (fun _ w' => llm w' !! "model" = Some (VStr "openai/llama2")).
Proof.
  split; [reflexivity |]. split; [reflexivity |]. split.
  - eexists _, _. split; vm_compute; reflexivity.
  - eexists _, _. split; vm_compute; reflexivity.
Qed.

Lemma binder_leaves_unset_options_witness :
  exists w3,
    precedence_resolver strict_profile default_namespace (world0 [] [])
      = (Val tt, w3)
    /\ llm w3 !! "model" = Some (VStr "gpt-4o")
    /\ llm w3 !! "temperature" = Some (VInt 0).
Proof.
  destruct (binder_leaves_unset_options strict_profile default_namespace
              (world0 [] []) eq_refl) as (w1 & w3 & Hrun1 & Hrun3 & Hframe).
  exists w3. split; [exact Hrun3 |].
  assert (Hw1 : w1 = (set_attributes default_namespace (world0 [] [])).2)
    by now rewrite Hrun1.
  split.
  - refine (eq_trans (Hframe Llm "model" _) _).
    + intros n v Hget Hb.
      assert (n = "model") as ->
        by exact (binding_of_inj n "model" _ Hb eq_refl).
      vm_compute in Hget. congruence.
    + rewrite Hw1. vm_compute. reflexivity.
  - refine (eq_trans (Hframe Llm "temperature" _) _).
    + intros n v Hget Hb.
      assert (n = "temperature") as ->
        by exact (binding_of_inj n "temperature" _ Hb eq_refl).
      vm_compute in Hget. congruence.
    + rewrite Hw1. vm_compute. reflexivity.
Defined.

(** C2, as stated, fails. With no option on the command line, [safe_mode]
    and [disable_telemetry] hold their schema defaults in the namespace,
    and the second pass of the binder writes them over what the profile
    set. With [--os] alone, the model the mode expander put into the
    namespace is written over the model of the profile. *)
Lemma profile_value_overwritten :
  ns_get default_namespace "safe_mode" = Some (VStr "off")
  /\ ns_get default_namespace "disable_telemetry" = Some (VBool false)
  /\ post (resolve strict_profile no_install default_namespace) (world0 [] [])
       (fun _ w' => interpreter w' !! "safe_mode" = Some (VStr "off")
                    /\ interpreter w' !! "disable_telemetry" = Some (VBool false))
  /\ ns_get (supplied [("os", VBool true)]) "model" = Some VNone
  /\ post (resolve strict_profile no_install (supplied [("os", VBool true)]))
       (world0 [] packages)
       (fun _ w' => llm w' !! "model" = Some (VStr "gpt-4-vision-preview")).
Proof.
  split; [reflexivity |]. split; [reflexivity |]. split.
  - eexists _, _. split; [vm_compute; reflexivity |]. split; vm_compute; reflexivity.
  - split; [reflexivity |]. eexists _, _. split; vm_compute; reflexivity.
Qed.

Lemma declined_install_is_attempted_witness :
  post (provision_packages no_install) (world0 ["n"] ["plyer"])
    (fun _ w' =>
       exists later,
         trace w' =
         ([DisplayMissingPackages ["cv2"; "pyautogui"; "pyperclip"; "pywinctl"];
           Input "(y/n) > "; PrintInstallManually; Sleep 20; PrintStartAnyway;
           ComputerRun "shell" "pip install 'open-interpreter[os]'" (VBool true)]
          ++ later)%list).
Proof.
  apply (declined_install_is_attempted no_install (world0 ["n"] ["plyer"])
           "cv2" ["pyautogui"; "pyperclip"; "pywinctl"] "n" []).
  - vm_compute. reflexivity.
  - reflexivity.
  - reflexivity.
Defined.

Lemma unknown_arguments_exit_witness :
  exists w',
    start_terminal_interface
      (fun _ => Parsed default_namespace ["--not-a-real-flag"])
      strict_profile no_install None "0.2.0" (world0 [] []) = (Exited 1, w')
    /\ interpreter w' = interpreter0 /\ llm w' = llm0
    /\ trace w' =
       [PrintUnrecognized ["--not-a-real-flag"]; PrintUsage; PrintDocumentationLink].
Proof.
  apply (unknown_arguments_exit
           (fun _ => Parsed default_namespace ["--not-a-real-flag"])
           strict_profile no_install None "0.2.0" (world0 [] [])
           default_namespace ["--not-a-real-flag"]).
  - reflexivity.
  - discriminate.
Defined.

Lemma os_mode_sets_fields_witness :
  post (mode_expander no_install
          (supplied [("os", VBool true); ("offline", VBool true)]))
    (world0 [] packages)
    (fun _ w' =>
       llm w' !! "context_window" = Some (VInt 110000)
       /\ interpreter w' !! "auto_run" = Some (VBool true)
       /\ exists message,
            interpreter w' !! "system_message" = Some (VStr message)
            /\ message <> EmptyString
            /\ contains icon_line message = false).
Proof.
  destruct (os_mode_sets_fields no_install
              (supplied [("os", VBool true); ("offline", VBool true)])
              (world0 [] packages) eq_refl eq_refl) as [_ Hexpander].
  eapply post_conseq.
  - apply Hexpander. left. vm_compute. reflexivity.
  - intros a w' (_ & _ & Hcw & _ & Hauto & _ & message & Hm & Hne & _ & Hoff).
    cbv beta. split; [exact Hcw |]. split; [exact Hauto |].
    exists message. split; [exact Hm |]. split; [exact Hne |].
    destruct (Hoff eq_refl) as (before & after & _ & _ & Hgone). exact Hgone.
Defined.

Lemma inferencer_fills_unset_only_witness :
  exists d,
    model_default_inferencer (world0 [] []) =
      (Val tt, set_object Llm d (world0 [] []))
    /\ d !! "context_window" = Some (VInt 6500)
    /\ d !! "max_tokens" = Some (VInt 4096)
    /\ d !! "api_base" = Some VNone.
Proof.
  destruct (inferencer_fills_unset_only (world0 [] []) "gpt-4" VNone VNone VNone
              eq_refl eq_refl eq_refl eq_refl)
    as (d & Hrun & Hother & _ & _ & _ & Hcw & Hmt & _).
  exists d. split; [exact Hrun |]. split; [now apply Hcw |].
  split; [now apply Hmt |].
  rewrite Hother by discriminate. reflexivity.
Defined.

Lemma mode_flag_selects_profile_witness :
  post (resolve no_profile no_install
          (supplied [("profile", VStr "custom.yaml"); ("fast", VBool true)]))
    (world0 [] [])
    (fun _ w' => profile_calls (trace w') = [VStr "fast.yaml"]).
Proof.
  eapply post_conseq.
  - apply (mode_flag_selects_profile no_profile no_install
             (supplied [("profile", VStr "custom.yaml"); ("fast", VBool true)])
             (world0 [] [])).
    split; [reflexivity |]. split.
    + exists (VBool false). split; [reflexivity | discriminate].
    + intros H. vm_compute in H. discriminate.
  - intros a w' (filename & Hcalls & Hfast & _). cbv beta.
    rewrite Hcalls, Hfast; reflexivity.
Defined.

Lemma safe_mode_check_precedes_binding_witness :
  safe_mode_disables_auto_run (world0 [] []) = (Val tt, world0 [] [])
  /\ post (resolve no_profile no_install
             (supplied [("auto_run", VBool true); ("safe_mode", VStr "ask")]))
       (world0 [] [])
       (fun _ w' =>
          interpreter w' !! "auto_run" = Some (VBool true)
          /\ interpreter w' !! "safe_mode" = Some (VStr "ask")).
Proof.
  destruct (safe_mode_check_precedes_binding no_profile no_install
              (supplied [("auto_run", VBool true); ("safe_mode", VStr "ask")])
              (world0 [] []) (VBool false) (VStr "off") eq_refl eq_refl)
    as (_ & Hnot & Hboth).
  split.
  - apply Hnot. left. reflexivity.
  - apply Hboth.
    + reflexivity.
    + intros H. vm_compute in H. discriminate.
    + reflexivity.
    + reflexivity.
Defined.

(** The whole run of [interpreter --reset_profile]: nothing is reset, and
    the chat starts as on a command line without the flag. *)
Example reset_profile_flag_alone_starts_chat :
  let run args :=
    start_terminal_interface (fun _ => Parsed args []) no_profile no_install
      None "0.2.0" (world0 [] []) in
  (run (supplied [("reset_profile", VNone)])).1 = Val tt
  /\ trace (run (supplied [("reset_profile", VNone)])).2 =
     [CallProfile (VStr "default.yaml"); ValidateLlmSettings; Chat]
  /\ trace (run (supplied [("reset_profile", VNone)])).2 =
     trace (run default_namespace).2
  /\ run (supplied [("reset_profile", VStr "myprofile")]) =
     (Returned, add_event (ResetProfile (VStr "myprofile")) (world0 [] [])).
Proof. vm_compute. repeat split; reflexivity. Qed.

(** The whole run of [interpreter --os] with packages missing and the
    answer [n]: both installations are run after the refusal. *)
Example os_mode_declined_install_trace :
  let r :=
    start_terminal_interface
      (fun _ => Parsed (supplied [("os", VBool true)]) [])
      no_profile no_install None "0.2.0" (world0 ["n"] ["plyer"]) in
  r.1 = Val tt
  /\ trace r.2 =
     [DisplayMissingPackages ["cv2"; "pyautogui"; "pyperclip"; "pywinctl"];
      Input "(y/n) > "; PrintInstallManually; Sleep 20; PrintStartAnyway;
      ComputerRun "shell" "pip install 'open-interpreter[os]'" (VBool true);
      ComputerRun "shell" "pip3 install 'open-interpreter[os]'" (VBool true);
      PrintNotInstalled ["cv2"; "pyautogui"; "pyperclip"; "pywinctl"];
      PrintInstallManually; Sleep 20; PrintStartAnyway;
      DisplayOsControlEnabled; DisplayApiMessage; PrintBlank;
      DisplayScreenRecording; PrintBlank;
      ComputerRun "python" computer_setup_code VNone;
      DisplayApprovalWarning; PrintBlank; CallProfile (VStr "os.py");
      ValidateLlmSettings; Chat].
Proof. vm_compute. split; reflexivity. Qed.

(** * Further properties *)

(** ** The schema lookup *)

(** X1. [get_argument_dictionary] finds nothing exactly when no dictionary
    of the list has the name asked for; what it finds is in the list and
    has that name; and in a list without repeated names every dictionary
    is found under its own name. *)
Theorem get_argument_dictionary_lookup (l : list Argument) (key : string) :
  (get_argument_dictionary l key = None <->
   forall d, In d l -> name d <> key)
  /\ (forall d, get_argument_dictionary l key = Some d ->
                In d l /\ name d = key)
  /\ (List.NoDup (List.map name l) ->
      forall d, In d l -> get_argument_dictionary l (name d) = Some d).
Proof.
  split; [| split].
  - unfold get_argument_dictionary.
    destruct (List.filter _ l) as [|d0 rest] eqn:Hf.
    + split; [| reflexivity]. intros _ d Hin Heq.
      assert (Hd : In d (List.filter (fun x => String.eqb (name x) key) l)).
      { apply List.filter_In. split; [exact Hin | now apply String.eqb_eq]. }
      rewrite Hf in Hd. destruct Hd.
    + split; [discriminate |]. intros Hnone. exfalso.
      assert (Hd : In d0 (List.filter (fun x => String.eqb (name x) key) l))
        by (rewrite Hf; now left).
      apply List.filter_In in Hd as [Hin Heq].
      apply (Hnone d0 Hin). now apply String.eqb_eq.
  - intros d. apply get_argument_dictionary_In.
  - intros Hnd d Hin. unfold get_argument_dictionary.
    induction l as [|d0 rest IH]; [destruct Hin |].
    simpl in Hnd. apply List.NoDup_cons_iff in Hnd as [Hnotin Hnd].
    simpl. destruct Hin as [-> | Hin].
    + now rewrite String.eqb_refl.
    + destruct (String.eqb_spec (name d0) (name d)) as [Heq | Hne].
      * exfalso. apply Hnotin. rewrite Heq. now apply List.in_map.
      * now apply IH.
Qed.

Lemma get_argument_dictionary_lookup_witness :
  get_argument_dictionary arguments "model"
  = List.nth_error arguments 5
  /\ get_argument_dictionary arguments "no_such_option" = None.
Proof.
  destruct (get_argument_dictionary_lookup arguments "model") as (_ & _ & Hfound).
  destruct (List.nth_error arguments 5) as [d|] eqn:Hd; [| discriminate].
  split.
  - assert (Hname : name d = "model")
      by (vm_compute in Hd; injection Hd as <-; reflexivity).
    rewrite <- Hname. apply Hfound.
    + exact names_NoDup.
    + exact (List.nth_error_In _ _ Hd).
  - reflexivity.
Defined.

(** ** The attribute binder, on any namespace *)

Lemma perform_trace (verbose : bool) (item : string * value) (w : World) :
  trace (perform verbose item w) =
  (trace w ++ if verbose then settings_printed [item] else [])%list.
Proof.
  unfold perform, settings_printed. simpl.
  destruct (write_of item) as [[[o attr] v]|].
  - destruct verbose, o; simpl; try reflexivity; symmetry; apply app_nil_r.
  - destruct verbose; simpl; symmetry; apply app_nil_r.
Qed.

Lemma settings_printed_cons (item : string * value) (l : namespace) :
  settings_printed (item :: l) = (settings_printed [item] ++ settings_printed l)%list.
Proof. unfold settings_printed. simpl. now rewrite app_nil_r. Qed.

Lemma bind_all_trace (verbose : bool) (l : namespace) (w : World) :
  trace (bind_all verbose l w) =
  (trace w ++ if verbose then settings_printed l else [])%list.
Proof.
  unfold bind_all. revert w.
  induction l as [|item rest IH]; intros w.
  - destruct verbose; simpl; symmetry; apply app_nil_r.
  - cbn [List.fold_left].
    rewrite IH, perform_trace, (settings_printed_cons item rest).
    destruct verbose.
    + symmetry. apply app_assoc.
    + now rewrite !app_nil_r.
Qed.

(** A write that is already in place changes no attribute. *)
Lemma perform_fixed (verbose : bool) (item : string * value) (w : World) :
  (forall o attr v, write_of item = Some (o, attr, v) ->
                    object o w !! attr = Some v) ->
  interpreter (perform verbose item w) = interpreter w
  /\ llm (perform verbose item w) = llm w.
Proof.
  intros Hplace. unfold perform.
  destruct (write_of item) as [[[o attr] v]|]; [| auto].
  specialize (Hplace o attr v eq_refl).
  rewrite (insert_id _ _ _ Hplace).
  destruct verbose, o; auto.
Qed.

Lemma bind_all_fixed (verbose : bool) (l : namespace) (w : World) :
  (forall item o attr v, In item l -> write_of item = Some (o, attr, v) ->
                         object o w !! attr = Some v) ->
  interpreter (bind_all verbose l w) = interpreter w
  /\ llm (bind_all verbose l w) = llm w.
Proof.
  unfold bind_all. revert w.
  induction l as [|item rest IH]; intros w Hplace; simpl; [auto |].
  destruct (perform_fixed verbose item w) as [Hi Hl].
  { intros o attr v. apply Hplace. now left. }
  destruct (IH (perform verbose item w)) as [Hi' Hl'].
  { intros item' o attr v Hin Hw.
    assert (H := Hplace item' o attr v (or_intror Hin) Hw).
    destruct o; simpl in *; congruence. }
  split; congruence.
Qed.

(** Two entries of a namespace that write to the same field are the same
    entry. *)
Lemma same_writer (l : namespace) (item item' : string * value)
    (o : target) (attr : string) (v v' : value) :
  List.NoDup (List.map fst l) -> In item l -> In item' l ->
  write_of item = Some (o, attr, v) -> write_of item' = Some (o, attr, v') ->
  v' = v.
Proof.
  intros Hnd Hin Hin' Hw Hw'. destruct item as [n x], item' as [n' x'].
  apply write_of_Some in Hw as (<- & _ & Hb).
  apply write_of_Some in Hw' as (<- & _ & Hb'). simpl in *.
  assert (n' = n) as -> by exact (binding_of_inj _ _ _ Hb' Hb).
  apply (In_ns_get _ _ _ Hnd) in Hin, Hin'. congruence.
Qed.

Lemma writer_of_Some (o : target) (attr : string) (l : namespace)
    (item : string * value) :
  writer_of o attr l = Some item ->
  In item l /\ exists v, write_of item = Some (o, attr, v).
Proof.
  intros Hfind. apply List.find_some in Hfind as [Hin Hw].
  split; [exact Hin |].
  destruct (write_of item) as [[[o' attr'] v]|]; [| discriminate].
  apply bool_decide_eq_true in Hw. injection Hw as -> ->. eauto.
Qed.

Lemma writer_of_None (o : target) (attr : string) (l : namespace) :
  writer_of o attr l = None ->
  forall item v, In item l -> write_of item <> Some (o, attr, v).
Proof.
  intros Hfind item v Hin Hw.
  pose proof (List.find_none _ _ Hfind item Hin) as Hno. simpl in Hno.
  rewrite Hw in Hno. apply bool_decide_eq_false in Hno. now apply Hno.
Qed.

(** What a pass of the binder leaves on a field: the value of the entry
    that writes to it, or what was there. *)
Lemma bind_all_lookup (verbose : bool) (l : namespace) (w : World)
    (o : target) (attr : string) :
  List.NoDup (List.map fst l) ->
  object o (bind_all verbose l w) !! attr =
  match writer_of o attr l with
  | Some item => Some item.2
  | None => object o w !! attr
  end.
Proof.
  intros Hnd. destruct (writer_of o attr l) as [item|] eqn:Hfind.
  - apply writer_of_Some in Hfind as [Hin [v Hw]].
    assert (item.2 = v) as -> by (apply write_of_Some in Hw; tauto).
    apply bind_all_wins; [right; eauto |].
    intros item' v' Hin' Hw'. exact (same_writer l item item' o attr v v' Hnd Hin Hin' Hw Hw').
  - apply bind_all_frame. intros item v. now apply writer_of_None.
Qed.

Lemma set_attributes_general (args : namespace) (verbose : value) (w : World) :
  ns_get args "verbose" = Some verbose ->
  set_attributes args w = (Val tt, bind_all (truthy verbose) args w).
Proof. apply set_attributes_run. Qed.

(** X2. A second pass of the binder over the same namespace changes no
    attribute of the interpreter or of its model configuration. *)
Theorem binder_twice (args : namespace) (w : World) :
  List.NoDup (List.map fst args) ->
  is_Some (ns_get args "verbose") ->
  exists w1 w2,
    set_attributes args w = (Val tt, w1)
    /\ set_attributes args w1 = (Val tt, w2)
    /\ interpreter w2 = interpreter w1 /\ llm w2 = llm w1.
Proof.
  intros Hnd [verbose Hverbose].
  exists (bind_all (truthy verbose) args w),
         (bind_all (truthy verbose) args (bind_all (truthy verbose) args w)).
  split; [now apply set_attributes_run |].
  split; [now apply set_attributes_run |].
  apply bind_all_fixed. intros item o attr v Hin Hw.
  apply bind_all_wins; [right; eauto |].
  intros item' v' Hin' Hw'.
  exact (same_writer args item item' o attr v v' Hnd Hin Hin' Hw Hw').
Qed.

Lemma binder_twice_witness :
  exists w1 w2,
    set_attributes (supplied [("model", VStr "gpt-4o"); ("verbose", VBool true)])
      (world0 [] []) = (Val tt, w1)
    /\ set_attributes (supplied [("model", VStr "gpt-4o"); ("verbose", VBool true)])
         w1 = (Val tt, w2)
    /\ interpreter w2 = interpreter w1 /\ llm w2 = llm w1.
Proof.
  apply (binder_twice
           (supplied [("model", VStr "gpt-4o"); ("verbose", VBool true)])
           (world0 [] [])).
  - apply NoDup_ListNoDup. apply (bool_decide_unpack _). vm_compute. reflexivity.
  - eexists. reflexivity.
Defined.

(** X3. The attributes the binder leaves do not depend on the order of the
    entries of the namespace: no two options write to the same field. *)
Theorem binder_order_independent (args args' : namespace) (w : World) :
  Permutation args args' ->
  List.NoDup (List.map fst args) ->
  is_Some (ns_get args "verbose") ->
  exists w1 w1',
    set_attributes args w = (Val tt, w1)
    /\ set_attributes args' w = (Val tt, w1')
    /\ interpreter w1 = interpreter w1' /\ llm w1 = llm w1'.
Proof.
  intros Hperm Hnd [verbose Hverbose].
  assert (Hnd' : List.NoDup (List.map fst args')).
  { apply NoDup_ListNoDup. rewrite <- Hperm. now apply NoDup_ListNoDup. }
  assert (Hverbose' : ns_get args' "verbose" = Some verbose).
  { apply (In_ns_get _ _ _ Hnd'). apply list_elem_of_In. rewrite <- Hperm.
    apply list_elem_of_In. now apply ns_get_In. }
  exists (bind_all (truthy verbose) args w), (bind_all (truthy verbose) args' w).
  split; [now apply set_attributes_run |].
  split; [now apply set_attributes_run |].
  assert (Hsame : forall o attr,
            object o (bind_all (truthy verbose) args w) !! attr
            = object o (bind_all (truthy verbose) args' w) !! attr).
  { intros o attr. rewrite (bind_all_lookup _ args' w o attr Hnd').
    destruct (writer_of o attr args') as [item|] eqn:Hfind.
    - apply writer_of_Some in Hfind as [Hin [v Hw]].
      assert (item.2 = v) as -> by (apply write_of_Some in Hw; tauto).
      assert (Hin0 : In item args).
      { apply list_elem_of_In. rewrite Hperm. now apply list_elem_of_In. }
      apply bind_all_wins; [right; eauto |].
      intros item' v' Hin' Hw'.
      exact (same_writer args item item' o attr v v' Hnd Hin0 Hin' Hw Hw').
    - apply bind_all_frame. intros item v Hin.
      apply (writer_of_None o attr args' Hfind).
      apply list_elem_of_In. rewrite <- Hperm. now apply list_elem_of_In. }
  split; apply map_eq; intros attr.
  - exact (Hsame Interpreter attr).
  - exact (Hsame Llm attr).
Qed.

Lemma binder_order_independent_witness :
  exists w1 w1',
    set_attributes [("model", VStr "gpt-4o"); ("verbose", VNone);
                    ("auto_run", VBool true)] (world0 [] []) = (Val tt, w1)
    /\ set_attributes [("auto_run", VBool true); ("verbose", VNone);
                       ("model", VStr "gpt-4o")] (world0 [] []) = (Val tt, w1')
    /\ interpreter w1 = interpreter w1' /\ llm w1 = llm w1'.
Proof.
  apply binder_order_independent.
  - apply Permutation_rev.
  - apply NoDup_ListNoDup. apply (bool_decide_unpack _). vm_compute. reflexivity.
  - eexists. reflexivity.
Defined.

(** X4. In verbose mode the binder prints one line for each attribute it
    sets, in the order of the namespace, and nothing else; otherwise it
    prints nothing. It never reads a line and never changes [sys.argv]. *)
Theorem binder_prints_each_write (args : namespace) (verbose : value) (w : World) :
  ns_get args "verbose" = Some verbose ->
  exists w',
    set_attributes args w = (Val tt, w')
    /\ trace w' =
       (trace w ++ if truthy verbose then settings_printed args else [])%list
    /\ stdin w' = stdin w /\ argv w' = argv w /\ importable w' = importable w.
Proof.
  intros Hverbose. exists (bind_all (truthy verbose) args w).
  split; [now apply set_attributes_run |].
  split; [apply bind_all_trace |].
  destruct (bind_all_rest (truthy verbose) args w) as (Ha & Hs & Hi & _). auto.
Qed.

Lemma binder_prints_each_write_witness :
  exists w',
    set_attributes
      (supplied [("model", VStr "gpt-4o"); ("verbose", VBool true);
                 ("safe_mode", VStr "ask")])
      (world0 [] []) = (Val tt, w')
    /\ trace w' =
       [PrintSetting "verbose" Interpreter (VBool true);
        PrintSetting "model" Llm (VStr "gpt-4o");
        PrintSetting "disable_telemetry" Interpreter (VBool false);
        PrintSetting "safe_mode" Interpreter (VStr "ask")].
Proof.
  destruct (binder_prints_each_write
              (supplied [("model", VStr "gpt-4o"); ("verbose", VBool true);
                         ("safe_mode", VStr "ask")])
              (VBool true) (world0 [] []) eq_refl) as (w' & Hrun & Htrace & _).
  exists w'. split; [exact Hrun |]. rewrite Htrace. reflexivity.
Defined.







(** ** Resolution *)

Section MoreResolution.

Variable parse_known_args : list string -> parse_result.
Variable profile :
  value -> gmap string value -> gmap string value ->
  gmap string value * gmap string value.
Variable computer_run : string -> string -> gset string -> gset string.
Variable check_for_update : option bool.
Variable version : string.

(** X6. The profile loader is called on objects that already hold the
    values of the command line: the first pass of the binder puts every
    bound option with a value on its field, and the rest of the precedence
    resolver, the profile and the second pass, starts from there. *)
Theorem profile_reads_cli_values (args : namespace) (w : World) :
  ns_wf args ->
  exists w1,
    set_attributes args w = (Val tt, w1)
    /\ (forall n v o attr,
          ns_get args n = Some v -> v <> VNone ->
          binding_of n = Some (o, attr) -> object o w1 !! attr = Some v)
    /\ precedence_resolver profile args w =
       (apply_profile profile (chosen_profile args) ;; set_attributes args) w1.
Proof.
  intros Hwf.
  destruct (set_attributes_spec args w Hwf) as (w1 & Hrun1 & Hwins & _).
  exists w1. split; [exact Hrun1 |]. split; [exact Hwins |].
  unfold precedence_resolver.
  rewrite (run_bind_val _ _ w w1 tt Hrun1).
  now rewrite (run_bind_val _ _ w1 w1 _ (effective_profile_run args w1 Hwf)).
Qed.


(** X7. Without [--os] the mode expander touches nothing but the profile
    selection: it ends normally in the world it started from, and every
    entry of the namespace other than [profile] is as it was. *)
Theorem mode_expander_without_os (args : namespace) (w : World) :
  ns_wf args -> flag args "os" = false ->
  exists args',
    mode_expander computer_run args w = (Val args', w)
    /\ ns_wf args'
    /\ forall key, key <> "profile" -> ns_get args' key = ns_get args key.
Proof.
  intros Hwf Hos.
  destruct (ns_wf_get args "fast" Hwf eq_refl) as [fast Hfast].
  destruct (ns_wf_get args "vision" Hwf eq_refl) as [vision Hvision].
  destruct (ns_wf_get args "os" Hwf eq_refl) as [os Hos'].
  destruct (ns_wf_get args "local" Hwf eq_refl) as [local Hlocal].
  assert (Hos_false : truthy os = false)
    by (rewrite (flag_get _ _ _ Hos'); exact Hos).
  exists (expanded args). split; [| split].
  - unfold mode_expander, arg. rewrite Hfast. step.
    rewrite (ns_get_cond_set _ "profile" "vision") by reflexivity.
    rewrite Hvision. step.
    rewrite !(ns_get_cond_set _ "profile" "os") by reflexivity.
    rewrite Hos'. step. rewrite Hos_false. step.
    rewrite !(ns_get_cond_set _ "profile" "local") by reflexivity.
    rewrite Hlocal. step.
    unfold expanded. cbv zeta.
    rewrite Hos, <- (flag_get _ _ _ Hfast), <- (flag_get _ _ _ Hvision),
      <- (flag_get _ _ _ Hlocal).
    reflexivity.
  - now apply expanded_wf.
  - intros key Hkey. rewrite expanded_get.
    + rewrite Hos. now rewrite andb_false_r.
    + destruct (String.eqb_spec "profile" key); congruence.
Qed.

(** The run up to the special commands, when every token is recognised. *)
Lemma start_to_special_commands (w : World) (args : namespace) :
  parse_known_args (List.tl (rewritten_argv (argv w))) = Parsed args [] ->
  exists w0,
    interpreter w0 = interpreter w /\ llm w0 = llm w
    /\ trace w0 = (trace w ++ rename_notice (argv w))%list
    /\ start_terminal_interface parse_known_args profile computer_run
         check_for_update version w
       = (dispatch_special_commands version args ;;
          args ← resolve profile computer_run args ;
          model_default_inferencer ;;
          update_check check_for_update ;;
          api_base_rewrite ;;
          final_dispatch args) w0.
Proof.
  intros Hparse.
  destruct (deprecated_flags_run w) as (w0 & Hrun0 & Hi & Hl & Ha & Ht).
  exists w0. repeat (split; [assumption |]).
  unfold start_terminal_interface.
  rewrite (run_bind_val _ _ w w0 tt Hrun0).
  assert (Hrun1 : parse_args parse_known_args w0 = (Val (args, []), w0))
    by (unfold parse_args; now rewrite Ha, Hparse).
  now rewrite (run_bind_val _ _ w0 w0 _ Hrun1).
Qed.

(** X8. The special commands, tried in the order [--profiles],
    [--local_models], [--reset_profile NAME], [--version]: the first one
    given does its one thing and ends the run; neither object is touched,
    and nothing of what follows (mode flags, binder, profile, chat) is
    run. *)
Theorem special_commands_return (w : World) (args : namespace)
    (reset_profile : value) :
  parse_known_args (List.tl (rewritten_argv (argv w))) = Parsed args [] ->
  ns_wf args ->
  ns_get args "reset_profile" = Some reset_profile ->
  let ends_with (e : event) :=
    exists w',
      start_terminal_interface parse_known_args profile computer_run
        check_for_update version w = (Returned, w')
      /\ interpreter w' = interpreter w /\ llm w' = llm w
      /\ trace w' = (trace w ++ rename_notice (argv w) ++ [e])%list in
  let reset_given :=
    reset_profile <> VNone /\ reset_profile <> VStr "NOT_PROVIDED" in
  (flag args "profiles" = true -> ends_with (OpenStorageDir "profiles"))
  /\ (flag args "profiles" = false -> flag args "local_models" = true ->
      ends_with (OpenStorageDir "models"))
  /\ (flag args "profiles" = false -> flag args "local_models" = false ->
      reset_given -> ends_with (ResetProfile reset_profile))
  /\ (flag args "profiles" = false -> flag args "local_models" = false ->
      ~ reset_given -> flag args "version" = true ->
      ends_with (PrintVersion version)).
Proof.
  intros Hparse Hwf Hreset.
  destruct (ns_wf_get args "profiles" Hwf eq_refl) as [profiles Hprofiles].
  destruct (ns_wf_get args "local_models" Hwf eq_refl) as [models Hmodels].
  destruct (ns_wf_get args "version" Hwf eq_refl) as [vflag Hversion].
  destruct (start_to_special_commands w args Hparse)
    as (w0 & Hi & Hl & Ht & Hstart).
  rewrite <- (flag_get _ _ _ Hprofiles), <- (flag_get _ _ _ Hmodels),
    <- (flag_get _ _ _ Hversion).
  assert (Hends : forall e,
    (forall rest : M unit,
       (dispatch_special_commands version args ;; rest) w0
       = (Returned, add_event e w0)) ->
    exists w',
      start_terminal_interface parse_known_args profile computer_run
        check_for_update version w = (Returned, w')
      /\ interpreter w' = interpreter w /\ llm w' = llm w
      /\ trace w' = (trace w ++ rename_notice (argv w) ++ [e])%list).
  { intros e Hdispatch. exists (add_event e w0).
    rewrite Hstart, Hdispatch.
    cbn [interpreter llm trace add_event].
    rewrite Ht, <- app_assoc. auto. }
  cbv zeta. repeat split.
  - intros Hp. apply Hends. intros rest.
    unfold dispatch_special_commands, arg. rewrite Hprofiles. step.
    rewrite Hp. reflexivity.
  - intros Hp Hm. apply Hends. intros rest.
    unfold dispatch_special_commands, arg. rewrite Hprofiles. step.
    rewrite Hp. step. rewrite Hmodels. step. rewrite Hm. reflexivity.
  - intros Hp Hm [Hnone Hnot]. apply Hends. intros rest.
    unfold dispatch_special_commands, arg. rewrite Hprofiles. step.
    rewrite Hp. step. rewrite Hmodels. step. rewrite Hm. step.
    rewrite Hreset. step.
    rewrite (proj2 (is_None_false _) Hnone).
    destruct (eq_str reset_profile "NOT_PROVIDED") eqn:E;
      [apply eq_str_true in E; contradiction | reflexivity].
  - intros Hp Hm Hnot Hv. apply Hends. intros rest.
    unfold dispatch_special_commands, arg. rewrite Hprofiles. step.
    rewrite Hp. step. rewrite Hmodels. step. rewrite Hm. step.
    rewrite Hreset. step.
    assert (Hcond : negb (is_None reset_profile)
                    && negb (eq_str reset_profile "NOT_PROVIDED") = false).
    { destruct (is_None reset_profile) eqn:E1; [reflexivity |].
      destruct (eq_str reset_profile "NOT_PROVIDED") eqn:E2; [reflexivity |].
      exfalso. apply Hnot. split.
      - now apply is_None_false.
      - intros ->. discriminate. }
    rewrite Hcond. step. rewrite Hversion. step. rewrite Hv. reflexivity.
Qed.

(** What [remove] does to the first occurrence. *)
Lemma remove_first_app (x : string) (before after : list string) :
  ~ In x before ->
  remove_first x (before ++ x :: after) = (before ++ after)%list.
Proof.
  induction before as [|y before IH]; intros Hnotin; simpl.
  - now rewrite String.eqb_refl.
  - destruct (String.eqb_spec y x) as [-> | _].
    + exfalso. apply Hnotin. now left.
    + f_equal. apply IH. intros Hin. apply Hnotin. now right.
Qed.

Lemma existsb_eqb_In (x : string) (l : list string) :
  existsb (String.eqb x) l = true <-> In x l.
Proof.
  rewrite List.existsb_exists. split.
  - intros [y [Hin Heq]]. apply String.eqb_eq in Heq. now subst.
  - intros Hin. exists x. split; [exact Hin | apply String.eqb_refl].
Qed.

(** X9. The deprecated flag: when [--debug_mode] is not in [sys.argv]
    nothing happens; when it is, the notice is printed, its first
    occurrence is taken out and [--verbose] is put at the end, every other
    token staying in place. *)
Theorem deprecated_flag_replaced (w : World) :
  (~ In "--debug_mode" (argv w) ->
   for_each deprecated_flags rewrite_deprecated_flag w = (Val tt, w))
  /\ (forall before after,
        argv w = (before ++ "--debug_mode" :: after)%list ->
        ~ In "--debug_mode" before ->
        for_each deprecated_flags rewrite_deprecated_flag w =
        (Val tt,
         {| interpreter := interpreter w; llm := llm w;
            argv := before ++ after ++ ["--verbose"];
            stdin := stdin w; importable := importable w;
            trace := (trace w ++ [PrintRenamed "--debug_mode" "--verbose"])
                     ++ [Sleep 15] |})).
Proof.
  split.
  - intros Hnotin.
    assert (Hno : existsb (String.eqb "--debug_mode") (argv w) = false).
    { destruct (existsb _ _) eqn:E; [| reflexivity].
      apply existsb_eqb_In in E. contradiction. }
    unfold for_each, deprecated_flags, rewrite_deprecated_flag.
    rewrite run_bind, Hno. reflexivity.
  - intros before after Hargv Hnotin.
    assert (Hyes : existsb (String.eqb "--debug_mode") (argv w) = true).
    { apply existsb_eqb_In. rewrite Hargv. apply List.in_elt. }
    unfold for_each, deprecated_flags, rewrite_deprecated_flag.
    rewrite run_bind, Hyes, Hargv, (remove_first_app _ _ _ Hnotin).
    rewrite <- app_assoc. reflexivity.
Qed.

(** X10. The check for an update never stops the run and never touches an
    attribute, whether [check_for_update] answers or raises and whether
    or not the interpreter has an [offline] attribute. Offline, or without
    that attribute, nothing at all happens; otherwise the check is made,
    and the notice is shown only on the answer [True]. *)
Theorem update_check_never_fails (w : World) :
  exists w',
    update_check check_for_update w = (Val tt, w')
    /\ interpreter w' = interpreter w /\ llm w' = llm w
    /\ stdin w' = stdin w /\ importable w' = importable w
    /\ trace w' =
       (trace w ++
        match interpreter w !! "offline" with
        | Some offline =>
            if truthy offline then []
            else CheckForUpdate ::
                 match check_for_update with
                 | Some true => [DisplayNewVersion]
                 | _ => []
                 end
        | None => []
        end)%list.
Proof.
  unfold update_check.
  destruct (interpreter w !! "offline") as [offline|].
  - destruct (truthy offline).
    + exists w. rewrite app_nil_r. auto 10.
    + destruct check_for_update as [[|]|]; eexists;
        (split; [reflexivity |]); cbn [interpreter llm stdin importable trace];
        rewrite <- ?app_assoc; auto 10.
  - exists w. rewrite app_nil_r. auto 10.
Qed.

End MoreResolution.

Lemma profile_reads_cli_values_witness :
  exists w1,
    set_attributes (supplied [("model", VStr "gpt-4o")]) (world0 [] [])
      = (Val tt, w1)
    /\ llm w1 !! "model" = Some (VStr "gpt-4o")
    /\ precedence_resolver strict_profile (supplied [("model", VStr "gpt-4o")])
         (world0 [] []) =
       (apply_profile strict_profile (VStr "default.yaml") ;;
        set_attributes (supplied [("model", VStr "gpt-4o")])) w1.
Proof.
  destruct (profile_reads_cli_values strict_profile
              (supplied [("model", VStr "gpt-4o")]) (world0 [] []) eq_refl)
    as (w1 & Hrun & Hwins & Hrest).
  exists w1. split; [exact Hrun |]. split; [| exact Hrest].
  apply (Hwins "model" (VStr "gpt-4o") Llm "model");
    [reflexivity | discriminate | reflexivity].
Defined.


Lemma mode_expander_without_os_witness :
  exists args',
    mode_expander no_install
      (supplied [("fast", VBool true); ("model", VStr "gpt-4o")]) (world0 [] [])
      = (Val args', world0 [] [])
    /\ ns_get args' "model" = Some (VStr "gpt-4o").
Proof.
  destruct (mode_expander_without_os no_install
              (supplied [("fast", VBool true); ("model", VStr "gpt-4o")])
              (world0 [] []) eq_refl eq_refl) as (args' & Hrun & _ & Hkeep).
  exists args'. split; [exact Hrun |].
  rewrite Hkeep by discriminate. reflexivity.
Defined.

Lemma special_commands_return_witness :
  exists w',
    start_terminal_interface
      (fun _ => Parsed (supplied [("version", VBool true); ("os", VBool true)]) [])
      strict_profile no_install None "0.2.0" (world0 [] []) = (Returned, w')
    /\ interpreter w' = interpreter0 /\ llm w' = llm0
    /\ trace w' = [PrintVersion "0.2.0"].
Proof.
  destruct (special_commands_return
              (fun _ => Parsed (supplied [("version", VBool true); ("os", VBool true)]) [])
              strict_profile no_install None "0.2.0" (world0 [] [])
              (supplied [("version", VBool true); ("os", VBool true)])
              (VStr "NOT_PROVIDED") eq_refl eq_refl eq_refl)
    as (_ & _ & _ & Hversion).
  apply Hversion; try reflexivity.
  intros [_ Hnot]. now apply Hnot.
Defined.

Lemma deprecated_flag_replaced_witness :
  for_each deprecated_flags rewrite_deprecated_flag
    {| interpreter := interpreter0; llm := llm0;
       argv := ["interpreter"; "--debug_mode"; "--model"; "gpt-4"];
       stdin := []; importable := ∅; trace := [] |} =
  (Val tt,
   {| interpreter := interpreter0; llm := llm0;
      argv := ["interpreter"; "--model"; "gpt-4"; "--verbose"];
      stdin := []; importable := ∅;
      trace := [PrintRenamed "--debug_mode" "--verbose"; Sleep 15] |}).
Proof.
  destruct (deprecated_flag_replaced
              {| interpreter := interpreter0; llm := llm0;
                 argv := ["interpreter"; "--debug_mode"; "--model"; "gpt-4"];
                 stdin := []; importable := ∅; trace := [] |}) as [_ Hpresent].
  apply (Hpresent ["interpreter"] ["--model"; "gpt-4"]).
  - reflexivity.
  - intros [H | []]. discriminate.
Defined.

(** ** The model default inferencer and the API base step, at their edges *)

Lemma eqb_startswith (name p : string) :
  String.eqb name p = true -> startswith name p = true.
Proof.
  intros H. apply String.eqb_eq in H. subst. apply prefix_app.
  exists EmptyString. clear. induction p as [|c p IH]; [reflexivity |].
  change (String c p = String c (p +:+ EmptyString)). now f_equal.
Qed.

(** X11. A model that is not a string stops the inferencer: comparing it
    with the two exact names fails, and [startswith] does not exist on it.
    Nothing has been changed by then. *)
Theorem inferencer_needs_a_string (w : World) (model : value) :
  llm w !! "model" = Some model ->
  (forall name, model <> VStr name) ->
  model_default_inferencer w = (Raised (AttributeError "startswith"), w).
Proof.
  intros Hm Hnot. unfold model_default_inferencer.
  rewrite (run_bind_val _ _ w w model) by now apply getattr_some.
  assert (Heq : forall lit, eq_str model lit = false).
  { intros lit. destruct (eq_str model lit) eqn:E; [| reflexivity].
    apply eq_str_true in E. now apply Hnot in E. }
  rewrite !Heq. cbn [orb]. rewrite run_bind.
  unfold model_startswith at 1, getattr, as_str. step. rewrite Hm. step.
  destruct model; try reflexivity. now destruct (Hnot s).
Qed.

Lemma inferencer_needs_a_string_witness :
  model_default_inferencer
    (set_object Llm (<["model" := VNone]> llm0) (world0 [] []))
  = (Raised (AttributeError "startswith"),
     set_object Llm (<["model" := VNone]> llm0) (world0 [] [])).
Proof.
  apply (inferencer_needs_a_string _ VNone).
  - reflexivity.
  - discriminate.
Defined.

(** X12. For a model name that matches none of the four prefixes the
    inferencer changes nothing and reads nothing but the name: the other
    settings need not even exist. *)
Theorem inferencer_unknown_model (w : World) (name : string) :
  llm w !! "model" = Some (VStr name) ->
  startswith name "gpt-4" = false ->
  startswith name "openai/gpt-4" = false ->
  startswith name "gpt-3.5-turbo" = false ->
  startswith name "openai/gpt-3.5-turbo" = false ->
  model_default_inferencer w = (Val tt, w).
Proof.
  intros Hm H1 H2 H3 H4. unfold model_default_inferencer.
  rewrite (run_bind_val _ _ w w (VStr name)) by now apply getattr_some.
  cbn [eq_str].
  assert (E1 : String.eqb name "gpt-4" = false).
  { destruct (String.eqb name "gpt-4") eqn:E; [| reflexivity].
    apply eqb_startswith in E. congruence. }
  assert (E2 : String.eqb name "openai/gpt-4" = false).
  { destruct (String.eqb name "openai/gpt-4") eqn:E; [| reflexivity].
    apply eqb_startswith in E. congruence. }
  rewrite E1, E2. cbn [orb]. rewrite run_bind.
  rewrite (run_bind_val _ _ w w _ (model_startswith_run _ _ w name Hm)).
  rewrite H1, H2. cbn [orb when]. unfold skip at 1, mret at 1, M_ret at 1.
  rewrite (run_bind_val _ _ w w _ (model_startswith_run _ _ w name Hm)).
  rewrite H3, H4. reflexivity.
Qed.

Lemma inferencer_unknown_model_witness :
  model_default_inferencer
    (set_object Llm {["model" := VStr "llama2"]} (world0 [] []))
  = (Val tt, set_object Llm {["model" := VStr "llama2"]} (world0 [] [])).
Proof.
  apply (inferencer_unknown_model _ "llama2"); reflexivity.
Defined.

Lemma filled_fixed (attr : string) (v : value) (d : gmap string value) :
  d !! attr <> Some VNone -> filled attr v d = d.
Proof.
  intros Hset. unfold filled. destruct (d !! attr) as [[]|]; congruence.
Qed.

Lemma fill_three_fixed (cw : Z) (sf : bool) (d : gmap string value) :
  d !! "context_window" <> Some VNone -> d !! "max_tokens" <> Some VNone ->
  d !! "supports_functions" <> Some VNone ->
  fill_three cw sf d = d.
Proof.
  intros H1 H2 H3. unfold fill_three.
  rewrite (filled_fixed "context_window") by exact H1.
  rewrite (filled_fixed "max_tokens") by exact H2.
  now apply filled_fixed.
Qed.

Lemma fill_three_set (cw : Z) (sf : bool) (d : gmap string value) :
  fill_three cw sf d !! "context_window" <> Some VNone
  /\ fill_three cw sf d !! "max_tokens" <> Some VNone
  /\ fill_three cw sf d !! "supports_functions" <> Some VNone.
Proof.
  rewrite fill_three_context_window, fill_three_max_tokens,
    fill_three_supports_functions.
  repeat split.
  - destruct (d !! "context_window") as [[]|]; congruence.
  - destruct (d !! "max_tokens") as [[]|]; congruence.
  - destruct (d !! "supports_functions") as [[]|]; congruence.
Qed.

Lemma inferred_twice (name : string) (d : gmap string value) :
  inferred name (inferred name d) = inferred name d.
Proof.
  assert (Hfix : forall cw sf cw' sf' x,
            fill_three cw sf (fill_three cw' sf' x) = fill_three cw' sf' x).
  { intros. destruct (fill_three_set cw' sf' x) as (H1 & H2 & H3).
    now apply fill_three_fixed. }
  unfold inferred. cbv zeta.
  destruct (String.eqb name "gpt-4" || String.eqb name "openai/gpt-4");
    destruct (startswith name "gpt-4" || startswith name "openai/gpt-4");
    destruct (startswith name "gpt-3.5-turbo"
              || startswith name "openai/gpt-3.5-turbo");
    rewrite ?Hfix; reflexivity.
Qed.

Lemma inferred_has (name : string) (d : gmap string value) :
  has_model_settings d name -> has_model_settings (inferred name d) name.
Proof.
  intros Hhas. unfold inferred. cbv zeta.
  destruct (String.eqb name "gpt-4" || String.eqb name "openai/gpt-4");
    destruct (startswith name "gpt-4" || startswith name "openai/gpt-4");
    destruct (startswith name "gpt-3.5-turbo"
              || startswith name "openai/gpt-3.5-turbo");
    repeat apply fill_three_has; exact Hhas.
Qed.

(** X13. Running the inferencer a second time changes nothing: what it
    fills is no longer unset. *)
Theorem inferencer_twice (w : World) (name : string) :
  has_model_settings (llm w) name ->
  (model_default_inferencer ;; model_default_inferencer) w =
  model_default_inferencer w.
Proof.
  intros Hhas.
  rewrite (run_bind_val _ _ w _ tt (model_default_inferencer_run w name Hhas)).
  rewrite (model_default_inferencer_run w name Hhas).
  rewrite (model_default_inferencer_run _ name).
  - cbn [llm set_object]. rewrite inferred_twice. reflexivity.
  - cbn [llm set_object]. now apply inferred_has.
Qed.

Lemma inferencer_twice_witness :
  (model_default_inferencer ;; model_default_inferencer) (world0 [] []) =
  model_default_inferencer (world0 [] []).
Proof.
  apply (inferencer_twice (world0 [] []) "gpt-4").
  repeat split; try reflexivity; eexists; reflexivity.
Defined.

Lemma inferred_family4 (name : string) (d : gmap string value) :
  startswith name "gpt-4" = true \/ startswith name "openai/gpt-4" = true ->
  inferred name d =
  fill_three
    (if String.eqb name "gpt-4" || String.eqb name "openai/gpt-4"
     then 6500 else 123000)
    (negb (contains "vision" name)) d.
Proof.
  intros Hfamily.
  assert (H3 : startswith name "gpt-3.5-turbo" = false
               /\ startswith name "openai/gpt-3.5-turbo" = false).
  { destruct Hfamily as [H | H];
      apply prefix_app in H; destruct H as [rest ->]; split; reflexivity. }
  destruct H3 as [H3 H4].
  assert (Hor : startswith name "gpt-4" || startswith name "openai/gpt-4" = true).
  { apply orb_true_iff. exact Hfamily. }
  unfold inferred. cbv zeta. rewrite H3, H4, Hor. cbn [orb].
  now destruct (String.eqb name "gpt-4" || String.eqb name "openai/gpt-4").
Qed.

Lemma inferred_family35 (name : string) (d : gmap string value) :
  startswith name "gpt-3.5-turbo" = true
  \/ startswith name "openai/gpt-3.5-turbo" = true ->
  inferred name d = fill_three 16000 true d.
Proof.
  intros Hfamily.
  assert (Hor : startswith name "gpt-3.5-turbo"
                || startswith name "openai/gpt-3.5-turbo" = true).
  { apply orb_true_iff. exact Hfamily. }
  assert (H4 : String.eqb name "gpt-4" = false
               /\ String.eqb name "openai/gpt-4" = false
               /\ startswith name "gpt-4" = false
               /\ startswith name "openai/gpt-4" = false).
  { destruct Hfamily as [H | H];
      apply prefix_app in H; destruct H as [rest ->]; repeat split; reflexivity. }
  destruct H4 as (H1 & H2 & H3 & H4).
  unfold inferred. cbv zeta. now rewrite Hor, H1, H2, H3, H4.
Qed.

(** X14. What the inferencer fills depends on the family of the model
    name only. For every name that starts with [gpt-4] or [openai/gpt-4]
    an unset context window becomes 123000 (6500 for these two names
    themselves), an unset maximum of tokens 4096, and an unset support of
    functions [False] exactly when the name contains [vision]. For every
    name that starts with [gpt-3.5-turbo] or [openai/gpt-3.5-turbo] they
    become 16000, 4096 and [True]. *)
Theorem inferencer_family_defaults (w : World) (name : string)
    (context_window max_tokens supports_functions : value) :
  llm w !! "model" = Some (VStr name) ->
  llm w !! "context_window" = Some context_window ->
  llm w !! "max_tokens" = Some max_tokens ->
  llm w !! "supports_functions" = Some supports_functions ->
  exists d,
    model_default_inferencer w = (Val tt, set_object Llm d w)
    /\ (startswith name "gpt-4" = true \/ startswith name "openai/gpt-4" = true ->
        (context_window = VNone ->
         d !! "context_window" =
         Some (VInt (if String.eqb name "gpt-4" || String.eqb name "openai/gpt-4"
                     then 6500 else 123000)))
        /\ (max_tokens = VNone -> d !! "max_tokens" = Some (VInt 4096))
        /\ (supports_functions = VNone ->
            d !! "supports_functions" =
            Some (VBool (negb (contains "vision" name)))))
    /\ (startswith name "gpt-3.5-turbo" = true
        \/ startswith name "openai/gpt-3.5-turbo" = true ->
        (context_window = VNone -> d !! "context_window" = Some (VInt 16000))
        /\ (max_tokens = VNone -> d !! "max_tokens" = Some (VInt 4096))
        /\ (supports_functions = VNone ->
            d !! "supports_functions" = Some (VBool true))).
Proof.
  intros Hm Hcw Hmt Hsf. exists (inferred name (llm w)). split.
  { apply model_default_inferencer_run. repeat split; eauto. }
  split; intros Hfamily.
  - rewrite (inferred_family4 name (llm w) Hfamily).
    rewrite fill_three_context_window, fill_three_max_tokens,
      fill_three_supports_functions, Hcw, Hmt, Hsf.
    repeat split; intros ->; reflexivity.
  - rewrite (inferred_family35 name (llm w) Hfamily).
    rewrite fill_three_context_window, fill_three_max_tokens,
      fill_three_supports_functions, Hcw, Hmt, Hsf.
    repeat split; intros ->; reflexivity.
Qed.

Lemma inferencer_family_defaults_witness :
  exists d,
    model_default_inferencer
      (set_object Llm (<["model" := VStr "openai/gpt-4-vision"]> llm0)
         (world0 [] []))
    = (Val tt,
       set_object Llm d
         (set_object Llm (<["model" := VStr "openai/gpt-4-vision"]> llm0)
            (world0 [] [])))
    /\ d !! "context_window" = Some (VInt 123000)
    /\ d !! "supports_functions" = Some (VBool false).
Proof.
  destruct (inferencer_family_defaults
              (set_object Llm (<["model" := VStr "openai/gpt-4-vision"]> llm0)
                 (world0 [] []))
              "openai/gpt-4-vision" VNone VNone VNone)
    as (d & Hrun & H4 & _); [vm_compute; reflexivity .. |].
  exists d. split; [exact Hrun |].
  destruct (H4 (or_intror eq_refl)) as (Hcw & _ & Hsf).
  split; [exact (Hcw eq_refl) | exact (Hsf eq_refl)].
Defined.

(** ** The API base step *)

Lemma api_base_rewrite_run (w : World) (api_base : value) (name : string) :
  llm w !! "api_base" = Some api_base ->
  truthy api_base = true ->
  llm w !! "model" = Some (VStr name) ->
  api_base_rewrite w =
  (Val tt,
   if no_known_provider name
   then set_object Llm (<["model" := VStr ("openai/" +:+ name)]> (llm w)) w
   else if startswith (lower name) "jan/"
        then set_object Llm (<["model" := VStr (drop 4 name)]> (llm w)) w
        else w).
Proof.
  intros Hbase Htruthy Hmodel. unfold api_base_rewrite.
  rewrite (run_bind_val _ _ w w api_base) by now apply getattr_some.
  rewrite Htruthy. cbn [when].
  rewrite (run_bind_val _ _ w w (VStr name)) by now apply getattr_some.
  cbn [as_str]. rewrite (run_bind_val _ _ w w name) by reflexivity.
  destruct (no_known_provider name); [reflexivity |].
  now destruct (startswith (lower name) "jan/").
Qed.

Lemma openai_is_known (name : string) :
  no_known_provider ("openai/" +:+ name) = false
  /\ startswith (lower ("openai/" +:+ name)) "jan/" = false.
Proof.
  split.
  - unfold no_known_provider.
    assert (H : startswith (lower ("openai/" +:+ name)) "openai/" = true).
    { apply prefix_app. exists (lower name). now rewrite lower_app. }
    now rewrite H.
  - rewrite lower_app. reflexivity.
Qed.

(** X15. The API base step reads the model name only when an API base is
    set: without one nothing happens, whatever the model is. With one, a
    model that is not a string stops the step, nothing changed. *)
Theorem api_base_guards_the_model (w : World) (api_base : value) :
  llm w !! "api_base" = Some api_base ->
  (truthy api_base = false -> api_base_rewrite w = (Val tt, w))
  /\ (truthy api_base = true ->
      forall model, llm w !! "model" = Some model ->
                    (forall name, model <> VStr name) ->
                    api_base_rewrite w = (Raised (AttributeError "lower"), w)).
Proof.
  intros Hbase. split.
  - intros Hfalsy. unfold api_base_rewrite.
    rewrite (run_bind_val _ _ w w api_base) by now apply getattr_some.
    now rewrite Hfalsy.
  - intros Htruthy model Hmodel Hnot. unfold api_base_rewrite.
    rewrite (run_bind_val _ _ w w api_base) by now apply getattr_some.
    rewrite Htruthy. cbn [when].
    rewrite (run_bind_val _ _ w w model) by now apply getattr_some.
    destruct model; try reflexivity. now destruct (Hnot s).
Qed.

Lemma api_base_guards_the_model_witness :
  api_base_rewrite (set_object Llm (<["model" := VInt 4]> llm0) (world0 [] []))
  = (Val tt, set_object Llm (<["model" := VInt 4]> llm0) (world0 [] [])).
Proof.
  apply (api_base_guards_the_model _ VNone); reflexivity.
Defined.

(** X16. Running the API base step again changes nothing more, unless
    the model name starts with [jan/]: a name that got [openai/] in front
    is left alone the second time, but a name of which [jan/] was cut off
    is looked at again, and gets [openai/] in front when what remains
    names no known provider. *)
Theorem api_base_rewrite_again (w : World) (api_base : value) (name : string) :
  llm w !! "api_base" = Some api_base ->
  truthy api_base = true ->
  llm w !! "model" = Some (VStr name) ->
  (~ starts_ci name "jan/" ->
   (api_base_rewrite ;; api_base_rewrite) w = api_base_rewrite w)
  /\ (forall pre rest,
        name = pre +:+ rest -> lower pre = "jan/" ->
        (forall p, In p provider_prefixes -> ~ starts_ci rest p) ->
        api_base_rewrite w =
          (Val tt, set_object Llm (<["model" := VStr rest]> (llm w)) w)
        /\ (api_base_rewrite ;; api_base_rewrite) w =
          (Val tt,
           set_object Llm (<["model" := VStr ("openai/" +:+ rest)]> (llm w)) w)).
Proof.
  intros Hbase Htruthy Hmodel.
  pose proof (api_base_rewrite_run w api_base name Hbase Htruthy Hmodel) as Hrun.
  split.
  - intros Hjan. apply startswith_lower_false in Hjan. rewrite Hjan in Hrun.
    rewrite (run_bind_val _ _ w _ tt Hrun), Hrun.
    destruct (no_known_provider name) eqn:Hk.
    + rewrite (api_base_rewrite_run _ api_base ("openai/" +:+ name)).
      * destruct (openai_is_known name) as [-> ->]. reflexivity.
      * cbn [llm set_object]. now rewrite lookup_insert_ne by discriminate.
      * exact Htruthy.
      * cbn [llm set_object]. now rewrite lookup_insert_eq.
    + rewrite (api_base_rewrite_run w api_base name Hbase Htruthy Hmodel).
      now rewrite Hk, Hjan.
  - intros pre rest Hname Hpre Hrest.
    assert (Hlower : lower name = "jan/" +:+ lower rest).
    { now rewrite Hname, lower_app, Hpre. }
    assert (Hjan : startswith (lower name) "jan/" = true).
    { apply startswith_lower. now exists (lower rest). }
    assert (Hk : no_known_provider name = false).
    { unfold no_known_provider. rewrite Hlower. cbn.
      now rewrite !andb_false_r. }
    assert (Hdrop : drop 4 name = rest).
    { rewrite Hname.
      replace 4%nat with (String.length pre)
        by (rewrite <- (lower_length pre), Hpre; reflexivity).
      apply drop_app. }
    rewrite Hk, Hjan, Hdrop in Hrun. split; [exact Hrun |].
    rewrite (run_bind_val _ _ w _ tt Hrun).
    rewrite (api_base_rewrite_run _ api_base rest).
    + apply no_known_provider_spec in Hrest. rewrite Hrest.
      unfold set_object. cbn [llm interpreter argv stdin importable trace].
      now rewrite insert_insert_eq.
    + cbn [llm set_object]. now rewrite lookup_insert_ne by discriminate.
    + exact Htruthy.
    + cbn [llm set_object]. now rewrite lookup_insert_eq.
Qed.

Lemma api_base_rewrite_again_witness :
  (api_base_rewrite ;; api_base_rewrite)
    (world_with_api_base "jan/mistral") =
  (Val tt,
   set_object Llm
     (<["model" := VStr "openai/mistral"]> (llm (world_with_api_base "jan/mistral")))
     (world_with_api_base "jan/mistral")).
Proof.
  refine (proj2 (proj2 (api_base_rewrite_again
                   (world_with_api_base "jan/mistral")
                   (VStr "http://localhost:1234/v1") "jan/mistral" _ _ _)
                 "jan/" "mistral" _ _ _)).
  - vm_compute; reflexivity.
  - reflexivity.
  - vm_compute; reflexivity.
  - reflexivity.
  - reflexivity.
  - intros p [<-|[<-|[<-|[<-|[<-|[]]]]]] [rest H]; discriminate H.
Defined.

(** ** The package check of OS control mode *)

Section Provisioning.

Variable computer_run : string -> string -> gset string -> gset string.

Lemma missing_among_run (l : list string) (w : World) :
  missing_among l w = (Val (lacking (importable w) l), w).
Proof. reflexivity. Qed.

Lemma install_with_run (missing_packages : list string) (w : World) :
  let after_pip := computer_run "shell" (pip_command "pip") (importable w) in
  install_with computer_run ["pip"; "pip3"] missing_packages w =
  (Val tt,
   {| interpreter := interpreter w; llm := llm w; argv := argv w;
      stdin := stdin w;
      importable :=
        match lacking after_pip missing_packages with
        | [] => after_pip
        | _ :: _ => computer_run "shell" (pip_command "pip3") after_pip
        end;
      trace :=
        (trace w
         ++ [ComputerRun "shell" (pip_command "pip") (VBool true)]
         ++ match lacking after_pip missing_packages with
            | [] => []
            | _ :: _ => [ComputerRun "shell" (pip_command "pip3") (VBool true)]
            end)%list |}).
Proof.
  intros after_pip. cbn [install_with].
  rewrite run_bind. unfold run_on_computer at 1. cbv beta iota.
  rewrite (run_bind_val _ _ _ _ _ (missing_among_run _ _)).
  cbn [importable]. fold after_pip.
  destruct (lacking after_pip missing_packages) as [|q l].
  - unfold skip, mret, M_ret. now rewrite app_nil_r.
  - rewrite run_bind. unfold run_on_computer at 1. cbv beta iota.
    rewrite (run_bind_val _ _ _ _ _ (missing_among_run _ _)).
    cbn [interpreter llm argv stdin importable trace].
    rewrite <- app_assoc.
    now destruct (lacking _ missing_packages).
Qed.

Lemma final_warning_run (w : World) :
  (missing_packages ← missing_among packages ;
   match missing_packages with
   | [] => skip
   | _ :: _ =>
       emit (PrintNotInstalled missing_packages) ;;
       emit PrintInstallManually ;; emit (Sleep 20) ;; emit PrintStartAnyway
   end) w =
  (Val tt,
   {| interpreter := interpreter w; llm := llm w; argv := argv w;
      stdin := stdin w; importable := importable w;
      trace :=
        (trace w
         ++ match lacking (importable w) packages with
            | [] => []
            | q :: more => PrintNotInstalled (q :: more) :: manual_notice
            end)%list |}).
Proof.
  rewrite (run_bind_val _ _ _ _ _ (missing_among_run _ _)).
  destruct (lacking (importable w) packages) as [|q more].
  - unfold skip, mret, M_ret. rewrite app_nil_r. now destruct w.
  - unfold emit, manual_notice. step.
    cbn [interpreter llm argv stdin importable trace].
    now rewrite <- !app_assoc.
Qed.

Lemma provision_packages_run (w : World) (p : string) (missing : list string)
    (line : string) (rest : list string) :
  not_importable w packages = p :: missing ->
  stdin w = line :: rest ->
  let after_pip := computer_run "shell" (pip_command "pip") (importable w) in
  let after_pip3 :=
    match lacking after_pip (p :: missing) with
    | [] => after_pip
    | _ :: _ => computer_run "shell" (pip_command "pip3") after_pip
    end in
  provision_packages computer_run w =
  (Val tt,
   {| interpreter := interpreter w; llm := llm w; argv := argv w;
      stdin := rest; importable := after_pip3;
      trace :=
        (trace w
         ++ [DisplayMissingPackages (p :: missing); Input "(y/n) > "]
         ++ (if String.eqb (lower line) "y" then [] else manual_notice)
         ++ [ComputerRun "shell" (pip_command "pip") (VBool true)]
         ++ match lacking after_pip (p :: missing) with
            | [] => []
            | _ :: _ => [ComputerRun "shell" (pip_command "pip3") (VBool true)]
            end
         ++ match lacking after_pip3 packages with
            | [] => []
            | q :: more => PrintNotInstalled (q :: more) :: manual_notice
            end)%list |}).
Proof.
  intros Hmissing Hstdin after_pip after_pip3.
  unfold provision_packages.
  rewrite (run_bind_val _ _ _ _ _ (missing_among_run _ _)).
  change (lacking (importable w) packages) with (not_importable w packages).
  rewrite Hmissing.
  rewrite run_bind. unfold emit at 1. cbv beta iota.
  rewrite (run_bind_val _ _ _
             {| interpreter := interpreter w; llm := llm w; argv := argv w;
                stdin := rest; importable := importable w;
                trace := (trace w ++ [DisplayMissingPackages (p :: missing)])
                         ++ [Input "(y/n) > "] |} line)
    by (unfold input; cbn [interpreter llm argv stdin importable trace];
        now rewrite Hstdin).
  set (w2 := {| interpreter := interpreter w; stdin := rest |}).
  assert (Hnotice :
    when (negb (String.eqb (lower line) "y"))
      (emit PrintInstallManually ;; emit (Sleep 20) ;; emit PrintStartAnyway) w2
    = (Val tt,
       {| interpreter := interpreter w; llm := llm w; argv := argv w;
          stdin := rest; importable := importable w;
          trace := (trace w2
                    ++ (if String.eqb (lower line) "y" then []
                        else manual_notice))%list |})).
  { destruct (String.eqb (lower line) "y"); cbn [negb when].
    - unfold skip, mret, M_ret. now rewrite app_nil_r.
    - unfold emit, manual_notice. step.
      cbn [interpreter llm argv stdin importable trace].
      now rewrite <- !app_assoc. }
  rewrite (run_bind_val _ _ _ _ tt Hnotice).
  rewrite (run_bind_val _ _ _ _ tt (install_with_run _ _)).
  rewrite final_warning_run.
  cbn [interpreter llm argv stdin importable trace].
  fold after_pip. fold after_pip3.
  subst w2. cbn [trace]. now rewrite <- !app_assoc.
Qed.

Lemma lacking_nil (s : gset string) (l : list string) :
  (forall package, In package l -> package ∈ s) -> lacking s l = [].
Proof.
  intros Hall. induction l as [|x l IH]; [reflexivity |].
  unfold lacking. cbn [List.filter].
  rewrite (bool_decide_eq_true_2 _ (Hall x (or_introl eq_refl))). cbn [negb].
  apply IH. intros package Hin. apply Hall. now right.
Qed.

(** X17. When the answer at the prompt is [y] or [Y] and the packages
    import after [pip install 'open-interpreter[os]'], the package check
    is over: no guidance is printed, [pip3] is not tried, no warning
    follows, and no attribute has been touched. *)
Theorem accepted_install_stops_at_pip (w : World) (p : string)
    (missing : list string) (line : string) (rest : list string) :
  not_importable w packages = p :: missing ->
  stdin w = line :: rest ->
  lower line = "y" ->
  (forall package, In package packages ->
     package ∈ computer_run "shell" (pip_command "pip") (importable w)) ->
  provision_packages computer_run w =
  (Val tt,
   {| interpreter := interpreter w; llm := llm w; argv := argv w;
      stdin := rest;
      importable := computer_run "shell" (pip_command "pip") (importable w);
      trace :=
        (trace w
         ++ [DisplayMissingPackages (p :: missing); Input "(y/n) > ";
             ComputerRun "shell" "pip install 'open-interpreter[os]'"
               (VBool true)])%list |}).
Proof.
  intros Hmissing Hstdin Hline Hall.
  rewrite (provision_packages_run w p missing line rest Hmissing Hstdin).
  assert (Hsub : forall package, In package (p :: missing) ->
            package ∈ computer_run "shell" (pip_command "pip") (importable w)).
  { intros package Hin. apply Hall. rewrite <- Hmissing in Hin.
    unfold not_importable in Hin. now apply List.filter_In in Hin. }
  cbv zeta. rewrite (lacking_nil _ (p :: missing) Hsub).
  rewrite (lacking_nil _ packages Hall). rewrite Hline. reflexivity.
Qed.

(** X18. When one of the packages first found missing still does not
    import after [pip], [pip3] is run as well; and when a package is
    missing after that, the check warns, naming exactly the packages that
    do not import now, and falls through all the same: OS control mode is
    started without them. *)
Theorem failed_install_warns (w : World) (p : string) (missing : list string)
    (line : string) (rest : list string) (q : string) (more : list string) :
  not_importable w packages = p :: missing ->
  stdin w = line :: rest ->
  let after_pip := computer_run "shell" (pip_command "pip") (importable w) in
  let after_pip3 := computer_run "shell" (pip_command "pip3") after_pip in
  lacking after_pip (p :: missing) <> [] ->
  lacking after_pip3 packages = q :: more ->
  provision_packages computer_run w =
  (Val tt,
   {| interpreter := interpreter w; llm := llm w; argv := argv w;
      stdin := rest; importable := after_pip3;
      trace :=
        (trace w
         ++ [DisplayMissingPackages (p :: missing); Input "(y/n) > "]
         ++ (if String.eqb (lower line) "y" then [] else manual_notice)
         ++ [ComputerRun "shell" "pip install 'open-interpreter[os]'" (VBool true);
             ComputerRun "shell" "pip3 install 'open-interpreter[os]'" (VBool true);
             PrintNotInstalled (q :: more)]
         ++ manual_notice)%list |}).
Proof.
  intros Hmissing Hstdin after_pip after_pip3 Hstill Hleft.
  rewrite (provision_packages_run w p missing line rest Hmissing Hstdin).
  cbv zeta. fold after_pip.
  destruct (lacking after_pip (p :: missing)) as [|x l]; [congruence |].
  fold after_pip3. rewrite Hleft. reflexivity.
Qed.

(** X19. The prompt of the package check appears only when something is
    missing: otherwise the check does nothing at all. When something is
    missing and no line can be read, the run stops with [EOFError] after
    the message and the prompt, and nothing has been run on the computer. *)
Theorem package_prompt_edges (w : World) :
  (not_importable w packages = [] ->
   provision_packages computer_run w = (Val tt, w))
  /\ (forall p missing,
        not_importable w packages = p :: missing -> stdin w = [] ->
        provision_packages computer_run w =
        (Raised EOFError,
         {| interpreter := interpreter w; llm := llm w; argv := argv w;
            stdin := []; importable := importable w;
            trace :=
              (trace w
               ++ [DisplayMissingPackages (p :: missing); Input "(y/n) > "])%list
         |})).
Proof.
  split.
  - intros Hnone. unfold provision_packages.
    rewrite (run_bind_val _ _ _ _ _ (missing_among_run _ _)).
    change (lacking (importable w) packages) with (not_importable w packages).
    now rewrite Hnone.
  - intros p missing Hmissing Hstdin. unfold provision_packages.
    rewrite (run_bind_val _ _ _ _ _ (missing_among_run _ _)).
    change (lacking (importable w) packages) with (not_importable w packages).
    rewrite Hmissing.
    rewrite run_bind. unfold emit at 1. cbv beta iota.
    rewrite run_bind. unfold input.
    cbn [interpreter llm argv stdin importable trace].
    rewrite Hstdin. cbn [List.tl]. now rewrite <- app_assoc.
Qed.

End Provisioning.

Lemma accepted_install_stops_at_pip_witness :
  provision_packages installs_all (world0 ["Y"] ["plyer"]) =
  (Val tt,
   {| interpreter := interpreter0; llm := llm0; argv := ["interpreter"];
      stdin := [];
      importable := installs_all "shell" (pip_command "pip") (list_to_set ["plyer"]);
      trace :=
        [DisplayMissingPackages ["cv2"; "pyautogui"; "pyperclip"; "pywinctl"];
         Input "(y/n) > ";
         ComputerRun "shell" "pip install 'open-interpreter[os]'" (VBool true)] |}).
Proof.
  apply (accepted_install_stops_at_pip installs_all (world0 ["Y"] ["plyer"])
           "cv2" ["pyautogui"; "pyperclip"; "pywinctl"] "Y" []).
  - vm_compute; reflexivity.
  - reflexivity.
  - reflexivity.
  - intros package Hin. unfold installs_all.
    apply elem_of_union_r, elem_of_list_to_set, list_elem_of_In. exact Hin.
Defined.

Lemma failed_install_warns_witness :
  provision_packages no_install (world0 ["y"] ["plyer"]) =
  (Val tt,
   {| interpreter := interpreter0; llm := llm0; argv := ["interpreter"];
      stdin := []; importable := list_to_set ["plyer"];
      trace :=
        [DisplayMissingPackages ["cv2"; "pyautogui"; "pyperclip"; "pywinctl"];
         Input "(y/n) > ";
         ComputerRun "shell" "pip install 'open-interpreter[os]'" (VBool true);
         ComputerRun "shell" "pip3 install 'open-interpreter[os]'" (VBool true);
         PrintNotInstalled ["cv2"; "pyautogui"; "pyperclip"; "pywinctl"];
         PrintInstallManually; Sleep 20; PrintStartAnyway] |}).
Proof.
  apply (failed_install_warns no_install (world0 ["y"] ["plyer"])
           "cv2" ["pyautogui"; "pyperclip"; "pywinctl"] "y" []
           "cv2" ["pyautogui"; "pyperclip"; "pywinctl"]).
  - vm_compute; reflexivity.
  - reflexivity.
  - vm_compute; discriminate.
  - vm_compute; reflexivity.
Defined.

Lemma package_prompt_edges_witness :
  provision_packages no_install (world0 [] ["plyer"]) =
  (Raised EOFError,
   {| interpreter := interpreter0; llm := llm0; argv := ["interpreter"];
      stdin := []; importable := list_to_set ["plyer"];
      trace :=
        [DisplayMissingPackages ["cv2"; "pyautogui"; "pyperclip"; "pywinctl"];
         Input "(y/n) > "] |}).
Proof.
  apply (proj2 (package_prompt_edges no_install (world0 [] ["plyer"]))
           "cv2" ["pyautogui"; "pyperclip"; "pywinctl"]).
  - vm_compute; reflexivity.
  - reflexivity.
Defined.

(** ** From the model defaults to the chat *)

Section LastSteps.

Variable check_for_update : option bool.

Lemma update_check_quiet (w : World) :
  exists w' checks,
    update_check check_for_update w = (Val tt, w')
    /\ interpreter w' = interpreter w /\ llm w' = llm w
    /\ trace w' = (trace w ++ checks)%list
    /\ (forall e, In e checks -> e = CheckForUpdate \/ e = DisplayNewVersion).
Proof.
  unfold update_check.
  destruct (interpreter w !! "offline") as [offline|];
    [destruct (truthy offline); [| destruct check_for_update as [[|]|]] |].
  all: try (exists w, []; rewrite app_nil_r; repeat split; now intros e []).
  - eexists _, [CheckForUpdate; DisplayNewVersion].
    split; [reflexivity |]. cbn [interpreter llm trace].
    rewrite <- app_assoc. repeat split.
    intros e [<-|[<-|[]]]; auto.
  - eexists _, [CheckForUpdate]. split; [reflexivity |].
    cbn [interpreter llm trace]. repeat split.
    intros e [<-|[]]; auto.
  - eexists _, [CheckForUpdate]. split; [reflexivity |].
    cbn [interpreter llm trace]. repeat split.
    intros e [<-|[]]; auto.
Qed.

Lemma api_base_rewrite_quiet (w : World) (api_base : value) (name : string) :
  llm w !! "api_base" = Some api_base ->
  llm w !! "model" = Some (VStr name) ->
  exists w',
    api_base_rewrite w = (Val tt, w')
    /\ interpreter w' = interpreter w /\ trace w' = trace w.
Proof.
  intros Hbase Hmodel. destruct (truthy api_base) eqn:Htruthy.
  - rewrite (api_base_rewrite_run w api_base name Hbase Htruthy Hmodel).
    eexists. split; [reflexivity |].
    destruct (no_known_provider name); [now split |].
    destruct (startswith (lower name) "jan/"); now split.
  - exists w. split; [| now split]. unfold api_base_rewrite.
    rewrite (run_bind_val _ _ w w api_base) by now apply getattr_some.
    now rewrite Htruthy.
Qed.

Lemma final_dispatch_run (args : namespace) (w : World) :
  ns_wf args ->
  final_dispatch args w =
  if flag args "conversations"
  then (Returned, add_event ConversationNavigator w)
  else if flag args "server"
       then (Returned, add_event Server w)
       else (Val tt,
             add_event Chat
               (set_object Interpreter
                  (<["in_terminal_interface" := VBool true]> (interpreter w))
                  (add_event ValidateLlmSettings w))).
Proof.
  intros Hwf.
  destruct (ns_wf_get args "conversations" Hwf eq_refl) as [c Hc].
  destruct (ns_wf_get args "server" Hwf eq_refl) as [s Hs].
  rewrite <- (flag_get _ _ _ Hc), <- (flag_get _ _ _ Hs).
  unfold final_dispatch, arg. rewrite Hc, Hs. step.
  destruct (truthy c); [reflexivity |].
  destruct (truthy s); reflexivity.
Qed.

(** X20. Once the options are resolved, the run ends in one of three
    ways. With [--conversations] the conversation navigator is opened and
    the entry point returns, even if [--server] is given too; with
    [--server] alone the server is started and the entry point returns;
    otherwise the model settings are validated, the interpreter is marked
    as running in the terminal interface, and the chat begins. Only the
    last way validates the model settings or sets that mark, and on all
    three the model defaults, the check for an update and the API base step
    have been gone through first, printing nothing but what the check for
    an update prints. *)
Theorem run_ends_three_ways (args : namespace) (w : World) (name : string)
    (api_base : value) :
  ns_wf args ->
  has_model_settings (llm w) name ->
  llm w !! "api_base" = Some api_base ->
  exists w' checks,
    (model_default_inferencer ;;
     update_check check_for_update ;;
     api_base_rewrite ;;
     final_dispatch args) w =
    (if flag args "conversations" || flag args "server" then Returned else Val tt,
     w')
    /\ (forall e, In e checks -> e = CheckForUpdate \/ e = DisplayNewVersion)
    /\ trace w' =
       (trace w ++ checks
        ++ (if flag args "conversations" then [ConversationNavigator]
            else if flag args "server" then [Server]
                 else [ValidateLlmSettings; Chat]))%list
    /\ interpreter w' =
       (if flag args "conversations" || flag args "server" then interpreter w
        else <["in_terminal_interface" := VBool true]> (interpreter w)).
Proof.
  intros Hwf Hhas Hbase.
  pose proof (model_default_inferencer_run w name Hhas) as Hrun1.
  set (w1 := set_object Llm (inferred name (llm w)) w) in Hrun1.
  assert (Hhas1 : has_model_settings (llm w1) name)
    by (apply inferred_has; exact Hhas).
  assert (Hbase1 : llm w1 !! "api_base" = Some api_base).
  { unfold w1. cbn [llm set_object]. unfold inferred. cbv zeta.
    repeat match goal with
           | |- context [if ?b then _ else _] => destruct b
           end;
      rewrite ?fill_three_lookup_ne by discriminate; exact Hbase. }
  destruct (update_check_quiet w1) as (w2 & checks & Hrun2 & Hi2 & Hl2 & Ht2 & Hc).
  destruct Hhas1 as (Hmodel1 & _).
  destruct (api_base_rewrite_quiet w2 api_base name) as (w3 & Hrun3 & Hi3 & Ht3);
    [now rewrite Hl2 | now rewrite Hl2 |].
  rewrite (run_bind_val _ _ w w1 tt Hrun1).
  rewrite (run_bind_val _ _ w1 w2 tt Hrun2).
  rewrite (run_bind_val _ _ w2 w3 tt Hrun3).
  rewrite (final_dispatch_run args w3 Hwf).
  assert (Hi : interpreter w3 = interpreter w) by (rewrite Hi3, Hi2; reflexivity).
  assert (Ht : trace w3 = (trace w ++ checks)%list)
    by (rewrite Ht3, Ht2; reflexivity).
  destruct (flag args "conversations"); [| destruct (flag args "server")];
    cbn [orb]; eexists _, checks; (split; [reflexivity |]);
    (split; [exact Hc |]);
    cbn [interpreter trace add_event set_object]; rewrite ?Hi, Ht;
    rewrite <- ?app_assoc; split; reflexivity.
Qed.

End LastSteps.

Lemma run_ends_three_ways_witness :
  exists w' checks,
    (model_default_inferencer ;;
     update_check (Some true) ;;
     api_base_rewrite ;;
     final_dispatch (supplied [("server", VBool true)])) (world0 [] []) =
    (Returned, w')
    /\ trace w' = (checks ++ [Server])%list.
Proof.
  destruct (run_ends_three_ways (Some true) (supplied [("server", VBool true)])
              (world0 [] []) "gpt-4" VNone)
    as (w' & checks & Hrun & _ & Ht & _).
  - vm_compute; reflexivity.
  - repeat split; try (vm_compute; reflexivity); eexists; vm_compute; reflexivity.
  - vm_compute; reflexivity.
  - exists w', checks. split; [exact Hrun | exact Ht].
Defined.
